(** * mlogin: login items, launchd background items and system extensions

    A shallow embedding of [cmd/mlogin/main.go] and of the terminal
    browser ([uiModel], [Update], [rebuildTable]) together with the
    properties of the aggregation, deletion and browsing logic.

    Go values are modelled as follows: [string] is a byte string, [int] is
    [Z], a slice is a [list], a [map[string]bool] is a [gmap string bool],
    an [error] is a record holding its message, [nil] pointers and absent
    errors are [None].  Calls that leave the process (launchctl, osascript,
    PlistBuddy, the file system) are answered by an explicit environment and
    recorded in an explicit world. *)

From Stdlib Require Import ZArith Ascii String List Lia.
From Stdlib Require Import Sorting.Sorted Sorting.Permutation DecimalString.
From stdpp Require Import base strings gmap list sorting.

Local Open Scope Z_scope.

(** ** Byte strings *)

Definition len (s : string) : Z := Z.of_nat (String.length s).

Fixpoint str_drop (n : nat) (s : string) : string :=
  match n, s with
  | O, _ => s
  | S n', String _ s' => str_drop n' s'
  | S _, EmptyString => EmptyString
  end.

Fixpoint str_take (n : nat) (s : string) : string :=
  match n, s with
  | O, _ => EmptyString
  | S n', String c s' => String c (str_take n' s')
  | S _, EmptyString => EmptyString
  end.

Fixpoint str_rev_onto (s acc : string) : string :=
  match s with
  | EmptyString => acc
  | String c s' => str_rev_onto s' (String c acc)
  end.

Definition str_rev (s : string) : string := str_rev_onto s EmptyString.

Fixpoint str_map (f : ascii -> ascii) (s : string) : string :=
  match s with
  | EmptyString => EmptyString
  | String c s' => String (f c) (str_map f s')
  end.

Fixpoint str_forall (p : ascii -> bool) (s : string) : bool :=
  match s with
  | EmptyString => true
  | String c s' => p c && str_forall p s'
  end.

(** [s[i:]] and [s[:i]]. *)
Definition slice_from (s : string) (i : Z) : string := str_drop (Z.to_nat i) s.
Definition slice_to (s : string) (i : Z) : string := str_take (Z.to_nat i) s.

(** Go compares strings bytewise. *)
Definition str_ltb (a b : string) : bool :=
  match String.compare a b with Lt => true | _ => false end.

(** [fmt.Sprintf("%d", n)] and [fmt.Sprintf("%t", b)]. *)
Definition fmt_d (n : Z) : string := NilZero.string_of_int (Z.to_int n).
Definition fmt_t (b : bool) : string := if b then "true" else "false".

(** ** Package strings, on bytes *)

Module strings.

Definition RuneSelf : N := 128.

Definition isASCIIbyte (c : ascii) : bool := (N_of_ascii c <? RuneSelf)%N.

Definition lowerByte (c : ascii) : ascii :=
  let n := N_of_ascii c in
  if ((65 <=? n) && (n <=? 90))%N then ascii_of_N (n + 32) else c.

Definition asciiSpace (c : ascii) : bool :=
  match c with
  | "009" | "010" | "011" | "012" | "013" | " " => true
  | _ => false
  end%char.

Fixpoint HasPrefix (s prefix : string) {struct prefix} : bool :=
  match prefix, s with
  | EmptyString, _ => true
  | String p ps, String c cs => Ascii.eqb c p && HasPrefix cs ps
  | String _ _, EmptyString => false
  end.

Definition HasSuffix (s suffix : string) : bool :=
  (len suffix <=? len s) && String.eqb (slice_from s (len s - len suffix)) suffix.

Fixpoint Contains (s substr : string) : bool :=
  HasPrefix s substr ||
  match s with
  | EmptyString => false
  | String _ s' => Contains s' substr
  end.

(** [lastIndexFrom s substr pos found]: the offset of the last match at
    or after the head of [s], which sits at offset [pos]. *)
Fixpoint lastIndexFrom (s substr : string) (pos found : Z) : Z :=
  let found' := if HasPrefix s substr then pos else found in
  match s with
  | EmptyString => found'
  | String _ s' => lastIndexFrom s' substr (pos + 1) found'
  end.

Definition LastIndex (s substr : string) : Z := lastIndexFrom s substr 0 (-1).

Definition TrimPrefix (s prefix : string) : string :=
  if HasPrefix s prefix then slice_from s (len prefix) else s.

Definition TrimSuffix (s suffix : string) : string :=
  if HasSuffix s suffix then slice_to s (len s - len suffix) else s.

Fixpoint trimLeftBy (p : ascii -> bool) (s : string) : string :=
  match s with
  | EmptyString => EmptyString
  | String c s' => if p c then trimLeftBy p s' else s
  end.

Definition trimRightBy (p : ascii -> bool) (s : string) : string :=
  str_rev (trimLeftBy p (str_rev s)).

Fixpoint inCutset (cutset : string) (c : ascii) : bool :=
  match cutset with
  | EmptyString => false
  | String d ds => Ascii.eqb c d || inCutset ds c
  end.

(** [strings.Trim] for an ASCII cutset (the only use is ["[]"]). *)
Definition Trim (s cutset : string) : string :=
  trimLeftBy (inCutset cutset) (trimRightBy (inCutset cutset) s).

(** [strings.Split] for a non-empty separator. [skip] counts the bytes of
    a separator that was just matched and is still to be passed. *)
Fixpoint splitFrom (s sep : string) (skip : nat) (cur : string) : list string :=
  match s with
  | EmptyString => [str_rev cur]
  | String c s' =>
      match skip with
      | S k => splitFrom s' sep k cur
      | O =>
          if HasPrefix s sep
          then str_rev cur :: splitFrom s' sep (String.length sep - 1) EmptyString
          else splitFrom s' sep O (String c cur)
      end
  end.

Definition Split (s sep : string) : list string := splitFrom s sep O EmptyString.

(** The ASCII path of [strings.Fields]. *)
Fixpoint fieldsFrom (s : string) (cur : string) : list string :=
  match s with
  | EmptyString => if String.eqb cur "" then [] else [str_rev cur]
  | String c s' =>
      if asciiSpace c
      then (if String.eqb cur "" then fieldsFrom s' "" else str_rev cur :: fieldsFrom s' "")
      else fieldsFrom s' (String c cur)
  end.

End strings.

(** ** Errors and records of main.go *)

(** An [error]: its message, and whether [os.IsNotExist] holds of it. *)
Record error := mkError {
  Error : string;
  IsNotExist : bool;
}.

Definition errors_New (msg : string) : error := mkError msg false.

Inductive result (A : Type) : Type :=
| Ok (a : A)
| Err (e : error).
Arguments Ok {A} a.
Arguments Err {A} e.

Record LoginItem := mkLoginItem {
  li_Name : string;
  li_Path : string;
  li_Hidden : bool;
}.

Record BackgroundItem := mkBackgroundItem {
  bg_Label : string;
  bg_Path : string;
  bg_Scope : string;
  bg_Kind : string;
  bg_Loaded : bool;
  bg_Disabled : option bool;
}.

Record SystemExtensionItem := mkSystemExtensionItem {
  ext_Category : string;
  ext_Enabled : bool;
  ext_Active : bool;
  ext_TeamID : string;
  ext_BundleID : string;
  ext_Version : string;
  ext_Name : string;
  ext_State : string;
}.

(** ** The terminal toolkit

    [tea.KeyMsg] is reduced to what [Update] reads of it: whether its type
    is [tea.KeyRunes], and the text [msg.String()] returns. *)

Inductive KeyType := KeyRunes | KeyNotRunes.

Record KeyMsg := mkKey {
  key_Type : KeyType;
  key_String : string;
}.

(** The state of the table widget that [Update] and [rebuildTable] use:
    [SetRows], [SetColumns], [SetHeight] store their argument and
    [SetCursor] clamps its argument to the rows present, as the widget's
    [clamp(n, 0, len(rows)-1)] does.  (Releases of the widget in which
    [SetRows] also pulls the cursor back into the rows give the same
    table after [rebuildTable], whose last step is always [SetCursor].) *)
Module table.

Record Column := mkColumn {
  Title : string;
  Width : Z;
}.

Definition Row : Type := list string.

Record Model := mkModel {
  cols : list Column;
  rows : list Row;
  cursor : Z;
  height : Z;
}.

Definition clamp (v low high : Z) : Z := Z.min (Z.max v low) high.

Definition Rows (t : Model) : list Row := rows t.
Definition Cursor (t : Model) : Z := cursor t.

Definition SetHeight (h : Z) (t : Model) : Model :=
  mkModel (cols t) (rows t) (cursor t) h.

Definition SetRows (r : list Row) (t : Model) : Model :=
  mkModel (cols t) r (cursor t) (height t).

Definition SetColumns (c : list Column) (t : Model) : Model :=
  mkModel c (rows t) (cursor t) (height t).

Definition SetCursor (n : Z) (t : Model) : Model :=
  mkModel (cols t) (rows t) (clamp n 0 (Z.of_nat (length (rows t)) - 1)) (height t).

(** [table.New] as [newUIModel] calls it. *)
Definition New : Model := mkModel [mkColumn "Loading..." 20] [] 0 10.

End table.

(** ** The parts of Go's libraries taken as parameters

    [strings.ToLower], [strings.TrimSpace] and [strings.Fields] work on
    bytes as long as the input is ASCII and switch to table-driven code at
    the first byte above 127; [trimLastRune] decodes runes.  The
    table-driven halves are not part of this program and are taken as
    parameters, and so are [filepath.Join], the line scanner, the JSON
    decoder and the key handling of the table widget. *)

Class GoLib := {
  (** [strings.Map(unicode.ToLower, s)], reached for non-ASCII [s] *)
  mapUnicodeToLower : string -> string;
  (** [strings.TrimFunc(s, unicode.IsSpace)] *)
  trimFuncIsSpace : string -> string;
  (** [strings.TrimRightFunc(s, unicode.IsSpace)] *)
  trimRightFuncIsSpace : string -> string;
  (** [strings.FieldsFunc(s, unicode.IsSpace)] *)
  fieldsFuncIsSpace : string -> list string;
  (** [filepath.Join(dir, name)] *)
  filepath_Join : string -> string -> string;
  (** the lines a [bufio.Scanner] yields on the given bytes, and [s.Err()] *)
  bufio_ScanLines : string -> list string * option error;
  (** [json.Unmarshal] into a [[]LoginItem] *)
  json_Unmarshal_LoginItems : string -> result (list LoginItem);
  (** the table widget's own [Update] on a key (cursor movement); for any
      other message it is the identity, and its command is always nil *)
  table_Update : KeyMsg -> table.Model -> table.Model;
  (** [string(r[:len(r)-1])] for [r = []rune(s)] and a non-ASCII [s] *)
  dropLastRune : string -> string;
}.

Section WithLib.
Context {lib : GoLib}.

Definition ToLower (s : string) : string :=
  if str_forall strings.isASCIIbyte s then str_map strings.lowerByte s
  else mapUnicodeToLower s.

(** [TrimSpace] scans from the front, then from the back, and hands the
    rest to the Unicode-aware routines at the first non-ASCII byte. *)
Fixpoint trimSpaceBack (r : string) : string :=
  match r with
  | EmptyString => EmptyString
  | String c r' =>
      if negb (strings.isASCIIbyte c) then trimRightFuncIsSpace (str_rev r)
      else if strings.asciiSpace c then trimSpaceBack r'
      else str_rev r
  end.

Fixpoint TrimSpace (s : string) : string :=
  match s with
  | EmptyString => EmptyString
  | String c s' =>
      if negb (strings.isASCIIbyte c) then trimFuncIsSpace s
      else if strings.asciiSpace c then TrimSpace s'
      else trimSpaceBack (str_rev s)
  end.

Definition Fields (s : string) : list string :=
  if str_forall strings.isASCIIbyte s then strings.fieldsFrom s ""
  else fieldsFuncIsSpace s.

End WithLib.

(** [strconv.Atoi]: an optional sign and decimal digits, within 64 bits. *)
Fixpoint digitsValue (s : string) (acc : Z) : option Z :=
  match s with
  | EmptyString => Some acc
  | String c s' =>
      match Ascii.is_nat c with
      | Some d => digitsValue s' (10 * acc + Z.of_nat d)
      | None => None
      end
  end.

Definition Atoi (s : string) : result Z :=
  let syntax := Err (errors_New ("strconv.Atoi: parsing " +:+ s +:+ ": invalid syntax")) in
  let range := Err (errors_New ("strconv.Atoi: parsing " +:+ s +:+ ": value out of range")) in
  let '(neg, body) :=
    match s with
    | String "-" r => (true, r)
    | String "+" r => (false, r)
    | _ => (false, s)
    end in
  match body with
  | EmptyString => syntax
  | _ =>
      match digitsValue body 0 with
      | None => syntax
      | Some v =>
          let n := if neg then - v else v in
          if (- 2 ^ 63 <=? n) && (n <=? 2 ^ 63 - 1) then Ok n else range
      end
  end.

(** [sort.Slice] is Go's library sort; it is not stable and promises only
    an arrangement ordered by [less].  The model is the insertion sort the
    library runs on short slices: element [i] sinks to the left while it is
    less than its left neighbour.  The sorted prefix is kept reversed.
    The properties below use that the result is an ordered arrangement of
    the same records and nothing else about it. *)
Section SortSlice.
Context {A : Type} (less : A -> A -> bool).

Fixpoint sink (x : A) (rprefix : list A) : list A :=
  match rprefix with
  | [] => [x]
  | y :: r => if less x y then y :: sink x r else x :: rprefix
  end.

Definition sort_Slice (l : list A) : list A :=
  rev (fold_left (fun acc x => sink x acc) l []).
End SortSlice.

(** ** parseBundleVersion *)

Definition parseBundleVersion (value : string) : string * string :=
  let i := strings.LastIndex value " (" in
  if (i =? -1) || negb (strings.HasSuffix value ")") then (value, "")
  else (slice_to value i,
        strings.TrimSuffix (strings.TrimPrefix (slice_from value (i + 1)) "(") ")").

(** ** The world outside the process *)

Inductive Script :=
| loginListScript
| removeLoginScript.

Inductive Command :=
| cmd_launchctl (args : list string)
| cmd_osascript (script : Script) (env : gmap string string)
| cmd_systemextensionsctl (args : list string)
| cmd_PlistBuddy (args : list string).

Inductive Event :=
| EvRun (c : Command)
| EvRemove (path : string)
| EvPrint (line : string).

(** The files that exist, and what the program has done so far. *)
Record World := mkWorld {
  files : gset string;
  trace : list Event;
}.

Record ExecOut := mkExecOut {
  stdout : string;
  stderr : string;
  run_err : option error;
}.

Record DirEntry := mkDirEntry {
  de_Name : string;
  de_IsDir : bool;
}.

(** What the operating system answers. A child process is given the world
    it runs in, so the same command may answer differently later on; child
    processes of this program leave the set of files alone. *)
Class Env := {
  filepath_Abs : string -> result string;
  os_UserHomeDir : result string;
  user_Current_Uid : result string;
  run_command : World -> Command -> ExecOut;
  (** a failure of [os.Remove] on an existing file, other than absence *)
  remove_fault : World -> string -> option string;
  os_ReadDir : World -> string -> result (list DirEntry);
}.

(** State passing over the world. *)
Definition M (A : Type) : Type := World -> A * World.

Global Instance M_ret : MRet M := fun A a w => (a, w).
Global Instance M_bind : MBind M := fun A B f m w => let '(a, w1) := m w in f a w1.

Fixpoint foldM {A B : Type} (f : B -> A -> M B) (l : list A) (b : B) : M B :=
  match l with
  | [] => mret b
  | a :: l' => b' ← f b a; foldM f l' b'
  end.

Definition record (e : Event) : M unit :=
  fun w => (tt, mkWorld (files w) (trace w ++ [e])).

Definition quote : string := String "034" EmptyString.

Section Program.
Context {lib : GoLib} {env : Env}.

(** [cmd.Run()] / [cmd.Output()] of an [exec.Command]. *)
Definition run (c : Command) : M ExecOut :=
  fun w => (run_command w c, mkWorld (files w) (trace w ++ [EvRun c])).

Definition os_Remove (name : string) : M (option error) :=
  fun w =>
    let w1 := mkWorld (files w) (trace w ++ [EvRemove name]) in
    if decide (name ∈ files w) then
      match remove_fault w name with
      | Some msg => (Some (mkError ("remove " +:+ name +:+ ": " +:+ msg) false), w1)
      | None => (None, mkWorld (files w ∖ {[name]}) (trace w1))
      end
    else (Some (mkError ("remove " +:+ name +:+ ": no such file or directory") true), w1).

Definition readDir (dir : string) : M (result (list DirEntry)) :=
  fun w => (os_ReadDir w dir, w).

Definition runLaunchctl (args : list string) : M (option error) :=
  out ← run (cmd_launchctl args);
  mret (match run_err out with
        | Some err =>
            let msg := TrimSpace (stderr out) in
            if negb (String.eqb msg "")
            then Some (errors_New (Error err +:+ ": " +:+ msg))
            else Some err
        | None => None
        end).

Definition launchDomain (scope : string) : result string :=
  let s := ToLower scope in
  if String.eqb s "system" then Ok "system"
  else if String.eqb s "user" then
    match user_Current_Uid with
    | Err err => Err err
    | Ok u_Uid =>
        match Atoi u_Uid with
        | Err err => Err err
        | Ok uid => Ok ("gui/" +:+ fmt_d uid)
        end
    end
  else Err (errors_New "scope must be user or system").

Definition runOSA (script : Script) (e : gmap string string) : M (string * string * option error) :=
  out ← run (cmd_osascript script e);
  mret (stdout out, stderr out, run_err out).

Definition isIgnorableBootoutError (err : error) : bool :=
  let msg := ToLower (Error err) in
  strings.Contains msg "no such process" ||
  strings.Contains msg "service could not be found" ||
  strings.Contains msg "not found" ||
  strings.Contains msg "domain does not support specified action".

Definition deleteBackgroundItem (label plistPath scope : string) : M (option error) :=
  match filepath_Abs plistPath with
  | Err err => mret (Some err)
  | Ok absPath =>
      match launchDomain scope with
      | Err err => mret (Some err)
      | Ok domain =>
          (* Attempt to stop the service first; if already stopped or not found, continue. *)
          berr ← runLaunchctl ["bootout"; domain +:+ "/" +:+ label];
          match (match berr with
                 | Some err =>
                     if negb (isIgnorableBootoutError err)
                     then Some (errors_New ("bootout failed for " +:+ label +:+ ": " +:+ Error err))
                     else None
                 | None => None
                 end) with
          | Some fatal => mret (Some fatal)
          | None =>
              rerr ← os_Remove absPath;
              match rerr with
              | Some err =>
                  if IsNotExist err then mret None
                  else mret (Some (errors_New ("remove plist " +:+ absPath +:+ ": " +:+ Error err)))
              | None =>
                  _ ← record (EvPrint ("deleted background item " +:+ label +:+ " (" +:+ absPath +:+ ")"));
                  mret None
              end
          end
      end
  end.

Definition loginLess (a b : LoginItem) : bool :=
  str_ltb (ToLower (li_Name a)) (ToLower (li_Name b)).

Definition listLoginItems : M (result (list LoginItem)) :=
  '(out, errout, err) ← runOSA loginListScript ∅;
  match err with
  | Some err =>
      mret (Err (errors_New ("osascript login list failed: " +:+ Error err +:+ ": " +:+ TrimSpace errout)))
  | None =>
      match json_Unmarshal_LoginItems (TrimSpace out) with
      | Err err => mret (Err (errors_New ("parse login items: " +:+ Error err)))
      | Ok items => mret (Ok (sort_Slice loginLess items))
      end
  end.

Definition removeLoginItem (name path : string) : M (option error) :=
  let e : gmap string string := if negb (String.eqb name "") then {["REMOVE_NAME" := name]} else ∅ in
  match (if negb (String.eqb path "")
         then match filepath_Abs path with
              | Err err => Err err
              | Ok abspath => Ok (<["REMOVE_PATH" := abspath]> e)
              end
         else Ok e) with
  | Err err => mret (Some err)
  | Ok e =>
      '(_, errout, err) ← runOSA removeLoginScript e;
      match err with
      | Some err =>
          mret (Some (errors_New ("remove login item failed: " +:+ Error err +:+ ": " +:+ TrimSpace errout)))
      | None =>
          _ ← record (EvPrint "removed matching login items");
          mret None
      end
  end.

Definition splitTabColumns (line : string) : list string :=
  fold_left (fun out p =>
               let p := TrimSpace p in
               if String.eqb p "" then out else out ++ [p])
            (strings.Split line (String "009" EmptyString)) [].

Definition readPlistLabel (path : string) : M (result string) :=
  out ← run (cmd_PlistBuddy ["-c"; "Print :Label"; path]);
  match run_err out with
  | Some err => mret (Err err)
  | None => mret (Ok (TrimSpace (stdout out)))
  end.

Definition getLoadedUserLabels : M (gmap string bool * option error) :=
  out ← run (cmd_launchctl ["list"]);
  match run_err out with
  | Some err => mret (∅, Some err)
  | None =>
      let '(lines, serr) := bufio_ScanLines (stdout out) in
      mret (fold_left (fun (labels : gmap string bool) raw =>
                         let line := TrimSpace raw in
                         if String.eqb line "" || strings.HasPrefix line "PID" then labels
                         else match Fields line with
                              | _ :: _ :: p2 :: _ => <[p2 := true]> labels
                              | _ => labels
                              end)
                      lines ∅, serr)
  end.

Definition getDisabledLabels (domain : string) : M (gmap string bool * option error) :=
  out ← run (cmd_launchctl ["print-disabled"; domain]);
  match run_err out with
  | Some err => mret (∅, Some err)
  | None =>
      let '(lines, serr) := bufio_ScanLines (stdout out) in
      mret (fold_left (fun (labels : gmap string bool) raw =>
                         let line := TrimSpace raw in
                         if negb (strings.Contains line "=>") then labels
                         else match strings.Split line "=>" with
                              | [p0; p1] =>
                                  let label := strings.Trim (TrimSpace p0) quote in
                                  let state := strings.Trim (TrimSpace (strings.TrimSuffix p1 ";")) quote in
                                  if String.eqb label "" then labels
                                  else <[label := String.eqb state "disabled" || String.eqb state "true"]> labels
                              | _ => labels
                              end)
                      lines ∅, serr)
  end.

Record plistDir := mkPlistDir {
  d_scope : string;
  d_kind : string;
  d_dir : string;
}.

(** The directories to scan for the (lower-cased) scope. *)
Definition backgroundDirs (scope : string) : result (list plistDir) :=
  match (if String.eqb scope "user" || String.eqb scope "all"
         then match os_UserHomeDir with
              | Err err => Err err
              | Ok home => Ok [mkPlistDir "user" "agent" (filepath_Join home "Library/LaunchAgents")]
              end
         else Ok []) with
  | Err err => Err err
  | Ok dirs =>
      Ok (if String.eqb scope "system" || String.eqb scope "all"
          then dirs ++ [mkPlistDir "system" "agent" "/Library/LaunchAgents";
                        mkPlistDir "system" "daemon" "/Library/LaunchDaemons"]
          else dirs)
  end.

Definition fetchLoadedUser (scope : string) : M (gmap string bool) :=
  if String.eqb scope "user" || String.eqb scope "all"
  then '(labels, err) ← getLoadedUserLabels;
       mret (match err with None => labels | Some _ => ∅ end)
  else mret ∅.

(** [disabledByScope] and the warnings of its two fetches. *)
Definition fetchDisabledByScope (scope : string)
  : M (gmap string (gmap string bool) * list string) :=
  '(disabledByScope, warnings) ←
    (if String.eqb scope "user" || String.eqb scope "all"
     then match launchDomain "user" with
          | Ok domain =>
              '(m, err) ← getDisabledLabels domain;
              match err with
              | Some err => mret (∅, ["could not read user disabled state: " +:+ Error err])
              | None => mret ({["user" := m]}, [])
              end
          | Err _ => mret (∅, [])
          end
     else mret (∅, []));
  if String.eqb scope "system" || String.eqb scope "all"
  then '(m, err) ← getDisabledLabels "system";
       match err with
       | Some err =>
           mret (disabledByScope,
                 warnings ++ ["could not read system disabled state (try sudo): " +:+ Error err])
       | None => mret (<["system" := m]> disabledByScope, warnings)
       end
  else mret (disabledByScope, warnings).

Definition scanEntry (loadedUser : gmap string bool)
    (disabledByScope : gmap string (gmap string bool))
    (d : plistDir) (items : list BackgroundItem) (e : DirEntry) : M (list BackgroundItem) :=
  if de_IsDir e || negb (strings.HasSuffix (ToLower (de_Name e)) ".plist") then mret items
  else
    let p := filepath_Join (d_dir d) (de_Name e) in
    r ← readPlistLabel p;
    match r with
    | Err _ => mret items
    | Ok label =>
        if String.eqb label "" then mret items
        else
          let item := mkBackgroundItem label p (d_scope d) (d_kind d)
                        (String.eqb (d_scope d) "user" && default false (loadedUser !! label))
                        None in
          let item :=
            match disabledByScope !! d_scope d with
            | Some m =>
                match m !! label with
                | Some disabled =>
                    mkBackgroundItem (bg_Label item) (bg_Path item) (bg_Scope item)
                      (bg_Kind item) (bg_Loaded item) (Some disabled)
                | None => item
                end
            | None => item
            end in
          mret (items ++ [item])
    end.

Definition scanDir (loadedUser : gmap string bool)
    (disabledByScope : gmap string (gmap string bool))
    (st : list BackgroundItem * list string) (d : plistDir)
  : M (list BackgroundItem * list string) :=
  let '(items, warnings) := st in
  r ← readDir (d_dir d);
  match r with
  | Err err =>
      if IsNotExist err then mret (items, warnings)
      else mret (items, warnings ++ ["could not read " +:+ d_dir d +:+ ": " +:+ Error err])
  | Ok entries =>
      items ← foldM (scanEntry loadedUser disabledByScope d) entries items;
      mret (items, warnings)
  end.

Definition backgroundLess (a b : BackgroundItem) : bool :=
  if negb (String.eqb (bg_Scope a) (bg_Scope b))
  then str_ltb (bg_Scope a) (bg_Scope b)
  else str_ltb (bg_Label a) (bg_Label b).

Definition listBackgroundItems (scope : string)
  : M (result (list BackgroundItem * list string)) :=
  let scope := ToLower scope in
  if negb (String.eqb scope "user") && negb (String.eqb scope "system")
     && negb (String.eqb scope "all")
  then mret (Err (errors_New "scope must be user, system, or all"))
  else
    match backgroundDirs scope with
    | Err err => mret (Err err)
    | Ok dirs =>
        loadedUser ← fetchLoadedUser scope;
        '(disabledByScope, warnings) ← fetchDisabledByScope scope;
        '(items, warnings) ← foldM (scanDir loadedUser disabledByScope) dirs ([], warnings);
        mret (Ok (sort_Slice backgroundLess items, warnings))
    end.

(** One line of [systemextensionsctl list]. *)
Definition extensionLine (st : list SystemExtensionItem * string) (raw : string)
  : list SystemExtensionItem * string :=
  let '(items, currentCategory) := st in
  let line := TrimSpace raw in
  if String.eqb line "" || strings.HasSuffix line "extension(s)" then st
  else if strings.HasPrefix line "--- " then
    match Fields line with
    | _ :: p1 :: _ => (items, p1)
    | _ => st
    end
  else if strings.HasPrefix line "enabled" then st
  else
    match splitTabColumns line with
    | c0 :: c1 :: c2 :: c3 :: c4 :: c5 :: _ =>
        let '(bundleID, version) := parseBundleVersion c3 in
        let state := strings.Trim c5 "[]" in
        (items ++ [mkSystemExtensionItem currentCategory (String.eqb c0 "*")
                     (String.eqb c1 "*") c2 bundleID version c4 state],
         currentCategory)
    | _ => st
    end.

Definition extensionLess (a b : SystemExtensionItem) : bool :=
  if negb (String.eqb (ext_Category a) (ext_Category b))
  then str_ltb (ext_Category a) (ext_Category b)
  else str_ltb (ext_Name a) (ext_Name b).

Definition listSystemExtensions : M (result (list SystemExtensionItem)) :=
  out ← run (cmd_systemextensionsctl ["list"]);
  match run_err out with
  | Some err => mret (Err err)
  | None =>
      let '(lines, serr) := bufio_ScanLines (stdout out) in
      let '(items, _) := fold_left extensionLine lines ([], "") in
      match serr with
      | Some err => mret (Err err)
      | None => mret (Ok (sort_Slice extensionLess items))
      end
  end.

End Program.

(** ** The interactive browser *)

(** Go's [int] arithmetic on 64 bits. *)
Definition wrap64 (z : Z) : Z := (z + 2 ^ 63) mod 2 ^ 64 - 2 ^ 63.
Definition int_add (a b : Z) : Z := wrap64 (a + b).
Definition int_sub (a b : Z) : Z := wrap64 (a - b).
Definition int_div (a b : Z) : Z := wrap64 (Z.quot a b).
Definition int_rem (a b : Z) : Z := Z.rem a b.

(** [l[i]]: [None] stands for the run-time panic of an index out of range. *)
Definition index {A : Type} (l : list A) (i : Z) : option A :=
  if i <? 0 then None else l !! Z.to_nat i.

Definition slen {A : Type} (l : list A) : Z := Z.of_nat (length l).

Definition uiTab : Type := Z.
Definition tabLogin : uiTab := 0.
Definition tabBackground : uiTab := 1.
Definition tabExtensions : uiTab := 2.

Inductive Msg :=
| WindowSizeMsg (Width Height : Z)
| loginLoadedMsg (items : list LoginItem) (err : option error)
| backgroundLoadedMsg (items : list BackgroundItem) (warnings : list string) (err : option error)
| extensionsLoadedMsg (items : list SystemExtensionItem) (err : option error)
| actionDoneMsg (status : string) (err : option error)
| teaKeyMsg (k : KeyMsg)
| otherMsg.

(** The commands [Update] hands to the runtime; a nil command is [None]. *)
Inductive Cmd :=
| tea_Quit
| refreshLoginCmd
| refreshBackgroundCmd
| refreshExtensionsCmd
| removeLoginCmd (path : string)
| toggleBackgroundCmd (label scope : string) (enable : bool)
| deleteBackgroundCmd (item : BackgroundItem).

Record uiModel := mkUI {
  width : Z;
  height : Z;
  tab : uiTab;
  table : table.Model;
  loginItems : list LoginItem;
  loginRows : list Z;
  bgItems : list BackgroundItem;
  bgRows : list Z;
  extItems : list SystemExtensionItem;
  extRows : list Z;
  warnings : list string;
  filter : string;
  filterActive : bool;
  confirmMode : bool;
  confirmText : string;
  pendingBGDel : option BackgroundItem;
  status : string;
  err : option error;
}.

Definition zeroLoginItem : LoginItem := mkLoginItem "" "" false.
Definition zeroBackgroundItem : BackgroundItem := mkBackgroundItem "" "" "" "" false None.

Definition newUIModel : uiModel :=
  mkUI 0 0 tabLogin table.New [] [] [] [] [] [] [] "" false false "" None
       "Loading login/background items..." None.

(** Field updates. *)
Definition set_table (t : table.Model) (m : uiModel) : uiModel :=
  mkUI (width m) (height m) (tab m) t (loginItems m) (loginRows m) (bgItems m) (bgRows m)
       (extItems m) (extRows m) (warnings m) (filter m) (filterActive m) (confirmMode m)
       (confirmText m) (pendingBGDel m) (status m) (err m).
Definition set_size (w h : Z) (m : uiModel) : uiModel :=
  mkUI w h (tab m) (table m) (loginItems m) (loginRows m) (bgItems m) (bgRows m)
       (extItems m) (extRows m) (warnings m) (filter m) (filterActive m) (confirmMode m)
       (confirmText m) (pendingBGDel m) (status m) (err m).
Definition set_tab (t : uiTab) (m : uiModel) : uiModel :=
  mkUI (width m) (height m) t (table m) (loginItems m) (loginRows m) (bgItems m) (bgRows m)
       (extItems m) (extRows m) (warnings m) (filter m) (filterActive m) (confirmMode m)
       (confirmText m) (pendingBGDel m) (status m) (err m).
Definition set_loginItems (l : list LoginItem) (m : uiModel) : uiModel :=
  mkUI (width m) (height m) (tab m) (table m) l (loginRows m) (bgItems m) (bgRows m)
       (extItems m) (extRows m) (warnings m) (filter m) (filterActive m) (confirmMode m)
       (confirmText m) (pendingBGDel m) (status m) (err m).
Definition set_loginRows (r : list Z) (m : uiModel) : uiModel :=
  mkUI (width m) (height m) (tab m) (table m) (loginItems m) r (bgItems m) (bgRows m)
       (extItems m) (extRows m) (warnings m) (filter m) (filterActive m) (confirmMode m)
       (confirmText m) (pendingBGDel m) (status m) (err m).
Definition set_bgItems (l : list BackgroundItem) (m : uiModel) : uiModel :=
  mkUI (width m) (height m) (tab m) (table m) (loginItems m) (loginRows m) l (bgRows m)
       (extItems m) (extRows m) (warnings m) (filter m) (filterActive m) (confirmMode m)
       (confirmText m) (pendingBGDel m) (status m) (err m).
Definition set_bgRows (r : list Z) (m : uiModel) : uiModel :=
  mkUI (width m) (height m) (tab m) (table m) (loginItems m) (loginRows m) (bgItems m) r
       (extItems m) (extRows m) (warnings m) (filter m) (filterActive m) (confirmMode m)
       (confirmText m) (pendingBGDel m) (status m) (err m).
Definition set_extItems (l : list SystemExtensionItem) (m : uiModel) : uiModel :=
  mkUI (width m) (height m) (tab m) (table m) (loginItems m) (loginRows m) (bgItems m) (bgRows m)
       l (extRows m) (warnings m) (filter m) (filterActive m) (confirmMode m)
       (confirmText m) (pendingBGDel m) (status m) (err m).
Definition set_extRows (r : list Z) (m : uiModel) : uiModel :=
  mkUI (width m) (height m) (tab m) (table m) (loginItems m) (loginRows m) (bgItems m) (bgRows m)
       (extItems m) r (warnings m) (filter m) (filterActive m) (confirmMode m)
       (confirmText m) (pendingBGDel m) (status m) (err m).
Definition set_warnings (l : list string) (m : uiModel) : uiModel :=
  mkUI (width m) (height m) (tab m) (table m) (loginItems m) (loginRows m) (bgItems m) (bgRows m)
       (extItems m) (extRows m) l (filter m) (filterActive m) (confirmMode m)
       (confirmText m) (pendingBGDel m) (status m) (err m).
Definition set_filter (f : string) (m : uiModel) : uiModel :=
  mkUI (width m) (height m) (tab m) (table m) (loginItems m) (loginRows m) (bgItems m) (bgRows m)
       (extItems m) (extRows m) (warnings m) f (filterActive m) (confirmMode m)
       (confirmText m) (pendingBGDel m) (status m) (err m).
Definition set_filterActive (b : bool) (m : uiModel) : uiModel :=
  mkUI (width m) (height m) (tab m) (table m) (loginItems m) (loginRows m) (bgItems m) (bgRows m)
       (extItems m) (extRows m) (warnings m) (filter m) b (confirmMode m)
       (confirmText m) (pendingBGDel m) (status m) (err m).
(** [pendingBGDel], [confirmMode] and [confirmText] are always set together. *)
Definition set_confirm (p : option BackgroundItem) (c : bool) (t : string) (m : uiModel) : uiModel :=
  mkUI (width m) (height m) (tab m) (table m) (loginItems m) (loginRows m) (bgItems m) (bgRows m)
       (extItems m) (extRows m) (warnings m) (filter m) (filterActive m) c t p (status m) (err m).
Definition set_status (s : string) (m : uiModel) : uiModel :=
  mkUI (width m) (height m) (tab m) (table m) (loginItems m) (loginRows m) (bgItems m) (bgRows m)
       (extItems m) (extRows m) (warnings m) (filter m) (filterActive m) (confirmMode m)
       (confirmText m) (pendingBGDel m) s (err m).
Definition set_err (e : option error) (m : uiModel) : uiModel :=
  mkUI (width m) (height m) (tab m) (table m) (loginItems m) (loginRows m) (bgItems m) (bgRows m)
       (extItems m) (extRows m) (warnings m) (filter m) (filterActive m) (confirmMode m)
       (confirmText m) (pendingBGDel m) (status m) e.

Section Browser.
Context {lib : GoLib} {env : Env}.

Local Notation "a == b" := (String.eqb a b) (at level 70, no associativity).

Definition max (a b : Z) : Z := if a >? b then a else b.

Definition matchesLoginFilter (it : LoginItem) (q : string) : bool :=
  let q := TrimSpace (ToLower q) in
  if q == "" then true
  else strings.Contains (ToLower (li_Name it)) q || strings.Contains (ToLower (li_Path it)) q.

Definition matchesBackgroundFilter (it : BackgroundItem) (q : string) : bool :=
  let q := TrimSpace (ToLower q) in
  if q == "" then true
  else strings.Contains (ToLower (bg_Label it)) q ||
       strings.Contains (ToLower (bg_Path it)) q ||
       strings.Contains (ToLower (bg_Scope it)) q ||
       strings.Contains (ToLower (bg_Kind it)) q.

Definition matchesExtensionsFilter (it : SystemExtensionItem) (q : string) : bool :=
  let q := TrimSpace (ToLower q) in
  if q == "" then true
  else strings.Contains (ToLower (ext_Category it)) q ||
       strings.Contains (ToLower (ext_TeamID it)) q ||
       strings.Contains (ToLower (ext_BundleID it)) q ||
       strings.Contains (ToLower (ext_Name it)) q ||
       strings.Contains (ToLower (ext_State it)) q.

Definition trimLastRune (s : string) : string :=
  if str_forall strings.isASCIIbyte s
  then (if len s =? 0 then s else slice_to s (len s - 1))
  else dropLastRune s.

Definition selectedLoginItem (m : uiModel) : option (LoginItem * bool) :=
  let idx := table.Cursor (table m) in
  if (idx <? 0) || (idx >=? slen (loginRows m)) then Some (zeroLoginItem, false)
  else
    itemIdx ← index (loginRows m) idx;
    if (itemIdx <? 0) || (itemIdx >=? slen (loginItems m)) then Some (zeroLoginItem, false)
    else it ← index (loginItems m) itemIdx; Some (it, true).

Definition selectedBackgroundItem (m : uiModel) : option (BackgroundItem * bool) :=
  let idx := table.Cursor (table m) in
  if (idx <? 0) || (idx >=? slen (bgRows m)) then Some (zeroBackgroundItem, false)
  else
    itemIdx ← index (bgRows m) idx;
    if (itemIdx <? 0) || (itemIdx >=? slen (bgItems m)) then Some (zeroBackgroundItem, false)
    else it ← index (bgItems m) itemIdx; Some (it, true).

(** The loop shared by the three tabs of [rebuildTable]: range over the
    items with their index, skip those the filter rejects, append a row and
    the index of its item. *)
Definition visibleStep {A : Type} (matches : A -> bool) (render : A -> table.Row)
    (acc : list table.Row * list Z * Z) (it : A) : list table.Row * list Z * Z :=
  let '(rows, idxs, i) := acc in
  if negb (matches it) then (rows, idxs, i + 1)
  else (rows ++ [render it], idxs ++ [i], i + 1).

Definition visible {A : Type} (matches : A -> bool) (render : A -> table.Row)
    (items : list A) : list table.Row * list Z :=
  fst (fold_left (visibleStep matches render) items ([], [], 0)).

Definition loginRow (it : LoginItem) : table.Row :=
  [li_Name it; fmt_t (li_Hidden it); li_Path it].

Definition backgroundRow (it : BackgroundItem) : table.Row :=
  let disabled := match bg_Disabled it with Some d => fmt_t d | None => "?" end in
  [bg_Scope it; bg_Kind it; fmt_t (bg_Loaded it); disabled; bg_Label it; bg_Path it].

Definition extensionRow (it : SystemExtensionItem) : table.Row :=
  [ext_Category it; fmt_t (ext_Enabled it); fmt_t (ext_Active it); ext_TeamID it;
   ext_BundleID it; ext_Name it; ext_State it].

Definition rebuildTable (cursor : Z) (m : uiModel) : uiModel :=
  let tableHeight := max 4 (int_sub (height m) 8) in
  let m := set_table (table.SetHeight tableHeight (table m)) m in
  let m := set_table (table.SetRows [] (table m)) m in
  let m :=
    if tab m =? tabLogin then
      let nameW := max 20 (int_div (width m) 5) in
      let hiddenW := 8 in
      let pathW := max 30 (int_sub (int_sub (int_sub (width m) nameW) hiddenW) 8) in
      let m := set_table (table.SetColumns
                 [table.mkColumn "Name" nameW; table.mkColumn "Hidden" hiddenW;
                  table.mkColumn "Path" pathW] (table m)) m in
      let '(rows, idxs) :=
        visible (fun it => matchesLoginFilter it (filter m)) loginRow (loginItems m) in
      set_table (table.SetRows rows (table m)) (set_loginRows idxs m)
    else if tab m =? tabBackground then
      let scopeW := 8 in
      let kindW := 8 in
      let loadedW := 8 in
      let disabledW := 8 in
      let labelW := max 22 (int_div (width m) 4) in
      let pathW := max 25 (int_sub (int_sub (int_sub (int_sub (int_sub (int_sub
                     (width m) scopeW) kindW) loadedW) disabledW) labelW) 12) in
      let m := set_table (table.SetColumns
                 [table.mkColumn "Scope" scopeW; table.mkColumn "Kind" kindW;
                  table.mkColumn "Loaded" loadedW; table.mkColumn "Disabled" disabledW;
                  table.mkColumn "Label" labelW; table.mkColumn "Path" pathW] (table m)) m in
      let '(rows, idxs) :=
        visible (fun it => matchesBackgroundFilter it (filter m)) backgroundRow (bgItems m) in
      set_table (table.SetRows rows (table m)) (set_bgRows idxs m)
    else
      let catW := max 24 (int_div (width m) 5) in
      let enabledW := 7 in
      let activeW := 6 in
      let teamW := 10 in
      let bundleW := max 28 (int_div (width m) 4) in
      let stateW := max 16 (int_div (width m) 8) in
      let nameW := max 22 (int_sub (int_sub (int_sub (int_sub (int_sub (int_sub (int_sub
                     (width m) catW) enabledW) activeW) teamW) bundleW) stateW) 14) in
      let m := set_table (table.SetColumns
                 [table.mkColumn "Category" catW; table.mkColumn "Enabled" enabledW;
                  table.mkColumn "Active" activeW; table.mkColumn "TeamID" teamW;
                  table.mkColumn "BundleID" bundleW; table.mkColumn "Name" nameW;
                  table.mkColumn "State" stateW] (table m)) m in
      let '(rows, idxs) :=
        visible (fun it => matchesExtensionsFilter it (filter m)) extensionRow (extItems m) in
      set_table (table.SetRows rows (table m)) (set_extRows idxs m) in
  if slen (table.Rows (table m)) =? 0 then set_table (table.SetCursor 0 (table m)) m
  else
    let cursor := if cursor <? 0 then 0 else cursor in
    let cursor :=
      if cursor >=? slen (table.Rows (table m))
      then slen (table.Rows (table m)) - 1 else cursor in
    set_table (table.SetCursor cursor (table m)) m.

(** The [tea.KeyMsg] case of [Update]. [None] is a run-time panic. *)
Definition updateKey (m : uiModel) (msg : KeyMsg) : option (uiModel * option Cmd) :=
  let key := key_String msg in
  let tableUpdate := Some (set_table (table_Update msg (table m)) m, None) in
  if confirmMode m then
    if key == "ctrl+c" then Some (m, Some tea_Quit)
    else if key == "y" then
      match pendingBGDel m with
      | Some item =>
          Some (set_status "Deleting background item..." (set_confirm None false "" m),
                Some (deleteBackgroundCmd item))
      | None => Some (set_confirm None false "" m, None)
      end
    else if (key == "n") || (key == "esc") then
      Some (set_status "Delete cancelled" (set_confirm None false "" m), None)
    else Some (m, None)
  else if filterActive m then
    if key == "ctrl+c" then Some (m, Some tea_Quit)
    else if (key == "enter") || (key == "esc") then
      let m := set_filterActive false m in
      Some (set_status ("Filter applied (" +:+ fmt_d (slen (table.Rows (table m))) +:+ " results)") m,
            None)
    else if key == "backspace" then
      if negb (filter m == "")
      then Some (rebuildTable 0 (set_filter (trimLastRune (filter m)) m), None)
      else Some (m, None)
    else
      match key_Type msg with
      | KeyRunes => Some (rebuildTable 0 (set_filter (filter m +:+ key) m), None)
      | KeyNotRunes => Some (m, None)
      end
  else
    if (key == "ctrl+c") || (key == "q") then Some (m, Some tea_Quit)
    else if (key == "tab") || (key == "right") || (key == "l") then
      Some (rebuildTable 0 (set_tab (int_rem (int_add (tab m) 1) 3) m), None)
    else if (key == "shift+tab") || (key == "left") || (key == "h") then
      Some (rebuildTable 0 (set_tab (int_rem (int_add (tab m) 2) 3) m), None)
    else if key == "r" then
      if tab m =? tabLogin then
        Some (set_status "Refreshing login items..." m, Some refreshLoginCmd)
      else if tab m =? tabExtensions then
        Some (set_status "Refreshing system extensions..." m, Some refreshExtensionsCmd)
      else Some (set_status "Refreshing background items..." m, Some refreshBackgroundCmd)
    else if (key == "/") || (key == "f") then
      Some (set_status "Filter mode: type to filter, enter/esc to finish"
              (set_filterActive true m), None)
    else if key == "c" then
      if negb (filter m == "")
      then Some (set_status "Filter cleared" (rebuildTable 0 (set_filter "" m)), None)
      else Some (m, None)
    else if key == "x" then
      if tab m =? tabLogin then
        '(item, ok) ← selectedLoginItem m;
        if negb ok then Some (m, None)
        else Some (set_status "Removing login item..." m, Some (removeLoginCmd (li_Path item)))
      else if tab m =? tabBackground then
        '(item, ok) ← selectedBackgroundItem m;
        if negb ok then Some (m, None)
        else Some (set_confirm (Some item) true
                     ("Delete " +:+ bg_Label item +:+ " and remove plist file? (y/n)") m, None)
      else tableUpdate
    else if (key == "e") || (key == "d") then
      if tab m =? tabBackground then
        '(item, ok) ← selectedBackgroundItem m;
        if negb ok then Some (m, None)
        else
          let enable := key == "e" in
          Some (set_status "Applying background item change..." m,
                Some (toggleBackgroundCmd (bg_Label item) (bg_Scope item) enable))
      else tableUpdate
    else tableUpdate.

Definition Update (m : uiModel) (msg : Msg) : option (uiModel * option Cmd) :=
  match msg with
  | WindowSizeMsg w h => Some (rebuildTable 0 (set_size w h m), None)
  | loginLoadedMsg items e =>
      let m :=
        match e with
        | Some _ => set_status "Failed to load login items" (set_err e m)
        | None =>
            set_err None
              (set_status ("Loaded " +:+ fmt_d (slen items) +:+ " login items")
                 (set_loginItems items m))
        end in
      Some (rebuildTable 0 m, None)
  | backgroundLoadedMsg items ws e =>
      let m :=
        match e with
        | Some _ => set_status "Failed to load background items" (set_err e m)
        | None =>
            set_err None
              (set_status ("Loaded " +:+ fmt_d (slen items) +:+ " background items")
                 (set_warnings ws (set_bgItems items m)))
        end in
      Some (rebuildTable 0 m, None)
  | extensionsLoadedMsg items e =>
      let m :=
        match e with
        | Some _ => set_status "Failed to load system extensions" (set_err e m)
        | None =>
            set_err None
              (set_status ("Loaded " +:+ fmt_d (slen items) +:+ " system extensions")
                 (set_extItems items m))
        end in
      Some (rebuildTable 0 m, None)
  | actionDoneMsg st e =>
      match e with
      | Some _ => Some (set_status "Action failed" (set_err e m), None)
      | None =>
          let m := set_status st (set_err None m) in
          if tab m =? tabLogin then Some (m, Some refreshLoginCmd)
          else if tab m =? tabExtensions then Some (m, Some refreshExtensionsCmd)
          else Some (m, Some refreshBackgroundCmd)
      end
  | teaKeyMsg k => updateKey m k
  | otherMsg => Some (m, None)
  end.

(** What the runtime does with a command: it runs the closure once and
    feeds the message it returns back to [Update].  [tea.Quit] ends the
    program, so no message comes back. *)
Definition runCmd (c : Cmd) : M (option Msg) :=
  match c with
  | tea_Quit => mret None
  | refreshLoginCmd =>
      r ← listLoginItems;
      mret (Some (match r with
                  | Ok items => loginLoadedMsg items None
                  | Err e => loginLoadedMsg [] (Some e)
                  end))
  | refreshBackgroundCmd =>
      r ← listBackgroundItems "all";
      mret (Some (match r with
                  | Ok (items, ws) => backgroundLoadedMsg items ws None
                  | Err e => backgroundLoadedMsg [] [] (Some e)
                  end))
  | refreshExtensionsCmd =>
      r ← listSystemExtensions;
      mret (Some (match r with
                  | Ok items => extensionsLoadedMsg items None
                  | Err e => extensionsLoadedMsg [] (Some e)
                  end))
  | removeLoginCmd path =>
      e ← removeLoginItem "" path;
      mret (Some (match e with
                  | Some _ => actionDoneMsg "" e
                  | None => actionDoneMsg "Removed login item" None
                  end))
  | toggleBackgroundCmd label scope enable =>
      match launchDomain scope with
      | Err e => mret (Some (actionDoneMsg "" (Some e)))
      | Ok domain =>
          let verb := if enable then "enable" else "disable" in
          e ← runLaunchctl [verb; domain +:+ "/" +:+ label];
          match e with
          | Some _ => mret (Some (actionDoneMsg "" e))
          | None =>
              let state := if enable then "enabled" else "disabled" in
              mret (Some (actionDoneMsg (state +:+ " " +:+ label) None))
          end
      end
  | deleteBackgroundCmd item =>
      e ← deleteBackgroundItem (bg_Label item) (bg_Path item) (bg_Scope item);
      mret (Some (match e with
                  | Some _ => actionDoneMsg "" e
                  | None => actionDoneMsg ("Deleted background item " +:+ bg_Label item) None
                  end))
  end.

End Browser.

(** ** Printing the lists

    [fmt.Printf] with the verbs [%-Ns] and [%-Nt]: the value, then blanks
    up to a width of [N] counted in runes.  On ASCII text a rune is a byte;
    for other text the count is [utf8.RuneCountInString], a parameter. *)

Section Printing.
Variable utf8_RuneCountInString : string -> Z.

Fixpoint spaces (n : nat) : string :=
  match n with
  | O => EmptyString
  | S n' => String " " (spaces n')
  end.

Definition runeCount (s : string) : Z :=
  if str_forall strings.isASCIIbyte s then len s else utf8_RuneCountInString s.

(** [%-Ns] and [%-Nt]. *)
Definition fmt_s_left (width : Z) (s : string) : string :=
  s +:+ spaces (Z.to_nat (width - runeCount s)).
Definition fmt_t_left (width : Z) (b : bool) : string := fmt_s_left width (fmt_t b).

Definition println (line : string) : M unit := record (EvPrint line).

Definition loginHeader : string :=
  fmt_s_left 32 "NAME" +:+ " " +:+ fmt_s_left 6 "HIDDEN" +:+ " " +:+ "PATH".

Definition loginLine (it : LoginItem) : string :=
  fmt_s_left 32 (li_Name it) +:+ " " +:+ fmt_t_left 6 (li_Hidden it) +:+ " " +:+ li_Path it.

Definition printLoginItems (items : list LoginItem) : M unit :=
  if Z.of_nat (length items) =? 0 then println "No login items found"
  else
    _ ← println loginHeader;
    foldM (fun _ it => println (loginLine it)) items tt.

Definition backgroundHeader : string :=
  fmt_s_left 8 "SCOPE" +:+ " " +:+ fmt_s_left 7 "KIND" +:+ " " +:+ fmt_s_left 7 "LOADED"
  +:+ " " +:+ fmt_s_left 8 "DISABLE" +:+ " " +:+ "LABEL".

Definition backgroundLine (it : BackgroundItem) : string :=
  let disabled := match bg_Disabled it with Some d => fmt_t d | None => "?" end in
  fmt_s_left 8 (bg_Scope it) +:+ " " +:+ fmt_s_left 7 (bg_Kind it) +:+ " " +:+
  fmt_t_left 7 (bg_Loaded it) +:+ " " +:+ fmt_s_left 8 disabled +:+ " " +:+ bg_Label it.

Definition backgroundPathLine (it : BackgroundItem) : string := "  " +:+ bg_Path it.

Definition printBackgroundItems (items : list BackgroundItem) : M unit :=
  if Z.of_nat (length items) =? 0 then println "No background items found"
  else
    _ ← println backgroundHeader;
    foldM (fun _ it => _ ← println (backgroundLine it); println (backgroundPathLine it))
      items tt.

Definition extensionsHeader : string :=
  fmt_s_left 43 "CATEGORY" +:+ " " +:+ fmt_s_left 7 "ENABLED" +:+ " " +:+
  fmt_s_left 6 "ACTIVE" +:+ " " +:+ fmt_s_left 10 "TEAMID" +:+ " " +:+
  fmt_s_left 38 "BUNDLEID" +:+ " " +:+ "NAME".

Definition extensionPrintLine (it : SystemExtensionItem) : string :=
  fmt_s_left 43 (ext_Category it) +:+ " " +:+ fmt_t_left 7 (ext_Enabled it) +:+ " " +:+
  fmt_t_left 6 (ext_Active it) +:+ " " +:+ fmt_s_left 10 (ext_TeamID it) +:+ " " +:+
  fmt_s_left 38 (ext_BundleID it) +:+ " " +:+ ext_Name it.

Definition printSystemExtensions (items : list SystemExtensionItem) : M unit :=
  if Z.of_nat (length items) =? 0 then println "No system extensions found"
  else
    _ ← println extensionsHeader;
    foldM (fun _ it => println (extensionPrintLine it)) items tt.

End Printing.

(** ** Concrete libraries, environments and browser states *)

(** A library instance for closed examples.  Non-ASCII text is left as it
    is, the scanner splits at line feeds, the table moves its cursor one row
    on the arrow keys, and the JSON decoder finds Raycast listed before
    alpha. *)
Definition exampleLib : GoLib := {|
  mapUnicodeToLower := fun s => s;
  trimFuncIsSpace := fun s => s;
  trimRightFuncIsSpace := fun s => s;
  fieldsFuncIsSpace := fun s => [s];
  filepath_Join := fun d n => d +:+ "/" +:+ n;
  bufio_ScanLines := fun s => (strings.Split s (String "010" EmptyString), None);
  json_Unmarshal_LoginItems := fun _ =>
    Ok [mkLoginItem "Raycast" "/Applications/Raycast.app" false;
        mkLoginItem "alpha" "/Applications/alpha.app" true];
  table_Update := fun k t =>
    if String.eqb (key_String k) "down" then table.SetCursor (table.Cursor t + 1) t
    else if String.eqb (key_String k) "up" then table.SetCursor (table.Cursor t - 1) t
    else t;
  dropLastRune := fun s => s;
|}.

Definition lf : string := String "010" EmptyString.

(** A machine on which launchctl refuses every state change, the user's
    disabled services are readable and the system's are not, and one plist
    with the label com.a sits in each of the user's and the system's
    directories. *)
Definition deniedEnv : Env := {|
  filepath_Abs := fun p => Ok p;
  os_UserHomeDir := Ok "/Users/test";
  user_Current_Uid := Ok "501";
  run_command := fun _ c =>
    match c with
    | cmd_launchctl ["list"] =>
        mkExecOut ("PID Status Label" +:+ lf +:+ "77 0 com.a" +:+ lf) "" None
    | cmd_launchctl ["print-disabled"; "gui/501"] =>
        mkExecOut ("disabled services = {" +:+ lf +:+ quote +:+ "com.a" +:+ quote
                   +:+ " => disabled" +:+ lf +:+ "}") "" None
    | cmd_launchctl _ =>
        mkExecOut "" "Operation not permitted" (Some (errors_New "exit status 1"))
    | cmd_PlistBuddy _ => mkExecOut ("com.a" +:+ lf) "" None
    | _ => mkExecOut "" "" (Some (errors_New "exit status 1"))
    end;
  remove_fault := fun _ _ => None;
  os_ReadDir := fun _ d =>
    if String.eqb d "/Library/LaunchAgents"
    then Err (mkError "open /Library/LaunchAgents: no such file or directory" true)
    else Ok [mkDirEntry "com.a.plist" false; mkDirEntry "notes.txt" false];
|}.

(** A machine on which the service to boot out is already gone. *)
Definition goneEnv : Env := {|
  filepath_Abs := fun p => Ok p;
  os_UserHomeDir := Ok "/Users/test";
  user_Current_Uid := Ok "501";
  run_command := fun _ c =>
    match c with
    | cmd_launchctl ("bootout" :: _) =>
        mkExecOut "" "Boot-out failed: 3: No such process" (Some (errors_New "exit status 3"))
    | _ => mkExecOut "" "" None
    end;
  remove_fault := fun _ _ => None;
  os_ReadDir := fun _ _ => Ok [];
|}.

Definition emptyWorld : World := mkWorld ∅ [].
Definition agentPlist : string := "/Users/test/Library/LaunchAgents/com.foo.agent.plist".
Definition agentWorld : World := mkWorld {[agentPlist]} [].

Definition twoLoginItems : list LoginItem :=
  [mkLoginItem "Alpha" "/Applications/Alpha.app" false;
   mkLoginItem "Raycast" "/Applications/Raycast.app" false].

Definition fooAgent : BackgroundItem :=
  mkBackgroundItem "com.foo.agent" agentPlist "user" "agent" true None.

Definition twoBackgroundItems : list BackgroundItem :=
  [mkBackgroundItem "com.foo.alpha" "/tmp/a.plist" "user" "agent" true None;
   mkBackgroundItem "com.foo.raycast" "/tmp/r.plist" "user" "agent" true None].

Definition keyRune (s : string) : Msg := teaKeyMsg (mkKey KeyRunes s).
Definition keyNamed (s : string) : Msg := teaKeyMsg (mkKey KeyNotRunes s).

(** The state after a run of messages, as the runtime delivers them. *)
Definition deliver (m : uiModel) (msgs : list Msg) : uiModel :=
  fold_left (fun m msg =>
               match Update (lib := exampleLib) m msg with
               | Some (m', _) => m'
               | None => m
               end) msgs m.

(** The browser after both lists have arrived on a 120x30 terminal. *)
Definition loadedModel : uiModel :=
  Eval vm_compute in
    deliver newUIModel [WindowSizeMsg 120 30; loginLoadedMsg twoLoginItems None;
                        backgroundLoadedMsg twoBackgroundItems [] None].

(** ... then the cursor moved down to the second login row. *)
Definition secondRowModel : uiModel :=
  Eval vm_compute in deliver loadedModel [keyNamed "down"].

(** ... or the filter "ab" being typed. *)
Definition editingModel : uiModel :=
  Eval vm_compute in deliver loadedModel [keyRune "/"; keyRune "a"; keyRune "b"].

(** ... or the filter "ray" typed and entered. *)
Definition filteredModel : uiModel :=
  Eval vm_compute in
    deliver loadedModel [keyRune "/"; keyRune "r"; keyRune "a"; keyRune "y"; keyNamed "enter"].

(** The background tab with com.foo.agent listed and selected, and the
    same browser after the delete key: confirm-pending. *)
Definition agentModel : uiModel :=
  Eval vm_compute in
    deliver newUIModel [WindowSizeMsg 120 30; backgroundLoadedMsg [fooAgent] [] None;
                        keyNamed "tab"].

Definition confirmModel : uiModel :=
  Eval vm_compute in deliver agentModel [keyRune "x"].

(** The background tab before anything was loaded: no rows. *)
Definition emptyBackgroundModel : uiModel :=
  Eval vm_compute in deliver newUIModel [WindowSizeMsg 120 30; keyNamed "tab"].

(** A snapshot that shrank under a stale index slice: row 1 still points at
    item 1, but only item 0 is left. *)
Definition shrunkModel : uiModel :=
  mkUI 120 30 tabBackground (table.mkModel [] [[]; []] 1 22)
       [mkLoginItem "Alpha" "/Applications/Alpha.app" false] [0; 1]
       [fooAgent] [0; 1] [] [] [] "" false false "" None "" None.

(** ** Vocabulary of the properties *)

(** The value ends with a parenthesised version: [bundle (version)]. *)
Definition has_trailing_version (value : string) : Prop :=
  exists bundle version, value = bundle +:+ " (" +:+ version +:+ ")".

(** *** Filtered rows and selection *)

(** The indices, counted from [i], of the items a filter accepts. *)
Fixpoint matching_from {A : Type} (matches : A -> bool) (i : Z) (items : list A) : list Z :=
  match items with
  | [] => []
  | it :: rest =>
      if matches it then i :: matching_from matches (i + 1) rest
      else matching_from matches (i + 1) rest
  end.

(** What the index slice of a tab must be for a filtered view: strictly
    increasing (so no two rows share an item), holding exactly the indices
    of the accepted items, and row [k] showing item [idxs[k]], which is the
    [k]-th accepted item of the unfiltered list. *)
Definition row_mapping {A : Type} (matches : A -> bool) (render : A -> table.Row)
    (items : list A) (idxs : list Z) (rows : list table.Row) : Prop :=
  StronglySorted Z.lt idxs /\
  (forall k1 k2 i, idxs !! k1 = Some i -> idxs !! k2 = Some i -> k1 = k2) /\
  (forall i, i ∈ idxs <-> exists it, index items i = Some it /\ matches it = true) /\
  length rows = length idxs /\
  (forall k i, idxs !! k = Some i ->
     exists it, index items i = Some it /\ rows !! k = Some (render it) /\
                List.filter matches items !! k = Some it).

(** The two guards of [selectedLoginItem] and [selectedBackgroundItem]. *)
Definition selection_in_range {A : Type} (cursor : Z) (rows : list Z) (items : list A) : Prop :=
  exists i, index rows cursor = Some i /\ 0 <= i < slen items.

Definition selection_out_of_range {A : Type} (cursor : Z) (rows : list Z) (items : list A) : Prop :=
  cursor < 0 \/ slen rows <= cursor \/
  exists i, index rows cursor = Some i /\ (i < 0 \/ slen items <= i).

(** The shape both selectors share: guard the cursor, map it, guard the
    index, fetch the item. *)
Definition selected {A : Type} (zero : A) (cursor : Z) (rows : list Z) (items : list A)
  : option (A * bool) :=
  if (cursor <? 0) || (cursor >=? slen rows) then Some (zero, false)
  else
    itemIdx ← index rows cursor;
    if (itemIdx <? 0) || (itemIdx >=? slen items) then Some (zero, false)
    else it ← index items itemIdx; Some (it, true).

(** Neither confirm-pending nor filter-editing. *)
Definition normalMode (m : uiModel) : Prop :=
  confirmMode m = false /\ filterActive m = false.

(** The tab after and before [t], as the tab keys compute them. *)
Definition nextTab (t : uiTab) : uiTab := int_rem (int_add t 1) 3.
Definition prevTab (t : uiTab) : uiTab := int_rem (int_add t 2) 3.

(** *** Orders *)

(** [a] may stand before [b]: [b] is not less than [a]. *)
Definition not_after {A : Type} (less : A -> A -> bool) (a b : A) : Prop := less b a = false.

Definition str_lt (a b : string) : Prop := str_ltb a b = true.
Definition str_le (a b : string) : Prop := str_ltb b a = false.

(** Ascending by a first key, then by a second. *)
Definition lex_le {A : Type} (k1 k2 : A -> string) (a b : A) : Prop :=
  str_lt (k1 a) (k1 b) \/ (k1 a = k1 b /\ str_le (k2 a) (k2 b)).

Definition lexLess {A : Type} (k1 k2 : A -> string) (a b : A) : bool :=
  if negb (String.eqb (k1 a) (k1 b)) then str_ltb (k1 a) (k1 b) else str_ltb (k2 a) (k2 b).

(** *** Deleting and listing background items *)

(** The phrases [isIgnorableBootoutError] looks for. *)
Definition benignPhrases : list string :=
  ["no such process"; "service could not be found"; "not found";
   "domain does not support specified action"].

Section Vocabulary.
Context {lib : GoLib} {env : Env}.

Definition loginMatches (m : uiModel) (it : LoginItem) : bool :=
  matchesLoginFilter it (filter m).
Definition backgroundMatches (m : uiModel) (it : BackgroundItem) : bool :=
  matchesBackgroundFilter it (filter m).
Definition extensionsMatches (m : uiModel) (it : SystemExtensionItem) : bool :=
  matchesExtensionsFilter it (filter m).

(** The rows [rebuildTable] shows for the active tab of [m]. *)
Definition visibleRows (m : uiModel) : list table.Row :=
  if tab m =? tabLogin then map loginRow (List.filter (loginMatches m) (loginItems m))
  else if tab m =? tabBackground
       then map backgroundRow (List.filter (backgroundMatches m) (bgItems m))
       else map extensionRow (List.filter (extensionsMatches m) (extItems m)).

(** Ascending by lower-cased name. *)
Definition login_le (a b : LoginItem) : Prop :=
  str_le (ToLower (li_Name a)) (ToLower (li_Name b)).

Definition includesUser (scope : string) : bool :=
  String.eqb scope "user" || String.eqb scope "all".
Definition includesSystem (scope : string) : bool :=
  String.eqb scope "system" || String.eqb scope "all".

(** What a fetch of disabled labels yielded: the map, if it was read. *)
Definition fetchedMap (r : gmap string bool * option error) : option (gmap string bool) :=
  match r with
  | (m, None) => Some m
  | (_, Some _) => None
  end.

(** The user domain's map, fetched in world [w1] when the scope includes
    the user, and the world the fetch leaves. *)
Definition userDisabled (scope : string) (w1 : World) : option (gmap string bool) * World :=
  if includesUser scope then
    match launchDomain "user" with
    | Ok domain => let '(r, w2) := getDisabledLabels domain w1 in (fetchedMap r, w2)
    | Err _ => (None, w1)
    end
  else (None, w1).

(** The system domain's map, fetched in world [w2]. *)
Definition systemDisabled (scope : string) (w2 : World) : option (gmap string bool) :=
  if includesSystem scope then fetchedMap (fst (getDisabledLabels "system" w2)) else None.

(** The value [Disabled] must have for an item of the given scope. *)
Definition disabledFrom (ownMap : option (gmap string bool)) (it : BackgroundItem) : option bool :=
  m ← ownMap; m !! bg_Label it.

(** An item of a known scope whose [Disabled] comes from that scope's map. *)
Definition disabled_ok (dbs : gmap string (gmap string bool)) (it : BackgroundItem) : Prop :=
  (bg_Scope it = "user" \/ bg_Scope it = "system") /\
  bg_Disabled it = disabledFrom (dbs !! bg_Scope it) it.

End Vocabulary.

(** The index slice and the rows of the active tab agree with its
    snapshot and the filter. *)
Definition rows_in_step {lib : GoLib} (m : uiModel) : Prop :=
  (tab m = tabLogin \/ tab m = tabBackground \/ tab m = tabExtensions)
  /\ table.Rows (table m) = visibleRows m
  /\ (tab m = tabLogin -> loginRows m = matching_from (loginMatches m) 0 (loginItems m))
  /\ (tab m = tabBackground -> bgRows m = matching_from (backgroundMatches m) 0 (bgItems m))
  /\ (tab m = tabExtensions -> extRows m = matching_from (extensionsMatches m) 0 (extItems m)).

(** *** Modes and commands of the browser *)

(** A delete is pending exactly in confirm mode, and confirm mode excludes
    filter editing. *)
Definition modes_ok (m : uiModel) : Prop :=
  match pendingBGDel m with
  | Some _ => confirmMode m = true /\ filterActive m = false
  | None => confirmMode m = false
  end.

(** The only ways [Update] comes to issue a command. *)
Definition issued_by {lib : GoLib} (m : uiModel) (msg : Msg) (c : Cmd) : Prop :=
  let on_refresh :=
    (exists st, msg = actionDoneMsg st None) \/
    (exists k, msg = teaKeyMsg k /\ key_String k = "r" /\ normalMode m) in
  match c with
  | deleteBackgroundCmd it =>
      exists k, msg = teaKeyMsg k /\ key_String k = "y" /\
                confirmMode m = true /\ pendingBGDel m = Some it
  | removeLoginCmd p =>
      exists k it, msg = teaKeyMsg k /\ key_String k = "x" /\ normalMode m /\
                   tab m = tabLogin /\ selectedLoginItem m = Some (it, true) /\
                   p = li_Path it
  | toggleBackgroundCmd l s en =>
      exists k it, msg = teaKeyMsg k /\ key_String k = (if en then "e" else "d") /\
                   normalMode m /\ tab m = tabBackground /\
                   selectedBackgroundItem m = Some (it, true) /\
                   l = bg_Label it /\ s = bg_Scope it
  | tea_Quit =>
      exists k, msg = teaKeyMsg k /\
                (key_String k = "ctrl+c" \/ (key_String k = "q" /\ normalMode m))
  | refreshLoginCmd => tab m = tabLogin /\ on_refresh
  | refreshExtensionsCmd => tab m = tabExtensions /\ on_refresh
  | refreshBackgroundCmd => tab m <> tabLogin /\ tab m <> tabExtensions /\ on_refresh
  end.

(** The state after a message; a panic would leave the state as it is. *)
Definition after {lib : GoLib} (m : uiModel) (msg : Msg) : uiModel :=
  match Update m msg with
  | Some (m', _) => m'
  | None => m
  end.

(** *** ASCII text *)

Definition ascii_only (s : string) : Prop := str_forall strings.isASCIIbyte s = true.

(** Nothing but ASCII white space. *)
Definition blank (s : string) : Prop := str_forall strings.asciiSpace s = true.

Definition starts_solid (s : string) : bool :=
  match s with
  | String c _ => negb (strings.asciiSpace c)
  | EmptyString => false
  end.

(** A text that starts and ends with a byte that is not white space. *)
Definition solid (s : string) : bool := starts_solid s && starts_solid (str_rev s).

(** *** What a rebuild reads *)

(** Two browsers that [rebuildTable] cannot tell apart: the same terminal
    size, tab, filter and snapshots. *)
Definition same_view (m1 m2 : uiModel) : Prop :=
  width m1 = width m2 /\ height m1 = height m2 /\ tab m1 = tab m2 /\
  filter m1 = filter m2 /\ loginItems m1 = loginItems m2 /\
  bgItems m1 = bgItems m2 /\ extItems m1 = extItems m2.

(** What [rebuildTable] leaves of [m] in [R], the table apart: every field
    but the index slices is kept, and only the slice of the active tab is
    rewritten. *)
Definition rebuild_of {lib : GoLib} (m R : uiModel) : Prop :=
  width R = width m /\ height R = height m /\ tab R = tab m /\ filter R = filter m /\
  loginItems R = loginItems m /\ bgItems R = bgItems m /\ extItems R = extItems m /\
  warnings R = warnings m /\ filterActive R = filterActive m /\
  confirmMode R = confirmMode m /\ confirmText R = confirmText m /\
  pendingBGDel R = pendingBGDel m /\ status R = status m /\ err R = err m /\
  loginRows R = (if tab m =? tabLogin then matching_from (loginMatches m) 0 (loginItems m)
                 else loginRows m) /\
  bgRows R = (if tab m =? tabLogin then bgRows m
              else if tab m =? tabBackground
                   then matching_from (backgroundMatches m) 0 (bgItems m)
                   else bgRows m) /\
  extRows R = (if tab m =? tabLogin then extRows m
               else if tab m =? tabBackground then extRows m
                    else matching_from (extensionsMatches m) 0 (extItems m)).

(** [m2] shows what [m1] shows: the same tab, table, filter and snapshots,
    and the same index slice for the active tab. *)
Definition same_screen (m1 m2 : uiModel) : Prop :=
  tab m2 = tab m1 /\ table m2 = table m1 /\ filter m2 = filter m1 /\
  width m2 = width m1 /\ height m2 = height m1 /\
  loginItems m2 = loginItems m1 /\ bgItems m2 = bgItems m1 /\ extItems m2 = extItems m1 /\
  (tab m1 = tabLogin -> loginRows m2 = loginRows m1) /\
  (tab m1 = tabBackground -> bgRows m2 = bgRows m1) /\
  (tab m1 = tabExtensions -> extRows m2 = extRows m1).

(** *** What the operations leave in the world *)

(** The commands that only read the state of the machine. *)
Definition is_query (e : Event) : Prop :=
  e = EvRun (cmd_launchctl ["list"])
  \/ (exists domain, e = EvRun (cmd_launchctl ["print-disabled"; domain]))
  \/ (exists path, e = EvRun (cmd_PlistBuddy ["-c"; "Print :Label"; path]))
  \/ (exists env, e = EvRun (cmd_osascript loginListScript env))
  \/ e = EvRun (cmd_systemextensionsctl ["list"]).

(** From [w] to [w'] no file appeared or vanished, and what was done in
    between are events of the kind [P]. *)
Definition extends (P : Event -> Prop) (w w' : World) : Prop :=
  files w' = files w /\ exists evs, trace w' = trace w ++ evs /\ Forall P evs.

Definition invalidScope : error := errors_New "scope must be user or system".

(** *** Listed background items *)

(** The directories scanned for a (lower-cased) scope, with the scope and
    kind given to what is found there. *)
Definition launchd_dir {lib : GoLib} {env : Env} (s : string) (d : plistDir) : Prop :=
  (includesUser s = true /\
   exists home, os_UserHomeDir = Ok home /\
                d = mkPlistDir "user" "agent" (filepath_Join home "Library/LaunchAgents"))
  \/ (includesSystem s = true /\
      (d = mkPlistDir "system" "agent" "/Library/LaunchAgents" \/
       d = mkPlistDir "system" "daemon" "/Library/LaunchDaemons")).

(** The item was made from a plist file lying directly in [d]. *)
Definition found_in {lib : GoLib} (d : plistDir) (it : BackgroundItem) : Prop :=
  bg_Scope it = d_scope d /\ bg_Kind it = d_kind d /\
  exists name, strings.HasSuffix (ToLower name) ".plist" = true /\
               bg_Path it = filepath_Join (d_dir d) name.

(** A well-formed listed item: a label, a plist in one of the scanned
    directories, and loaded exactly when it is a user agent that launchctl
    list names. *)
Definition listed_ok {lib : GoLib} {env : Env} (s : string) (loaded : gmap string bool)
    (it : BackgroundItem) : Prop :=
  bg_Label it <> "" /\
  (exists d, launchd_dir s d /\ found_in d it) /\
  (bg_Loaded it = true <-> bg_Scope it = "user" /\ is_Some (loaded !! bg_Label it)).

(** *** Rows of systemextensionsctl *)



(** *** Reachable states *)

(** The browser after a run of messages, as the runtime delivers them. *)
Definition run_messages {lib : GoLib} (m : uiModel) (msgs : list Msg) : uiModel :=
  fold_left after msgs m.

(** *** Printed tables *)

(** ASCII text of at most [width] bytes: it fits its column. *)
Definition fits (width : Z) (s : string) : Prop := ascii_only s /\ len s <= width.

(** *** A machine with one system extension *)




(** * Properties *)

(** ** Strings *)

Lemma str_app_cons (c : ascii) (s t : string) : String c s +:+ t = String c (s +:+ t).
Proof. reflexivity. Qed.

Lemma str_app_assoc (a b c : string) : (a +:+ b) +:+ c = a +:+ (b +:+ c).
Proof. induction a as [|x a IH]; [reflexivity|]. rewrite !str_app_cons, IH. reflexivity. Qed.

Lemma str_app_nil_r (a : string) : a +:+ "" = a.
Proof. induction a as [|x a IH]; [reflexivity|]. rewrite str_app_cons, IH. reflexivity. Qed.

Lemma str_take_drop (n : nat) (s : string) : str_take n s +:+ str_drop n s = s.
Proof.
  revert s. induction n as [|n IH]; intros [|c s]; simpl; try reflexivity.
  rewrite str_app_cons, IH. reflexivity.
Qed.

Lemma str_take_length (n : nat) (s : string) :
  (n <= String.length s)%nat -> String.length (str_take n s) = n.
Proof.
  revert s. induction n as [|n IH]; intros [|c s] H; simpl in *; try reflexivity; try lia.
  rewrite IH; lia.
Qed.

Lemma HasPrefix_true (s p : string) :
  strings.HasPrefix s p = true -> exists t, s = p +:+ t.
Proof.
  revert s. induction p as [|c p IH]; intros s H.
  - exists s. reflexivity.
  - destruct s as [|d s]; simpl in H; [discriminate|].
    apply andb_prop in H as [Hc Hp]. apply Ascii.eqb_eq in Hc. subst d.
    destruct (IH _ Hp) as [t ->]. exists t. reflexivity.
Qed.

Lemma HasPrefix_app (p t : string) : strings.HasPrefix (p +:+ t) p = true.
Proof.
  induction p as [|c p IH]; [destruct t; reflexivity|].
  rewrite str_app_cons. simpl. rewrite Ascii.eqb_refl, IH. reflexivity.
Qed.

Lemma HasSuffix_true (s suf : string) :
  strings.HasSuffix s suf = true -> exists t, s = t +:+ suf.
Proof.
  unfold strings.HasSuffix, slice_from. intros H.
  apply andb_prop in H as [_ H]. apply String.eqb_eq in H.
  set (n := Z.to_nat (len s - len suf)) in *.
  exists (str_take n s).
  transitivity (str_take n s +:+ str_drop n s); [symmetry; apply str_take_drop|].
  f_equal. exact H.
Qed.

(** A match found by [LastIndex] splits the string at the offset returned. *)
Lemma lastIndexFrom_split (sub s : string) (pos found r : Z) :
  strings.lastIndexFrom s sub pos found = r ->
  r = found \/
  (pos <= r /\ exists rest, s = str_take (Z.to_nat (r - pos)) s +:+ sub +:+ rest).
Proof.
  revert pos found r. induction s as [|c s IH]; intros pos found r H.
  - cbn [strings.lastIndexFrom] in H.
    destruct (strings.HasPrefix "" sub) eqn:Hp; [|left; congruence].
    right. subst r. split; [lia|]. rewrite Z.sub_diag. simpl.
    apply HasPrefix_true in Hp as [t Ht]. exists t. exact Ht.
  - cbn [strings.lastIndexFrom] in H.
    apply IH in H as [H | [Hle [rest Hrest]]].
    + destruct (strings.HasPrefix (String c s) sub) eqn:Hp; [|left; exact H].
      right. subst r. split; [lia|]. rewrite Z.sub_diag. simpl.
      apply HasPrefix_true in Hp as [t Ht]. exists t. exact Ht.
    + right. split; [lia|]. exists rest.
      replace (Z.to_nat (r - pos)) with (S (Z.to_nat (r - (pos + 1)))) by lia.
      cbn [str_take]. rewrite str_app_cons. f_equal. exact Hrest.
Qed.

Lemma LastIndex_split (s sub : string) :
  strings.LastIndex s sub = -1 \/
  (0 <= strings.LastIndex s sub /\
   exists rest, s = slice_to s (strings.LastIndex s sub) +:+ sub +:+ rest).
Proof.
  unfold strings.LastIndex, slice_to.
  destruct (lastIndexFrom_split sub s 0 (-1) _ eq_refl) as [H | [H1 [rest H2]]].
  - left. exact H.
  - right. split; [exact H1|]. exists rest. rewrite Z.sub_0_r in H2. exact H2.
Qed.

(** If [a ++ b] ends with the byte [c], then [b] is empty or ends with [c]. *)
Lemma str_app_last (a b t : string) (c : ascii) :
  a +:+ b = t +:+ String c "" -> b = "" \/ exists v, b = v +:+ String c "".
Proof.
  revert t. induction a as [|x a IH]; intros t H.
  - right. exists t. exact H.
  - destruct t as [|y t].
    + left. rewrite str_app_cons in H. injection H as _ H.
      destruct a; [destruct b; [reflexivity | discriminate] | discriminate].
    + rewrite !str_app_cons in H. injection H as _ H. eapply IH. exact H.
Qed.

(** ** parseBundleVersion *)

(** C9: on the Tailscale network extension's column parseBundleVersion
    returns the bundle ID and the version between the parentheses, and a
    value that does not end with a parenthesised version comes back whole,
    with an empty version. *)
Theorem parseBundleVersion_spec :
  parseBundleVersion "io.tailscale.ipn.macsys.network-extension (1.94.1/101.94.1)"
    = ("io.tailscale.ipn.macsys.network-extension", "1.94.1/101.94.1")
  /\ forall value, ~ has_trailing_version value -> parseBundleVersion value = (value, "").
Proof.
  split; [vm_compute; reflexivity|].
  intros value Hno. unfold parseBundleVersion.
  destruct (LastIndex_split value " (") as [-> | [H0 [rest Hsplit]]]; [reflexivity|].
  destruct (strings.HasSuffix value ")") eqn:Hsuf; [|rewrite orb_true_r; reflexivity].
  exfalso. apply Hno.
  apply HasSuffix_true in Hsuf as [t Ht].
  set (pre := slice_to value (strings.LastIndex value " (")) in *.
  assert (Hrest : (pre +:+ " (") +:+ rest = t +:+ ")").
  { rewrite str_app_assoc, <- Hsplit. exact Ht. }
  apply str_app_last in Hrest as [-> | [v ->]].
  - rewrite str_app_nil_r in Hsplit. rewrite Hsplit in Ht.
    change (pre +:+ " (") with (pre +:+ (" " +:+ "(")) in Ht.
    rewrite <- str_app_assoc in Ht.
    apply str_app_last in Ht as [Ht | [v Ht]]; [discriminate|].
    destruct v as [|? [|? ?]]; discriminate.
  - exists pre, v. exact Hsplit.
Qed.

Lemma parseBundleVersion_spec_witness :
  ~ has_trailing_version "com.apple.driver (beta" /\
  parseBundleVersion "com.apple.driver (beta" = ("com.apple.driver (beta", "").
Proof.
  assert (H : ~ has_trailing_version "com.apple.driver (beta").
  { intros (b & v & Hbv).
    assert (Hs : "com.apple.driver (beta" = (b +:+ " (" +:+ v) +:+ ")")
      by (rewrite !str_app_assoc; exact Hbv).
    change "com.apple.driver (beta" with ("com.apple.driver (bet" +:+ "a") in Hs.
    apply eq_sym, str_app_last in Hs as [Hs | [w Hs]]; [discriminate|].
    destruct w as [|? [|? ?]]; discriminate. }
  split; [exact H|]. apply (proj2 parseBundleVersion_spec _ H).
Defined.

(** *** A value that does carry a version *)

Lemma Contains_false_drop (s sub : string) (k : nat) :
  strings.Contains s sub = false -> strings.HasPrefix (str_drop k s) sub = false.
Proof.
  revert k. induction s as [|c s IH]; intros k H; cbn [strings.Contains] in H;
    apply orb_false_iff in H as [H1 H2].
  - destruct k; exact H1.
  - destruct k as [|k]; [exact H1|]. cbn [str_drop]. apply IH. exact H2.
Qed.

Lemma lastIndexFrom_none (s sub : string) (pos found : Z) :
  (forall k, strings.HasPrefix (str_drop k s) sub = false) ->
  strings.lastIndexFrom s sub pos found = found.
Proof.
  revert pos found. induction s as [|c s IH]; intros pos found H; cbn [strings.lastIndexFrom];
    pose proof (H O) as H0; cbn [str_drop] in H0; rewrite H0.
  - reflexivity.
  - apply IH. intros k. exact (H (S k)).
Qed.

Lemma lastIndexFrom_last (a t sub : string) (pos found : Z) :
  strings.HasPrefix t sub = true ->
  (forall k, strings.HasPrefix (str_drop (S k) t) sub = false) ->
  strings.lastIndexFrom (a +:+ t) sub pos found = pos + len a.
Proof.
  intros Hhead Htail. revert pos found. induction a as [|x a IH]; intros pos found.
  - change ("" +:+ t) with t. unfold len. cbn [String.length]. rewrite Z.add_0_r.
    destruct t as [|c t]; cbn [strings.lastIndexFrom]; rewrite Hhead; [reflexivity|].
    apply lastIndexFrom_none. intros k. exact (Htail k).
  - rewrite str_app_cons. cbn [strings.lastIndexFrom]. rewrite IH.
    unfold len. cbn [String.length]. lia.
Qed.

Lemma str_take_app (a t : string) : str_take (String.length a) (a +:+ t) = a.
Proof.
  induction a as [|x a IH]; [destruct t; reflexivity|].
  rewrite str_app_cons. cbn. rewrite IH. reflexivity.
Qed.

Lemma str_drop_app (a t : string) : str_drop (String.length a) (a +:+ t) = t.
Proof. induction a as [|x a IH]; [reflexivity|]. rewrite str_app_cons. exact IH. Qed.

Lemma str_length_app (a t : string) :
  String.length (a +:+ t) = (String.length a + String.length t)%nat.
Proof.
  induction a as [|x a IH]; [reflexivity|]. rewrite str_app_cons. cbn. rewrite IH. reflexivity.
Qed.

Lemma HasSuffix_app (a suf : string) : strings.HasSuffix (a +:+ suf) suf = true.
Proof.
  unfold strings.HasSuffix, slice_from, len. rewrite str_length_app.
  apply andb_true_intro. split; [apply Z.leb_le; lia|].
  replace (Z.to_nat (Z.of_nat (String.length a + String.length suf)
                     - Z.of_nat (String.length suf))) with (String.length a) by lia.
  rewrite str_drop_app. apply String.eqb_refl.
Qed.

Lemma TrimSuffix_app (a suf : string) : strings.TrimSuffix (a +:+ suf) suf = a.
Proof.
  unfold strings.TrimSuffix. rewrite HasSuffix_app. unfold slice_to, len.
  rewrite str_length_app.
  replace (Z.to_nat (Z.of_nat (String.length a + String.length suf)
                     - Z.of_nat (String.length suf))) with (String.length a) by lia.
  apply str_take_app.
Qed.

(** X16: the bundle ID and the version come back apart when the version holds
    no further [" ("]. *)
Lemma parseBundleVersion_splits (bundle version : string) :
  strings.Contains (version +:+ ")") " (" = false ->
  parseBundleVersion (bundle +:+ " (" +:+ version +:+ ")") = (bundle, version).
Proof.
  intros Hno. unfold parseBundleVersion, strings.LastIndex.
  rewrite (lastIndexFrom_last bundle (" (" +:+ version +:+ ")") " (" 0 (-1)).
  - assert (Hsuf : strings.HasSuffix (bundle +:+ " (" +:+ version +:+ ")") ")" = true).
    { rewrite <- !str_app_assoc. apply HasSuffix_app. }
    rewrite Hsuf.
    replace (0 + len bundle =? -1) with false
      by (symmetry; apply Z.eqb_neq; unfold len; lia).
    cbn [orb negb]. unfold slice_to, slice_from, len.
    replace (Z.to_nat (0 + Z.of_nat (String.length bundle))) with (String.length bundle) by lia.
    rewrite str_take_app.
    replace (Z.to_nat (0 + Z.of_nat (String.length bundle) + 1))
      with (String.length (bundle +:+ " ")) by (rewrite str_length_app; cbn; lia).
    change (bundle +:+ " (" +:+ version +:+ ")")
      with (bundle +:+ (" " +:+ ("(" +:+ version +:+ ")"))).
    rewrite <- str_app_assoc, str_drop_app.
    change (strings.TrimPrefix ("(" +:+ version +:+ ")") "(") with (version +:+ ")").
    rewrite TrimSuffix_app. reflexivity.
  - apply HasPrefix_app.
  - intros [|k].
    + reflexivity.
    + change (str_drop (S (S k)) (" (" +:+ version +:+ ")"))
        with (str_drop k (version +:+ ")")).
      apply Contains_false_drop. exact Hno.
Qed.

(** ** The row mapping of rebuildTable *)

Section RowMapping.
Context {A : Type} (matches : A -> bool) (render : A -> table.Row).

Lemma visible_fold (items : list A) (rows : list table.Row) (idxs : list Z) (i : Z) :
  fold_left (visibleStep matches render) items (rows, idxs, i)
  = (rows ++ map render (List.filter matches items),
     idxs ++ matching_from matches i items, i + slen items).
Proof.
  revert rows idxs i. induction items as [|it items IH]; intros rows idxs i.
  - simpl. rewrite !app_nil_r. unfold slen. simpl. f_equal. lia.
  - cbn [fold_left]. unfold visibleStep at 2. cbn [List.filter matching_from map].
    destruct (matches it); cbn [negb]; rewrite IH; unfold slen; cbn [length].
    + rewrite <- !app_assoc. simpl. f_equal. lia.
    + f_equal. lia.
Qed.

Lemma visible_eq (items : list A) :
  visible matches render items
  = (map render (List.filter matches items), matching_from matches 0 items).
Proof. unfold visible. rewrite visible_fold. reflexivity. Qed.

Lemma matching_from_bounds (items : list A) (i k : Z) :
  k ∈ matching_from matches i items -> i <= k < i + slen items.
Proof.
  revert i. induction items as [|it items IH]; intros i Hk; cbn in Hk.
  - inversion Hk.
  - unfold slen in *. cbn [length].
    destruct (matches it).
    + apply elem_of_cons in Hk as [-> | Hk]; [lia|]. apply IH in Hk. lia.
    + apply IH in Hk. lia.
Qed.

(** The mapping is strictly increasing, hence injective. *)
Lemma matching_from_sorted (items : list A) (i : Z) :
  StronglySorted Z.lt (matching_from matches i items).
Proof.
  revert i. induction items as [|it items IH]; intros i; cbn; [constructor|].
  destruct (matches it); [|apply IH].
  constructor; [apply IH|]. apply Forall_forall. intros k Hk.
  apply matching_from_bounds in Hk. lia.
Qed.

(** It holds exactly the indices of the accepted items. *)
Lemma matching_from_elem (items : list A) (i k : Z) :
  k ∈ matching_from matches i items <->
  exists it, index items (k - i) = Some it /\ matches it = true.
Proof.
  revert i. induction items as [|it items IH]; intros i; cbn [matching_from].
  - split; [intros H; inversion H|]. intros (x & Hx & _). unfold index in Hx.
    destruct (k - i <? 0); [discriminate|]. rewrite lookup_nil in Hx. discriminate.
  - assert (Hstep : forall x, index (it :: items) (k - i) = Some x <->
              (k = i /\ x = it) \/ index items (k - (i + 1)) = Some x).
    { intros x. unfold index.
      destruct (k - i <? 0) eqn:H1; destruct (k - (i + 1) <? 0) eqn:H2;
        try lia; split; intros H; try discriminate.
      - destruct H as [[-> _] | H]; [lia | discriminate].
      - left. assert (k = i) as -> by lia. rewrite Z.sub_diag in H. simpl in H.
        split; congruence.
      - destruct H as [[-> ->] | H]; [|discriminate]. rewrite Z.sub_diag. reflexivity.
      - right. replace (Z.to_nat (k - i)) with (S (Z.to_nat (k - (i + 1)))) in H by lia.
        exact H.
      - destruct H as [[-> _] | H]; [lia|].
        replace (Z.to_nat (k - i)) with (S (Z.to_nat (k - (i + 1)))) by lia. exact H. }
    destruct (matches it) eqn:Hm.
    + rewrite elem_of_cons, IH. split.
      * intros [-> | (x & Hx & Hmx)].
        -- exists it. split; [apply Hstep; left; auto | exact Hm].
        -- exists x. split; [apply Hstep; right; exact Hx | exact Hmx].
      * intros (x & Hx & Hmx). apply Hstep in Hx as [[-> ->] | Hx]; [left; reflexivity|].
        right. exists x. auto.
    + rewrite IH. split.
      * intros (x & Hx & Hmx). exists x. split; [apply Hstep; right; exact Hx | exact Hmx].
      * intros (x & Hx & Hmx). apply Hstep in Hx as [[-> ->] | Hx]; [congruence|].
        exists x. auto.
Qed.

(** The [k]-th index points at the [k]-th accepted item. *)
Lemma matching_from_lookup (items : list A) (i : Z) (k : nat) (j : Z) :
  matching_from matches i items !! k = Some j ->
  exists it, index items (j - i) = Some it /\ List.filter matches items !! k = Some it.
Proof.
  revert i k. induction items as [|it items IH]; intros i k H; cbn in H; [discriminate|].
  assert (Hshift : forall x, index items (j - (i + 1)) = Some x ->
                             index (it :: items) (j - i) = Some x).
  { intros x. unfold index.
    destruct (j - (i + 1) <? 0) eqn:H1; [discriminate|].
    destruct (j - i <? 0) eqn:H2; [lia|].
    replace (Z.to_nat (j - i)) with (S (Z.to_nat (j - (i + 1)))) by lia. auto. }
  cbn [List.filter]. destruct (matches it) eqn:Hm.
  - destruct k as [|k]; cbn in H.
    + injection H as <-. exists it. rewrite Z.sub_diag. split; reflexivity.
    + apply IH in H as (x & Hx & Hf). exists x. split; [auto | exact Hf].
  - apply IH in H as (x & Hx & Hf). exists x. split; [auto | exact Hf].
Qed.

Lemma matching_from_length (items : list A) (i : Z) :
  length (matching_from matches i items) = length (List.filter matches items).
Proof.
  revert i. induction items as [|it items IH]; intros i; cbn; [reflexivity|].
  destruct (matches it); cbn; rewrite IH; reflexivity.
Qed.

(** A filter that accepts everything gives one row per item. *)
Lemma matching_from_all (items : list A) (i : Z) :
  (forall it, matches it = true) ->
  matching_from matches i items = seqZ i (slen items) /\
  List.filter matches items = items.
Proof.
  intros Hall. revert i. induction items as [|it items IH]; intros i.
  - split; reflexivity.
  - cbn [matching_from List.filter]. rewrite Hall.
    destruct (IH (i + 1)) as [-> ->]. split; [|reflexivity].
    unfold slen. cbn [length]. rewrite Nat2Z.inj_succ.
    rewrite (seqZ_cons i); [|lia]. f_equal. f_equal; lia.
Qed.

End RowMapping.

Section BrowserFacts.
Context {lib : GoLib} {env : Env}.

Lemma rebuildTable_frame (c : Z) (m : uiModel) :
  let m' := rebuildTable c m in
  tab m' = tab m /\ filter m' = filter m /\
  loginItems m' = loginItems m /\ bgItems m' = bgItems m /\ extItems m' = extItems m /\
  filterActive m' = filterActive m /\ confirmMode m' = confirmMode m /\
  pendingBGDel m' = pendingBGDel m /\ confirmText m' = confirmText m /\
  status m' = status m /\ err m' = err m /\ warnings m' = warnings m.
Proof.
  unfold rebuildTable. cbn -[visible Z.eqb].
  destruct (tab m =? tabLogin); [|destruct (tab m =? tabBackground)];
    cbn -[visible Z.eqb]; rewrite visible_eq; cbn -[Z.eqb];
    match goal with |- context [if ?b then _ else _] => destruct b end;
    cbn; repeat split; reflexivity.
Qed.

Lemma rebuildTable_rows (c : Z) (m : uiModel) :
  table.Rows (table (rebuildTable c m)) = visibleRows m.
Proof.
  unfold rebuildTable, visibleRows. cbn -[visible Z.eqb].
  destruct (tab m =? tabLogin); [|destruct (tab m =? tabBackground)];
    cbn -[visible Z.eqb]; rewrite visible_eq; cbn -[Z.eqb];
    match goal with |- context [if ?b then _ else _] => destruct b end;
    reflexivity.
Qed.

Lemma rebuildTable_cursor (c : Z) (m : uiModel) :
  table.Cursor (table (rebuildTable c m)) = Z.min (Z.max c 0) (slen (visibleRows m) - 1).
Proof.
  unfold rebuildTable, visibleRows. cbn -[visible Z.eqb].
  destruct (tab m =? tabLogin); [|destruct (tab m =? tabBackground)];
    cbn -[visible Z.eqb]; rewrite visible_eq; cbn -[Z.eqb Z.min Z.max];
    unfold loginMatches, backgroundMatches, extensionsMatches;
    match goal with |- context [if ?b then _ else _] => destruct b eqn:Hn end;
    cbn -[Z.min Z.max]; unfold slen, table.clamp in *;
    match goal with
    | |- context [Z.of_nat (length ?l)] => set (n := Z.of_nat (length l)) in *
    end;
    assert (0 <= n) by (subst n; lia); clearbody n;
    destruct (c <? 0) eqn:Hc;
    repeat match goal with |- context [if ?b then _ else _] => destruct b eqn:? end;
    lia.
Qed.

Lemma rebuildTable_loginRows (c : Z) (m : uiModel) :
  tab m = tabLogin ->
  loginRows (rebuildTable c m) = matching_from (loginMatches m) 0 (loginItems m)
  /\ bgRows (rebuildTable c m) = bgRows m /\ extRows (rebuildTable c m) = extRows m.
Proof.
  intros Ht. unfold rebuildTable. cbn -[visible Z.eqb]. rewrite Ht.
  cbn -[visible]. rewrite visible_eq. cbn -[Z.eqb].
  match goal with |- context [if ?b then _ else _] => destruct b end;
    repeat split; reflexivity.
Qed.

Lemma rebuildTable_bgRows (c : Z) (m : uiModel) :
  tab m = tabBackground ->
  bgRows (rebuildTable c m) = matching_from (backgroundMatches m) 0 (bgItems m)
  /\ loginRows (rebuildTable c m) = loginRows m /\ extRows (rebuildTable c m) = extRows m.
Proof.
  intros Ht. unfold rebuildTable. cbn -[visible Z.eqb]. rewrite Ht.
  cbn -[visible]. rewrite visible_eq. cbn -[Z.eqb].
  match goal with |- context [if ?b then _ else _] => destruct b end;
    repeat split; reflexivity.
Qed.

Lemma rebuildTable_extRows (c : Z) (m : uiModel) :
  tab m <> tabLogin -> tab m <> tabBackground ->
  extRows (rebuildTable c m) = matching_from (extensionsMatches m) 0 (extItems m)
  /\ loginRows (rebuildTable c m) = loginRows m /\ bgRows (rebuildTable c m) = bgRows m.
Proof.
  intros Ht1 Ht2. unfold rebuildTable. cbn -[visible Z.eqb].
  apply Z.eqb_neq in Ht1, Ht2. rewrite Ht1, Ht2.
  cbn -[visible]. rewrite visible_eq. cbn -[Z.eqb].
  match goal with |- context [if ?b then _ else _] => destruct b end;
    repeat split; reflexivity.
Qed.

End BrowserFacts.

(** ** Selection through the row mapping *)

Lemma sorted_lt_lookup (l : list Z) (k1 k2 : nat) (a b : Z) :
  StronglySorted Z.lt l -> l !! k1 = Some a -> l !! k2 = Some b -> (k1 < k2)%nat -> a < b.
Proof.
  intros Hs. revert k1 k2. induction Hs as [|x l Hs IH Hall]; intros k1 k2 H1 H2 Hlt.
  - discriminate.
  - destruct k2 as [|k2]; [lia|]. cbn in H2. destruct k1 as [|k1]; cbn in H1.
    + injection H1 as <-. rewrite Forall_forall in Hall. apply Hall.
      eapply list_elem_of_lookup_2. exact H2.
    + eapply IH; eauto. lia.
Qed.

Lemma sorted_lt_inj (l : list Z) (k1 k2 : nat) (i : Z) :
  StronglySorted Z.lt l -> l !! k1 = Some i -> l !! k2 = Some i -> k1 = k2.
Proof.
  intros Hs H1 H2. destruct (Nat.lt_trichotomy k1 k2) as [H | [H | H]]; [|exact H|].
  - pose proof (sorted_lt_lookup _ _ _ _ _ Hs H1 H2 H). lia.
  - pose proof (sorted_lt_lookup _ _ _ _ _ Hs H2 H1 H). lia.
Qed.

Lemma matching_row_mapping {A : Type} (matches : A -> bool) (render : A -> table.Row)
    (items : list A) :
  row_mapping matches render items (matching_from matches 0 items)
    (map render (List.filter matches items)).
Proof.
  pose proof (matching_from_sorted matches items 0) as Hs.
  split; [exact Hs|]. split; [intros k1 k2 i; apply sorted_lt_inj; exact Hs|].
  split; [|split].
  - intros i. rewrite (matching_from_elem matches items 0 i), Z.sub_0_r. reflexivity.
  - rewrite length_map. symmetry. apply matching_from_length.
  - intros k i Hk. apply matching_from_lookup in Hk as (it & Hit & Hf).
    rewrite Z.sub_0_r in Hit. exists it. split; [exact Hit|]. split; [|exact Hf].
    rewrite list_lookup_fmap, Hf. reflexivity.
Qed.

Lemma index_Some {A : Type} (l : list A) (i : Z) (x : A) :
  index l i = Some x <-> 0 <= i /\ l !! Z.to_nat i = Some x.
Proof.
  unfold index. destruct (i <? 0) eqn:H; split; intros H'; try lia; try discriminate.
  - split; [lia | exact H'].
  - apply H'.
Qed.

Lemma index_lt {A : Type} (l : list A) (i : Z) (x : A) :
  index l i = Some x -> 0 <= i < slen l.
Proof.
  intros [H0 H]%index_Some. apply lookup_lt_Some in H. unfold slen. lia.
Qed.

Lemma index_in_range {A : Type} (l : list A) (i : Z) :
  0 <= i < slen l -> exists x, index l i = Some x.
Proof.
  intros H. unfold slen in H.
  destruct (lookup_lt_is_Some_2 l (Z.to_nat i)) as [x Hx]; [lia|].
  exists x. apply index_Some. split; [lia | exact Hx].
Qed.

Lemma selection_cases {A : Type} (cursor : Z) (rows : list Z) (items : list A) :
  selection_in_range cursor rows items \/ selection_out_of_range cursor rows items.
Proof.
  unfold selection_in_range, selection_out_of_range.
  destruct (Z_lt_ge_dec cursor 0) as [H1 | H1]; [right; left; exact H1|].
  destruct (Z_lt_ge_dec cursor (slen rows)) as [H2 | H2]; [|right; right; left; lia].
  destruct (index_in_range rows cursor) as [i Hi]; [lia|].
  destruct (Z_lt_ge_dec i 0) as [H3 | H3]; [right; right; right; exists i; auto|].
  destruct (Z_lt_ge_dec i (slen items)) as [H4 | H4].
  - left. exists i. split; [exact Hi | lia].
  - right. right. right. exists i. split; [exact Hi | right; lia].
Qed.

Section Selection.
Context {lib : GoLib} {env : Env}.

Lemma selectedLoginItem_eq (m : uiModel) :
  selectedLoginItem m
  = selected zeroLoginItem (table.Cursor (table m)) (loginRows m) (loginItems m).
Proof. reflexivity. Qed.

Lemma selectedBackgroundItem_eq (m : uiModel) :
  selectedBackgroundItem m
  = selected zeroBackgroundItem (table.Cursor (table m)) (bgRows m) (bgItems m).
Proof. reflexivity. Qed.

Lemma selected_in_range {A : Type} (zero : A) (cursor : Z) (rows : list Z) (items : list A) :
  selection_in_range cursor rows items ->
  exists i it, index rows cursor = Some i /\ index items i = Some it /\
               selected zero cursor rows items = Some (it, true).
Proof.
  intros (i & Hi & Hr). destruct (index_in_range items i Hr) as [it Hit].
  exists i, it. split; [exact Hi|]. split; [exact Hit|].
  pose proof (index_lt _ _ _ Hi) as Hc. unfold selected.
  replace ((cursor <? 0) || (cursor >=? slen rows)) with false
    by (symmetry; apply orb_false_iff; lia).
  rewrite Hi. cbn.
  replace ((i <? 0) || (i >=? slen items)) with false
    by (symmetry; apply orb_false_iff; lia).
  rewrite Hit. reflexivity.
Qed.

Lemma selected_out_of_range {A : Type} (zero : A) (cursor : Z) (rows : list Z) (items : list A) :
  selection_out_of_range cursor rows items ->
  selected zero cursor rows items = Some (zero, false).
Proof.
  unfold selected. intros [H | [H | (i & Hi & H)]].
  - replace (cursor <? 0) with true by lia. reflexivity.
  - replace (cursor >=? slen rows) with true by lia. rewrite orb_true_r. reflexivity.
  - pose proof (index_lt _ _ _ Hi) as Hc.
    replace ((cursor <? 0) || (cursor >=? slen rows)) with false
      by (symmetry; apply orb_false_iff; lia).
    rewrite Hi. cbn.
    replace ((i <? 0) || (i >=? slen items)) with true
      by (symmetry; apply orb_true_iff; lia).
    reflexivity.
Qed.

End Selection.

Section RowMappingOfTabs.
Context {lib : GoLib} {env : Env}.

Lemma SetCursor_in_range (t : table.Model) (k : nat) :
  (k < length (table.Rows t))%nat ->
  table.Cursor (table.SetCursor (Z.of_nat k) t) = Z.of_nat k.
Proof.
  intros H. unfold table.SetCursor, table.Cursor, table.Rows, table.clamp in *. cbn. lia.
Qed.

Lemma empty_filter_login (m : uiModel) (it : LoginItem) :
  filter m = "" -> loginMatches m it = true.
Proof. unfold loginMatches, matchesLoginFilter. intros ->. reflexivity. Qed.

Lemma empty_filter_background (m : uiModel) (it : BackgroundItem) :
  filter m = "" -> backgroundMatches m it = true.
Proof. unfold backgroundMatches, matchesBackgroundFilter. intros ->. reflexivity. Qed.

Lemma empty_filter_extensions (m : uiModel) (it : SystemExtensionItem) :
  filter m = "" -> extensionsMatches m it = true.
Proof. unfold extensionsMatches, matchesExtensionsFilter. intros ->. reflexivity. Qed.

(** C3: after rebuildTable the index slice of the active tab (loginRows,
    bgRows or extRows) is strictly increasing and injective, holds exactly
    the indices of the items the filter accepts, in their original order,
    and row k shows the item it points at; with the cursor on row k,
    selectedLoginItem and selectedBackgroundItem return that very item of
    the unfiltered snapshot; with an empty filter there is one row per item. *)
Theorem rebuildTable_row_mapping (cursor : Z) (m : uiModel) :
  let m' := rebuildTable cursor m in
  let pick k := set_table (table.SetCursor (Z.of_nat k) (table m')) m' in
  (tab m = tabLogin ->
     row_mapping (loginMatches m) loginRow (loginItems m) (loginRows m') (table.Rows (table m'))
     /\ (forall k i, loginRows m' !! k = Some i ->
           exists it, index (loginItems m) i = Some it /\
                      selectedLoginItem (pick k) = Some (it, true))
     /\ (filter m = "" ->
           loginRows m' = seqZ 0 (slen (loginItems m)) /\
           table.Rows (table m') = map loginRow (loginItems m)))
  /\ (tab m = tabBackground ->
     row_mapping (backgroundMatches m) backgroundRow (bgItems m) (bgRows m')
       (table.Rows (table m'))
     /\ (forall k i, bgRows m' !! k = Some i ->
           exists it, index (bgItems m) i = Some it /\
                      selectedBackgroundItem (pick k) = Some (it, true))
     /\ (filter m = "" ->
           bgRows m' = seqZ 0 (slen (bgItems m)) /\
           table.Rows (table m') = map backgroundRow (bgItems m)))
  /\ (tab m = tabExtensions ->
     row_mapping (extensionsMatches m) extensionRow (extItems m) (extRows m')
       (table.Rows (table m'))
     /\ (filter m = "" ->
           extRows m' = seqZ 0 (slen (extItems m)) /\
           table.Rows (table m') = map extensionRow (extItems m))).
Proof.
  intros m' pick.
  pose proof (rebuildTable_rows cursor m) as Hrows. fold m' in Hrows.
  destruct (rebuildTable_frame cursor m) as (_ & _ & HL & HB & HE & _). fold m' in HL, HB, HE.
  split; [|split]; intros Ht.
  - destruct (rebuildTable_loginRows cursor m Ht) as (Hidx & _). fold m' in Hidx.
    unfold visibleRows in Hrows. rewrite Ht in Hrows. cbn in Hrows.
    rewrite Hrows, Hidx. split; [apply matching_row_mapping|]. split.
    + intros k i Hk.
      assert (Hin : selection_in_range (Z.of_nat k) (matching_from (loginMatches m) 0 (loginItems m))
                      (loginItems m)).
      { exists i. split; [apply index_Some; rewrite Nat2Z.id; split; [lia | exact Hk]|].
        pose proof (list_elem_of_lookup_2 _ _ _ Hk) as Hel.
        apply matching_from_bounds in Hel. lia. }
      apply (selected_in_range zeroLoginItem) in Hin as (i' & it & Hi' & Hit & Hsel).
      assert (i' = i) as ->.
      { apply index_Some in Hi' as [_ Hi']. rewrite Nat2Z.id in Hi'. congruence. }
      exists it. split; [exact Hit|].
      rewrite selectedLoginItem_eq. subst pick. cbn [table loginRows loginItems set_table].
      rewrite SetCursor_in_range, HL, Hidx; [exact Hsel|].
      rewrite Hrows, length_map, <- (matching_from_length _ _ 0).
      apply lookup_lt_Some in Hk. exact Hk.
    + intros Hf.
      destruct (matching_from_all (loginMatches m) (loginItems m) 0) as [-> ->];
        [intros it; apply empty_filter_login; exact Hf | split; reflexivity].
  - destruct (rebuildTable_bgRows cursor m Ht) as (Hidx & _). fold m' in Hidx.
    unfold visibleRows in Hrows. rewrite Ht in Hrows. cbn in Hrows.
    rewrite Hrows, Hidx. split; [apply matching_row_mapping|]. split.
    + intros k i Hk.
      assert (Hin : selection_in_range (Z.of_nat k)
                      (matching_from (backgroundMatches m) 0 (bgItems m)) (bgItems m)).
      { exists i. split; [apply index_Some; rewrite Nat2Z.id; split; [lia | exact Hk]|].
        pose proof (list_elem_of_lookup_2 _ _ _ Hk) as Hel.
        apply matching_from_bounds in Hel. lia. }
      apply (selected_in_range zeroBackgroundItem) in Hin as (i' & it & Hi' & Hit & Hsel).
      assert (i' = i) as ->.
      { apply index_Some in Hi' as [_ Hi']. rewrite Nat2Z.id in Hi'. congruence. }
      exists it. split; [exact Hit|].
      rewrite selectedBackgroundItem_eq. subst pick. cbn [table bgRows bgItems set_table].
      rewrite SetCursor_in_range, HB, Hidx; [exact Hsel|].
      rewrite Hrows, length_map, <- (matching_from_length _ _ 0).
      apply lookup_lt_Some in Hk. exact Hk.
    + intros Hf.
      destruct (matching_from_all (backgroundMatches m) (bgItems m) 0) as [-> ->];
        [intros it; apply empty_filter_background; exact Hf | split; reflexivity].
  - assert (H1 : tab m <> tabLogin) by (rewrite Ht; discriminate).
    assert (H2 : tab m <> tabBackground) by (rewrite Ht; discriminate).
    destruct (rebuildTable_extRows cursor m H1 H2) as (Hidx & _). fold m' in Hidx.
    unfold visibleRows in Hrows. rewrite Ht in Hrows. cbn in Hrows.
    rewrite Hrows, Hidx. split; [apply matching_row_mapping|].
    intros Hf.
    destruct (matching_from_all (extensionsMatches m) (extItems m) 0) as [-> ->];
      [intros it; apply empty_filter_extensions; exact Hf | split; reflexivity].
Qed.

End RowMappingOfTabs.

(** With the filter "ray" entered there is one row, and it resolves to
    Raycast, item 1 of the unfiltered list. *)
Lemma rebuildTable_row_mapping_witness :
  let m' := rebuildTable (lib := exampleLib) 0 filteredModel in
  tab filteredModel = tabLogin /\ filter filteredModel = "ray" /\
  m' = filteredModel /\
  loginRows m' = [1] /\
  table.Rows (table m') = [["Raycast"; "false"; "/Applications/Raycast.app"]] /\
  exists it, index (loginItems filteredModel) 1 = Some it /\
             selectedLoginItem (set_table (table.SetCursor (Z.of_nat 0) (table m')) m')
             = Some (it, true) /\
             li_Name it = "Raycast".
Proof.
  intros m'.
  destruct (rebuildTable_row_mapping (lib := exampleLib) 0 filteredModel) as (HL & _).
  destruct (HL eq_refl) as (_ & Hsel & _).
  split; [reflexivity|]. split; [reflexivity|]. split; [vm_compute; reflexivity|].
  split; [vm_compute; reflexivity|]. split; [vm_compute; reflexivity|].
  destruct (Hsel 0%nat 1) as (it & Hit & Hs); [vm_compute; reflexivity|].
  exists it. split; [exact Hit|]. split; [exact Hs|].
  vm_compute in Hit. injection Hit as <-. reflexivity.
Defined.

(** ** Key handling *)

Section Keys.
Context {lib : GoLib} {env : Env}.

(** C10: selectedLoginItem and selectedBackgroundItem never index out of
    bounds: they always return, and when the cursor lies outside the index
    slice or the index it maps to lies outside the items they return the
    zero item with ok = false; the x, e and d handlers then leave the model
    as it is and issue no command. *)
Theorem selected_item_total (m : uiModel) :
  (exists r, selectedLoginItem m = Some r)
  /\ (exists r, selectedBackgroundItem m = Some r)
  /\ (selection_out_of_range (table.Cursor (table m)) (loginRows m) (loginItems m) ->
        selectedLoginItem m = Some (zeroLoginItem, false)
        /\ (normalMode m -> tab m = tabLogin ->
            forall ty, Update m (teaKeyMsg (mkKey ty "x")) = Some (m, None)))
  /\ (selection_out_of_range (table.Cursor (table m)) (bgRows m) (bgItems m) ->
        selectedBackgroundItem m = Some (zeroBackgroundItem, false)
        /\ (normalMode m -> tab m = tabBackground ->
            forall ty,
              Update m (teaKeyMsg (mkKey ty "x")) = Some (m, None) /\
              Update m (teaKeyMsg (mkKey ty "e")) = Some (m, None) /\
              Update m (teaKeyMsg (mkKey ty "d")) = Some (m, None))).
Proof.
  split; [|split; [|split]].
  - rewrite selectedLoginItem_eq.
    destruct (selection_cases (table.Cursor (table m)) (loginRows m) (loginItems m)) as [H | H].
    + apply (selected_in_range zeroLoginItem) in H as (i & it & _ & _ & ->). eauto.
    + rewrite (selected_out_of_range _ _ _ _ H). eauto.
  - rewrite selectedBackgroundItem_eq.
    destruct (selection_cases (table.Cursor (table m)) (bgRows m) (bgItems m)) as [H | H].
    + apply (selected_in_range zeroBackgroundItem) in H as (i & it & _ & _ & ->). eauto.
    + rewrite (selected_out_of_range _ _ _ _ H). eauto.
  - intros H. pose proof (selected_out_of_range zeroLoginItem _ _ _ H) as Hsel.
    rewrite <- selectedLoginItem_eq in Hsel. split; [exact Hsel|].
    intros [Hc Hf] Ht ty. unfold Update, updateKey. rewrite Hc, Hf, Ht, Hsel. reflexivity.
  - intros H. pose proof (selected_out_of_range zeroBackgroundItem _ _ _ H) as Hsel.
    rewrite <- selectedBackgroundItem_eq in Hsel. split; [exact Hsel|].
    intros [Hc Hf] Ht ty. unfold Update, updateKey. rewrite Hc, Hf, Ht, Hsel.
    repeat split; reflexivity.
Qed.

End Keys.

(** No rows at all, and a row whose index points past a shrunken list:
    neither selects, and the keys do nothing. *)
Lemma selected_item_total_witness :
  (selection_out_of_range (table.Cursor (table emptyBackgroundModel))
     (bgRows emptyBackgroundModel) (bgItems emptyBackgroundModel)
   /\ Update (lib := exampleLib) emptyBackgroundModel (keyRune "x")
      = Some (emptyBackgroundModel, None)
   /\ Update (lib := exampleLib) emptyBackgroundModel (keyRune "d")
      = Some (emptyBackgroundModel, None))
  /\ (selection_out_of_range (table.Cursor (table shrunkModel)) (bgRows shrunkModel)
        (bgItems shrunkModel)
      /\ selectedBackgroundItem shrunkModel = Some (zeroBackgroundItem, false)
      /\ Update (lib := exampleLib) shrunkModel (keyRune "x") = Some (shrunkModel, None)
      /\ Update (lib := exampleLib) shrunkModel (keyRune "e") = Some (shrunkModel, None)).
Proof.
  assert (H0 : selection_out_of_range (table.Cursor (table emptyBackgroundModel))
                 (bgRows emptyBackgroundModel) (bgItems emptyBackgroundModel)).
  { left. vm_compute. reflexivity. }
  assert (H : selection_out_of_range (table.Cursor (table shrunkModel)) (bgRows shrunkModel)
                (bgItems shrunkModel)).
  { right. right. exists 1. split; [reflexivity|]. right. unfold slen. simpl. lia. }
  destruct (selected_item_total (lib := exampleLib) emptyBackgroundModel)
    as (_ & _ & _ & Hbg0).
  destruct (Hbg0 H0) as [_ Hkeys0].
  destruct (Hkeys0 (conj eq_refl eq_refl) eq_refl KeyRunes) as (Hx0 & _ & Hd0).
  destruct (selected_item_total (lib := exampleLib) shrunkModel)
    as (_ & _ & _ & Hbg).
  destruct (Hbg H) as [Hsel Hkeys].
  destruct (Hkeys (conj eq_refl eq_refl) eq_refl KeyRunes) as (Hx & He & _).
  split; [split; [exact H0 | split; [exact Hx0 | exact Hd0]]|].
  split; [exact H|]. split; [exact Hsel|]. split; [exact Hx | exact He].
Defined.

Section Modes.
Context {lib : GoLib} {env : Env}.

Lemma actionDone_success (m : uiModel) (st : string) :
  Update m (actionDoneMsg st None)
  = Some (set_status st (set_err None m),
          Some (if tab m =? tabLogin then refreshLoginCmd
                else if tab m =? tabExtensions then refreshExtensionsCmd
                else refreshBackgroundCmd)).
Proof.
  unfold Update. cbn -[Z.eqb].
  destruct (tab m =? tabLogin); [reflexivity|].
  destruct (tab m =? tabExtensions); reflexivity.
Qed.

Lemma actionDone_failure (m : uiModel) (st : string) (e : error) :
  Update m (actionDoneMsg st (Some e))
  = Some (set_status "Action failed" (set_err (Some e) m), None).
Proof. reflexivity. Qed.

Lemma eqb_false (a b : string) : a <> b -> String.eqb a b = false.
Proof. apply String.eqb_neq. Qed.

(** C4, as the code has it: in confirm-pending with an item captured, the
    confirm key returns to normal and issues one delete command for the
    captured item, which runs deleteBackgroundItem on it once; the
    re-aggregation (of the tab then active) follows when that command
    reports success, and a failure is recorded with no further command;
    cancel and escape discard the pending item and issue nothing; ctrl+c
    quits; every other key is ignored. *)
Theorem confirm_pending_keys (m : uiModel) (item : BackgroundItem) (msg : KeyMsg) :
  confirmMode m = true -> pendingBGDel m = Some item ->
  let normal := set_confirm None false "" m in
  (confirmMode normal = false /\ pendingBGDel normal = None)
  /\ (key_String msg = "y" ->
        Update m (teaKeyMsg msg)
        = Some (set_status "Deleting background item..." normal,
                Some (deleteBackgroundCmd item)))
  /\ (key_String msg = "n" \/ key_String msg = "esc" ->
        Update m (teaKeyMsg msg) = Some (set_status "Delete cancelled" normal, None))
  /\ (key_String msg = "ctrl+c" -> Update m (teaKeyMsg msg) = Some (m, Some tea_Quit))
  /\ (key_String msg <> "y" -> key_String msg <> "n" -> key_String msg <> "esc" ->
      key_String msg <> "ctrl+c" -> Update m (teaKeyMsg msg) = Some (m, None))
  /\ (forall w,
        runCmd (deleteBackgroundCmd item) w
        = let '(e, w') := deleteBackgroundItem (bg_Label item) (bg_Path item) (bg_Scope item) w in
          (Some (match e with
                 | Some _ => actionDoneMsg "" e
                 | None => actionDoneMsg ("Deleted background item " +:+ bg_Label item) None
                 end), w'))
  /\ (forall m1 st,
        Update m1 (actionDoneMsg st None)
        = Some (set_status st (set_err None m1),
                Some (if tab m1 =? tabLogin then refreshLoginCmd
                      else if tab m1 =? tabExtensions then refreshExtensionsCmd
                      else refreshBackgroundCmd)))
  /\ (forall m1 st e,
        Update m1 (actionDoneMsg st (Some e))
        = Some (set_status "Action failed" (set_err (Some e) m1), None)).
Proof.
  intros Hc Hp normal. split; [split; reflexivity|].
  split; [|split; [|split; [|split; [|split; [|split]]]]].
  - intros Hk. unfold Update, updateKey. rewrite Hc, Hk, Hp. reflexivity.
  - intros Hk. unfold Update, updateKey. rewrite Hc. destruct Hk as [-> | ->]; reflexivity.
  - intros Hk. unfold Update, updateKey. rewrite Hc, Hk. reflexivity.
  - intros H1 H2 H3 H4. unfold Update, updateKey.
    rewrite Hc, (eqb_false _ _ H1), (eqb_false _ _ H2), (eqb_false _ _ H3), (eqb_false _ _ H4).
    reflexivity.
  - intros w. unfold runCmd. cbn.
    unfold mbind, M_bind, mret, M_ret.
    destruct (deleteBackgroundItem _ _ _ w) as [[e|] w']; reflexivity.
  - intros m1 st. apply actionDone_success.
  - intros m1 st e. apply actionDone_failure.
Qed.

End Modes.

(** The delete key on the background tab captures com.foo.agent. *)
Example delete_key_enters_confirm :
  Update (lib := exampleLib) agentModel (keyRune "x") = Some (confirmModel, None).
Proof. vm_compute. reflexivity. Qed.

Lemma confirm_pending_keys_witness :
  Update (lib := exampleLib) confirmModel (keyRune "y")
  = Some (set_status "Deleting background item..." (set_confirm None false "" confirmModel),
          Some (deleteBackgroundCmd fooAgent))
  /\ Update (lib := exampleLib) confirmModel (keyRune "n")
     = Some (set_status "Delete cancelled" (set_confirm None false "" confirmModel), None)
  /\ Update (lib := exampleLib) confirmModel (keyRune "j") = Some (confirmModel, None).
Proof.
  destruct (confirm_pending_keys (lib := exampleLib) (env := goneEnv) confirmModel fooAgent
              (mkKey KeyRunes "y") eq_refl eq_refl) as (_ & Hy & _).
  destruct (confirm_pending_keys (lib := exampleLib) (env := goneEnv) confirmModel fooAgent
              (mkKey KeyRunes "n") eq_refl eq_refl) as (_ & _ & Hn & _).
  destruct (confirm_pending_keys (lib := exampleLib) (env := goneEnv) confirmModel fooAgent
              (mkKey KeyRunes "j") eq_refl eq_refl) as (_ & _ & _ & _ & Hj & _).
  split; [apply Hy; reflexivity|]. split; [apply Hn; left; reflexivity|].
  apply Hj; discriminate.
Defined.

(** While confirm-pending, ctrl+c is not ignored: it quits.  And a delete
    that launchctl refuses is followed by no re-aggregation. *)
Lemma confirm_pending_keys_counterexample :
  confirmMode confirmModel = true /\ pendingBGDel confirmModel = Some fooAgent
  /\ Update (lib := exampleLib) confirmModel (keyNamed "ctrl+c")
     = Some (confirmModel, Some tea_Quit)
  /\ Update (lib := exampleLib) confirmModel (keyNamed "ctrl+c") <> Some (confirmModel, None)
  /\ let refused := errors_New "bootout failed for com.foo.agent: exit status 1: Operation not permitted" in
     let m1 := set_status "Deleting background item..." (set_confirm None false "" confirmModel) in
     Update (lib := exampleLib) confirmModel (keyRune "y")
       = Some (m1, Some (deleteBackgroundCmd fooAgent))
     /\ fst (runCmd (lib := exampleLib) (env := deniedEnv) (deleteBackgroundCmd fooAgent) agentWorld)
        = Some (actionDoneMsg "" (Some refused))
     /\ Update (lib := exampleLib) m1 (actionDoneMsg "" (Some refused))
        = Some (set_status "Action failed" (set_err (Some refused) m1), None).
Proof. vm_compute. repeat split; try reflexivity. discriminate. Qed.

Section ClearToggleTabs.
Context {lib : GoLib} {env : Env}.

Lemma visibleRows_empty_filter (m : uiModel) :
  filter m = "" ->
  visibleRows m
  = if tab m =? tabLogin then map loginRow (loginItems m)
    else if tab m =? tabBackground then map backgroundRow (bgItems m)
    else map extensionRow (extItems m).
Proof.
  intros Hf. unfold visibleRows.
  destruct (matching_from_all (loginMatches m) (loginItems m) 0) as [_ ->];
    [intros it; apply empty_filter_login; exact Hf|].
  destruct (matching_from_all (backgroundMatches m) (bgItems m) 0) as [_ ->];
    [intros it; apply empty_filter_background; exact Hf|].
  destruct (matching_from_all (extensionsMatches m) (extItems m) 0) as [_ ->];
    [intros it; apply empty_filter_extensions; exact Hf|].
  reflexivity.
Qed.

(** C6, as the code has it: outside confirm-pending and filter-editing the
    clear-filter key leaves the filter empty, and when there was a filter it
    rebuilds the table, which then shows one row per item of the active
    tab; while the filter is being edited the key is typed into the filter,
    and while a confirmation is pending it is ignored. *)
Theorem clear_filter_key (m : uiModel) (ty : KeyType) :
  (normalMode m ->
     exists m', Update m (teaKeyMsg (mkKey ty "c")) = Some (m', None)
       /\ filter m' = ""
       /\ (filter m <> "" ->
             m' = set_status "Filter cleared" (rebuildTable 0 (set_filter "" m))
             /\ table.Rows (table m')
                = if tab m =? tabLogin then map loginRow (loginItems m)
                  else if tab m =? tabBackground then map backgroundRow (bgItems m)
                  else map extensionRow (extItems m))
       /\ (filter m = "" -> m' = m))
  /\ (confirmMode m = false -> filterActive m = true ->
        Update m (teaKeyMsg (mkKey KeyRunes "c"))
        = Some (rebuildTable 0 (set_filter (filter m +:+ "c") m), None))
  /\ (confirmMode m = true -> Update m (teaKeyMsg (mkKey ty "c")) = Some (m, None)).
Proof.
  split; [|split].
  - intros [Hc Hf]. unfold Update, updateKey. rewrite Hc, Hf. cbn -[rebuildTable].
    destruct (String.eqb (filter m) "") eqn:He; cbn -[rebuildTable].
    + apply String.eqb_eq in He. exists m. repeat split; try assumption; congruence.
    + apply String.eqb_neq in He. eexists. split; [reflexivity|].
      destruct (rebuildTable_frame 0 (set_filter "" m)) as (_ & Hfl & _).
      split; [exact Hfl|]. split; [|congruence]. intros _. split; [reflexivity|].
      cbn [table set_status]. rewrite rebuildTable_rows.
      rewrite visibleRows_empty_filter; reflexivity.
  - intros Hc Hf. unfold Update, updateKey. rewrite Hc, Hf. reflexivity.
  - intros Hc. unfold Update, updateKey. rewrite Hc. reflexivity.
Qed.

(** C7, as the code has it: on the background tab in normal mode, with a
    row selected, e and d issue one toggle command for the selected label
    and scope; the command runs launchctl enable or disable on
    domain/label; background items are aggregated again when the command
    reports success and the background tab is active, and after a failure
    the error is recorded and nothing is aggregated. *)
Theorem toggle_background (m : uiModel) (item : BackgroundItem) (enable : bool) (msg : KeyMsg) :
  normalMode m -> tab m = tabBackground ->
  selectedBackgroundItem m = Some (item, true) ->
  key_String msg = (if enable then "e" else "d") ->
  Update m (teaKeyMsg msg)
  = Some (set_status "Applying background item change..." m,
          Some (toggleBackgroundCmd (bg_Label item) (bg_Scope item) enable))
  /\ (forall w domain, launchDomain (bg_Scope item) = Ok domain ->
        runCmd (toggleBackgroundCmd (bg_Label item) (bg_Scope item) enable) w
        = let '(e, w') := runLaunchctl [if enable then "enable" else "disable";
                                        domain +:+ "/" +:+ bg_Label item] w in
          (Some (match e with
                 | Some _ => actionDoneMsg "" e
                 | None => actionDoneMsg ((if enable then "enabled" else "disabled")
                                          +:+ " " +:+ bg_Label item) None
                 end), w'))
  /\ (forall m1 st, tab m1 = tabBackground ->
        Update m1 (actionDoneMsg st None)
        = Some (set_status st (set_err None m1), Some refreshBackgroundCmd))
  /\ (forall m1 st e,
        Update m1 (actionDoneMsg st (Some e))
        = Some (set_status "Action failed" (set_err (Some e) m1), None)).
Proof.
  intros [Hc Hf] Ht Hsel Hk. split; [|split; [|split]].
  - unfold Update, updateKey. rewrite Hc, Hf, Hk, Ht, Hsel. destruct enable; reflexivity.
  - intros w domain Hd. unfold runCmd. rewrite Hd.
    unfold mbind, M_bind, mret, M_ret.
    destruct (runLaunchctl _ w) as [[e|] w']; reflexivity.
  - intros m1 st Ht1. rewrite actionDone_success, Ht1. reflexivity.
  - intros m1 st e. apply actionDone_failure.
Qed.

(** C8, as the code has it: a tab switch (forward on tab, right, l;
    backward on shift+tab, left, h; wrapping over the three tabs) rebuilds
    the rows of the new tab from its snapshot and the filter text, and puts
    the cursor on the first row. *)
Theorem tab_switch_rebuilds (m : uiModel) (msg : KeyMsg) :
  normalMode m ->
  (nextTab tabLogin = tabBackground /\ nextTab tabBackground = tabExtensions /\
   nextTab tabExtensions = tabLogin /\ prevTab tabLogin = tabExtensions /\
   prevTab tabBackground = tabLogin /\ prevTab tabExtensions = tabBackground)
  /\ (key_String msg = "tab" \/ key_String msg = "right" \/ key_String msg = "l" ->
        Update m (teaKeyMsg msg) = Some (rebuildTable 0 (set_tab (nextTab (tab m)) m), None))
  /\ (key_String msg = "shift+tab" \/ key_String msg = "left" \/ key_String msg = "h" ->
        Update m (teaKeyMsg msg) = Some (rebuildTable 0 (set_tab (prevTab (tab m)) m), None))
  /\ (forall t,
        let m' := rebuildTable 0 (set_tab t m) in
        tab m' = t /\ filter m' = filter m
        /\ loginItems m' = loginItems m /\ bgItems m' = bgItems m /\ extItems m' = extItems m
        /\ table.Rows (table m') = visibleRows (set_tab t m)
        /\ (table.Rows (table m') <> [] -> table.Cursor (table m') = 0)).
Proof.
  intros [Hc Hf]. split; [repeat split; reflexivity|]. split; [|split].
  - intros Hk. unfold Update, updateKey. rewrite Hc, Hf.
    destruct Hk as [-> | [-> | ->]]; reflexivity.
  - intros Hk. unfold Update, updateKey. rewrite Hc, Hf.
    destruct Hk as [-> | [-> | ->]]; reflexivity.
  - intros t m'.
    destruct (rebuildTable_frame 0 (set_tab t m)) as (H1 & H2 & H3 & H4 & H5 & _).
    pose proof (rebuildTable_rows 0 (set_tab t m)) as Hr.
    pose proof (rebuildTable_cursor 0 (set_tab t m)) as Hcur.
    repeat split; try assumption.
    intros Hne. fold m' in Hr, Hcur. rewrite Hcur, <- Hr.
    destruct (table.Rows (table m')) as [|r rs]; [congruence|]. unfold slen. cbn [length]. lia.
Qed.

End ClearToggleTabs.

Lemma clear_filter_key_witness :
  Update (lib := exampleLib) filteredModel (keyRune "c")
  = Some (set_status "Filter cleared"
            (rebuildTable (lib := exampleLib) 0 (set_filter "" filteredModel)), None)
  /\ Update (lib := exampleLib) editingModel (keyRune "c")
     = Some (rebuildTable (lib := exampleLib) 0 (set_filter "abc" editingModel), None).
Proof.
  destruct (clear_filter_key (lib := exampleLib) filteredModel KeyRunes) as (Hn & _).
  destruct (Hn (conj eq_refl eq_refl)) as (m' & Hu & _ & Hne & _).
  destruct (Hne ltac:(discriminate)) as [-> _].
  destruct (clear_filter_key (lib := exampleLib) editingModel KeyRunes) as (_ & He & _).
  split; [exact Hu | exact (He eq_refl eq_refl)].
Defined.

(** While the filter is being edited, the clear-filter key does not clear:
    the filter "ab" becomes "abc". *)
Lemma clear_filter_key_counterexample :
  filterActive editingModel = true /\ filter editingModel = "ab" /\
  exists m', Update (lib := exampleLib) editingModel (keyRune "c") = Some (m', None)
             /\ filter m' = "abc" /\ filter m' <> "".
Proof.
  split; [reflexivity|]. split; [reflexivity|].
  eexists. split; [vm_compute; reflexivity|]. split; [reflexivity | discriminate].
Qed.

Lemma toggle_background_witness :
  Update (lib := exampleLib) agentModel (keyRune "e")
  = Some (set_status "Applying background item change..." agentModel,
          Some (toggleBackgroundCmd "com.foo.agent" "user" true)).
Proof.
  exact (proj1 (toggle_background (lib := exampleLib) (env := goneEnv) agentModel fooAgent true
                  (mkKey KeyRunes "e") (conj eq_refl eq_refl) eq_refl eq_refl eq_refl)).
Defined.

(** launchctl refuses to enable the service: the error is shown and no
    aggregation is started. *)
Lemma toggle_background_counterexample :
  let refused := errors_New "exit status 1: Operation not permitted" in
  let m1 := set_status "Applying background item change..." agentModel in
  Update (lib := exampleLib) agentModel (keyRune "e")
    = Some (m1, Some (toggleBackgroundCmd "com.foo.agent" "user" true))
  /\ runCmd (lib := exampleLib) (env := deniedEnv)
       (toggleBackgroundCmd "com.foo.agent" "user" true) emptyWorld
     = (Some (actionDoneMsg "" (Some refused)),
        mkWorld ∅ [EvRun (cmd_launchctl ["enable"; "gui/501/com.foo.agent"])])
  /\ Update (lib := exampleLib) m1 (actionDoneMsg "" (Some refused))
     = Some (set_status "Action failed" (set_err (Some refused) m1), None)
  /\ (forall m2, Update (lib := exampleLib) m1 (actionDoneMsg "" (Some refused))
                 <> Some (m2, Some refreshBackgroundCmd)).
Proof. vm_compute. repeat split; try reflexivity. discriminate. Qed.

Lemma tab_switch_rebuilds_witness :
  Update (lib := exampleLib) secondRowModel (keyNamed "tab")
  = Some (rebuildTable (lib := exampleLib) 0 (set_tab tabBackground secondRowModel), None).
Proof.
  destruct (tab_switch_rebuilds (lib := exampleLib) secondRowModel (mkKey KeyNotRunes "tab")
              (conj eq_refl eq_refl)) as (_ & Hfwd & _).
  apply Hfwd. left. reflexivity.
Defined.

(** The cursor sits on the second login row; after the switch to the
    background tab, which has two rows as well, it is on the first. *)
Lemma tab_switch_rebuilds_counterexample :
  table.Cursor (table secondRowModel) = 1 /\
  exists m', Update (lib := exampleLib) secondRowModel (keyNamed "tab") = Some (m', None)
    /\ tab m' = tabBackground
    /\ length (table.Rows (table m')) = 2%nat
    /\ table.Cursor (table m') = 0
    /\ table.clamp (table.Cursor (table secondRowModel)) 0
         (slen (table.Rows (table m')) - 1) = 1
    /\ table.Cursor (table m')
       <> table.clamp (table.Cursor (table secondRowModel)) 0
            (slen (table.Rows (table m')) - 1).
Proof.
  split; [reflexivity|]. eexists. split; [vm_compute; reflexivity|].
  repeat split; try reflexivity. discriminate.
Qed.

(** ** The row mapping in every state the browser reaches *)

Section Reachable.
Context {lib : GoLib}.

(** The table widget moves its cursor on a key; it does not touch its rows. *)
Hypothesis table_Update_rows :
  forall k t, table.Rows (table_Update k t) = table.Rows t.

Lemma rebuildTable_in_step (c : Z) (m : uiModel) :
  tab m = tabLogin \/ tab m = tabBackground \/ tab m = tabExtensions ->
  rows_in_step (rebuildTable c m).
Proof.
  intros Ht. unfold rows_in_step.
  destruct (rebuildTable_frame c m) as (Htab & Hfl & HL & HB & HE & _).
  rewrite rebuildTable_rows, Htab.
  unfold visibleRows, loginMatches, backgroundMatches, extensionsMatches.
  rewrite Htab, Hfl, HL, HB, HE.
  split; [exact Ht|]. split; [reflexivity|].
  split; [|split]; intros H.
  - apply (rebuildTable_loginRows c m H).
  - apply (rebuildTable_bgRows c m H).
  - apply (rebuildTable_extRows c m); rewrite H; discriminate.
Qed.

Lemma tab_keys_in_range (t : uiTab) :
  t = tabLogin \/ t = tabBackground \/ t = tabExtensions ->
  (nextTab t = tabLogin \/ nextTab t = tabBackground \/ nextTab t = tabExtensions) /\
  (prevTab t = tabLogin \/ prevTab t = tabBackground \/ prevTab t = tabExtensions).
Proof. intros [-> | [-> | ->]]; split; vm_compute; auto. Qed.

(** [rows_in_step] looks at the tab, the table rows, the filter and the
    snapshots with their index slices only. *)
Lemma rows_in_step_same (m m' : uiModel) :
  tab m' = tab m -> table.Rows (table m') = table.Rows (table m) -> filter m' = filter m ->
  loginItems m' = loginItems m -> bgItems m' = bgItems m -> extItems m' = extItems m ->
  loginRows m' = loginRows m -> bgRows m' = bgRows m -> extRows m' = extRows m ->
  rows_in_step m -> rows_in_step m'.
Proof.
  unfold rows_in_step, visibleRows, loginMatches, backgroundMatches, extensionsMatches.
  intros -> -> -> -> -> -> -> -> -> H. exact H.
Qed.

(** Every message keeps the mapping of the active tab in step: a refreshed
    list, a new filter or a tab switch is followed by a rebuild, and
    nothing else touches what the mapping is computed from. *)
Lemma Update_keeps_rows_in_step (m m' : uiModel) (msg : Msg) (c : option Cmd) :
  rows_in_step m -> Update m msg = Some (m', c) -> rows_in_step m'.
Proof.
  intros Hinv H. pose proof Hinv as (Ht & _).
  destruct msg as [wd ht | items e | items ws e | items e | st e | k |]; cbn -[rebuildTable] in H.
  - injection H as <- _. apply rebuildTable_in_step. exact Ht.
  - injection H as <- _. apply rebuildTable_in_step. destruct e; exact Ht.
  - injection H as <- _. apply rebuildTable_in_step. destruct e; exact Ht.
  - injection H as <- _. apply rebuildTable_in_step. destruct e; exact Ht.
  - destruct e as [e|].
    + injection H as <- _. exact Hinv.
    + cbn -[Z.eqb] in H. destruct (tab m =? tabLogin); [|destruct (tab m =? tabExtensions)];
        injection H as <- _; exact Hinv.
  - unfold updateKey in H.
    repeat match type of H with
    | Some _ = Some _ => injection H as H _
    | context [if ?b then _ else _] => destruct b eqn:?
    | context [match pendingBGDel m with _ => _ end] => destruct (pendingBGDel m)
    | context [match key_Type k with _ => _ end] => destruct (key_Type k)
    | context [selectedLoginItem m] => destruct (selectedLoginItem m) as [[? ?]|]; cbn in H
    | context [selectedBackgroundItem m] => destruct (selectedBackgroundItem m) as [[? ?]|]; cbn in H
    | None = Some _ => discriminate H
    end;
    try (subst m'; first
           [ exact Hinv
           | apply rebuildTable_in_step; cbn; first [exact Ht | apply tab_keys_in_range; exact Ht]
           | apply (rows_in_step_same (rebuildTable 0 (set_filter "" m)));
               [reflexivity..|apply rebuildTable_in_step; exact Ht]
           | eapply rows_in_step_same; [..|exact Hinv]; cbn; solve [reflexivity | apply table_Update_rows] ]).
  - injection H as <- _. exact Hinv.
Qed.

(** The browser starts in step. *)
Lemma newUIModel_in_step : rows_in_step newUIModel.
Proof.
  unfold rows_in_step. split; [left; reflexivity|]. split; [reflexivity|].
  split; [reflexivity|]. split; discriminate.
Qed.

End Reachable.

(** ** The cases of the browser's tests *)

(** TestClearFilterKey: filter "abc" over one login item, then c. *)
Example test_clear_filter_key :
  let m := rebuildTable (lib := exampleLib) 0
             (set_tab tabLogin
                (set_loginItems [mkLoginItem "Raycast" "/Applications/Raycast.app" false]
                   (set_filter "abc" (set_size 120 30 newUIModel)))) in
  exists next, Update (lib := exampleLib) m (keyRune "c") = Some (next, None)
               /\ filter next = "".
Proof. eexists. split; [vm_compute; reflexivity | reflexivity]. Qed.

(** TestBackgroundDeleteCancelConfirmation: n clears the pending delete. *)
Example test_cancel_confirmation :
  let m := set_confirm (Some (mkBackgroundItem "com.foo.agent" "" "" "" false None)) true
             "Delete?" newUIModel in
  exists next, Update (lib := exampleLib) m (keyRune "n") = Some (next, None)
               /\ confirmMode next = false /\ pendingBGDel next = None.
Proof. eexists. split; [vm_compute; reflexivity | split; reflexivity]. Qed.

(** TestFilterMapsRowSelectionToOriginalItems, on both tabs. *)
Example test_filter_maps_selection :
  let m := set_filter "ray" (set_bgItems twoBackgroundItems
             (set_loginItems twoLoginItems (set_size 120 30 newUIModel))) in
  let onLogin := rebuildTable (lib := exampleLib) 0 (set_tab tabLogin m) in
  let onBackground := rebuildTable (lib := exampleLib) 0 (set_tab tabBackground m) in
  length (table.Rows (table onLogin)) = 1%nat
  /\ selectedLoginItem onLogin
     = Some (mkLoginItem "Raycast" "/Applications/Raycast.app" false, true)
  /\ length (table.Rows (table onBackground)) = 1%nat
  /\ selectedBackgroundItem onBackground
     = Some (mkBackgroundItem "com.foo.raycast" "/tmp/r.plist" "user" "agent" true None, true).
Proof. vm_compute. repeat split; reflexivity. Qed.

(** ** sort.Slice *)

Section SortFacts.
Context {A : Type} (less : A -> A -> bool).

Hypothesis less_asym : forall a b, less a b = true -> less b a = false.
Hypothesis not_after_trans :
  forall a b c, not_after less a b -> not_after less b c -> not_after less a c.

Lemma sink_perm (x : A) (rp : list A) : sink less x rp ≡ₚ x :: rp.
Proof.
  induction rp as [|y r IH]; cbn; [reflexivity|].
  destruct (less x y); [|reflexivity].
  rewrite IH. apply Permutation_swap.
Qed.

Lemma sink_sorted (x : A) (rp : list A) :
  StronglySorted (flip (not_after less)) rp -> StronglySorted (flip (not_after less)) (sink less x rp).
Proof.
  induction rp as [|y r IH]; intros Hs; cbn.
  - repeat constructor.
  - apply StronglySorted_cons in Hs as [Hy Hr].
    destruct (less x y) eqn:Hxy.
    + apply StronglySorted_cons. split; [|apply IH; exact Hr].
      rewrite Forall_forall. intros z Hz. rewrite sink_perm in Hz.
      apply elem_of_cons in Hz as [-> | Hz].
      * apply less_asym. exact Hxy.
      * rewrite Forall_forall in Hy. apply Hy. exact Hz.
    + apply StronglySorted_cons. split; [|apply StronglySorted_cons; split; assumption].
      rewrite Forall_forall. intros z Hz.
      apply elem_of_cons in Hz as [-> | Hz]; [exact Hxy|].
      rewrite Forall_forall in Hy. unfold flip in *.
      eapply not_after_trans; [apply Hy; exact Hz | exact Hxy].
Qed.

Lemma sort_prefix_sorted (l acc : list A) :
  StronglySorted (flip (not_after less)) acc ->
  StronglySorted (flip (not_after less)) (fold_left (fun acc x => sink less x acc) l acc).
Proof.
  revert acc. induction l as [|x l IH]; intros acc Hs; cbn; [exact Hs|].
  apply IH, sink_sorted, Hs.
Qed.

Lemma sort_prefix_perm (l acc : list A) :
  fold_left (fun acc x => sink less x acc) l acc ≡ₚ l ++ acc.
Proof.
  revert acc. induction l as [|x l IH]; intros acc; cbn; [reflexivity|].
  rewrite IH, sink_perm. symmetry. apply Permutation_middle.
Qed.

Lemma StronglySorted_rev_flip (R : A -> A -> Prop) (l : list A) :
  StronglySorted (flip R) l -> StronglySorted R (rev l).
Proof.
  induction l as [|x l IH]; intros Hs; cbn; [constructor|].
  apply StronglySorted_cons in Hs as [Hx Hl].
  apply StronglySorted_app. split; [|split; [apply IH; exact Hl | repeat constructor]].
  intros a b Ha Hb. apply list_elem_of_singleton in Hb as ->.
  rewrite Forall_forall in Hx. apply Hx.
  apply list_elem_of_In. apply list_elem_of_In in Ha. apply in_rev. exact Ha.
Qed.

(** Whatever the order of the input, the result holds the same records
    and no record is less than one before it. *)
Lemma sort_Slice_sorted (l : list A) :
  sort_Slice less l ≡ₚ l /\ StronglySorted (not_after less) (sort_Slice less l).
Proof.
  unfold sort_Slice. split.
  - rewrite <- Permutation_rev, sort_prefix_perm, app_nil_r. reflexivity.
  - apply StronglySorted_rev_flip, sort_prefix_sorted. constructor.
Qed.

(** When no two distinct records tie there is one ordered arrangement
    only, so every sort that keeps the records and orders them by [less]
    returns the list [sort_Slice] returns. *)
Lemma sort_Slice_unique (l out : list A) :
  out ≡ₚ l -> StronglySorted (not_after less) out ->
  (forall a b, a ∈ l -> b ∈ l -> not_after less a b -> not_after less b a -> a = b) ->
  out = sort_Slice less l.
Proof.
  intros Hperm Hs Htie. destruct (sort_Slice_sorted l) as [Hp Hs'].
  apply (StronglySorted_unique_strong (not_after less)); [|exact Hs|exact Hs'|].
  - intros a b Ha Hb. apply Htie; [rewrite <- Hperm; exact Ha | rewrite <- Hp; exact Hb].
  - rewrite Hp. exact Hperm.
Qed.

(** When no two distinct records tie, the arrangement does not depend on
    the order of the input. *)
Lemma sort_Slice_deterministic (l1 l2 : list A) :
  l1 ≡ₚ l2 ->
  (forall a b, a ∈ l1 -> b ∈ l1 -> not_after less a b -> not_after less b a -> a = b) ->
  sort_Slice less l1 = sort_Slice less l2.
Proof.
  intros Hperm Htie.
  destruct (sort_Slice_sorted l1) as [Hp1 Hs1]. destruct (sort_Slice_sorted l2) as [Hp2 Hs2].
  apply (StronglySorted_unique_strong (not_after less)); [|exact Hs1|exact Hs2|].
  - intros a b Ha Hb. apply Htie.
    + rewrite <- Hp1. exact Ha.
    + rewrite Hperm, <- Hp2. exact Hb.
  - rewrite Hp1, Hp2. exact Hperm.
Qed.

End SortFacts.

Lemma StronglySorted_impl {A : Type} (R S : A -> A -> Prop) (l : list A) :
  (forall a b, R a b -> S a b) -> StronglySorted R l -> StronglySorted S l.
Proof.
  intros HRS. induction 1 as [|a l Hl IH Ha]; constructor; [exact IH|].
  eapply Forall_impl; [exact Ha | exact (HRS a)].
Qed.

(** ** The order of Go strings *)

Lemma str_le_leb (a b : string) : str_le a b <-> String.le a b.
Proof.
  unfold str_le, str_ltb, String.le, String.leb.
  rewrite (String.compare_antisym a b).
  destruct (String.compare b a); cbn; split; intros H; try reflexivity; try discriminate;
    try exact I; try (exfalso; exact H).
Qed.

Lemma str_le_trans (a b c : string) : str_le a b -> str_le b c -> str_le a c.
Proof. rewrite !str_le_leb. intros H1 H2. etrans; eassumption. Qed.

Lemma str_lt_asym (a b : string) : str_lt a b -> str_le a b.
Proof.
  unfold str_lt, str_le, str_ltb. rewrite (String.compare_antisym b a).
  destruct (String.compare a b); cbn; congruence.
Qed.

Lemma str_le_antisym (a b : string) : str_le a b -> str_le b a -> a = b.
Proof.
  rewrite !str_le_leb. intros H1 H2.
  apply (anti_symm String.le); assumption.
Qed.

Lemma str_lt_irrefl (a : string) : ~ str_lt a a.
Proof. intros H. pose proof (str_lt_asym _ _ H) as H'. unfold str_lt, str_le in *. congruence. Qed.

Lemma str_not_le_lt (a b : string) : ~ str_le a b <-> str_lt b a.
Proof. unfold str_le, str_lt. destruct (str_ltb b a); split; congruence. Qed.

Lemma str_lt_le_trans (a b c : string) : str_lt a b -> str_le b c -> str_lt a c.
Proof.
  intros H1 H2. apply str_not_le_lt. intros H3.
  assert (b = a) as -> by (apply str_le_antisym; [eapply str_le_trans; eassumption |
                                                   apply str_lt_asym; exact H1]).
  exact (str_lt_irrefl _ H1).
Qed.

Lemma str_le_lt_trans (a b c : string) : str_le a b -> str_lt b c -> str_lt a c.
Proof.
  intros H1 H2. apply str_not_le_lt. intros H3.
  assert (b = c) as -> by (apply str_le_antisym; [apply str_lt_asym; exact H2 |
                                                   eapply str_le_trans; eassumption]).
  exact (str_lt_irrefl _ H2).
Qed.

Lemma lexLess_not_after {A : Type} (k1 k2 : A -> string) (a b : A) :
  not_after (lexLess k1 k2) a b <-> lex_le k1 k2 a b.
Proof.
  unfold not_after, lexLess, lex_le.
  destruct (String.eqb (k1 b) (k1 a)) eqn:He; cbn.
  - apply String.eqb_eq in He. split.
    + intros H. right. split; [congruence | exact H].
    + intros [H | [_ H]]; [|exact H]. rewrite He in H. destruct (str_lt_irrefl _ H).
  - apply String.eqb_neq in He. split.
    + intros H. left. apply str_not_le_lt. intros H'. apply He.
      apply str_le_antisym; [exact H' | exact H].
    + intros [H | [H _]]; [apply str_lt_asym in H; exact H | congruence].
Qed.

Lemma lexLess_asym {A : Type} (k1 k2 : A -> string) (a b : A) :
  lexLess k1 k2 a b = true -> lexLess k1 k2 b a = false.
Proof.
  unfold lexLess. rewrite (String.eqb_sym (k1 b) (k1 a)).
  destruct (String.eqb (k1 a) (k1 b)); cbn; apply str_lt_asym.
Qed.

Lemma lex_le_trans {A : Type} (k1 k2 : A -> string) (a b c : A) :
  lex_le k1 k2 a b -> lex_le k1 k2 b c -> lex_le k1 k2 a c.
Proof.
  unfold lex_le. intros [H1 | [E1 H1]] [H2 | [E2 H2]].
  - left. eapply str_lt_le_trans; [exact H1 | apply str_lt_asym; exact H2].
  - left. rewrite <- E2. exact H1.
  - left. rewrite E1. exact H2.
  - right. split; [congruence | eapply str_le_trans; eassumption].
Qed.

Lemma lexLess_sorted {A : Type} (k1 k2 : A -> string) (l : list A) :
  sort_Slice (lexLess k1 k2) l ≡ₚ l /\ StronglySorted (lex_le k1 k2) (sort_Slice (lexLess k1 k2) l).
Proof.
  destruct (sort_Slice_sorted (lexLess k1 k2) (lexLess_asym k1 k2)) with (l := l) as [Hp Hs].
  { intros a b c. rewrite !lexLess_not_after. apply lex_le_trans. }
  split; [exact Hp|].
  eapply StronglySorted_impl; [|exact Hs]. intros a b. apply lexLess_not_after.
Qed.

Lemma lex_le_antisym {A : Type} (k1 k2 : A -> string) (a b : A) :
  lex_le k1 k2 a b -> lex_le k1 k2 b a -> k1 a = k1 b /\ k2 a = k2 b.
Proof.
  unfold lex_le. intros [H1 | [E1 H1]] [H2 | [E2 H2]].
  - apply str_lt_asym in H1. apply str_not_le_lt in H2. destruct (H2 H1).
  - rewrite E2 in H1. destruct (str_lt_irrefl _ H1).
  - rewrite E1 in H2. destruct (str_lt_irrefl _ H2).
  - split; [exact E1 | apply str_le_antisym; assumption].
Qed.

Lemma lexLess_deterministic {A : Type} (k1 k2 : A -> string) (l1 l2 : list A) :
  l1 ≡ₚ l2 ->
  (forall a b, a ∈ l1 -> b ∈ l1 -> k1 a = k1 b -> k2 a = k2 b -> a = b) ->
  sort_Slice (lexLess k1 k2) l1 = sort_Slice (lexLess k1 k2) l2.
Proof.
  intros Hperm Hkeys.
  apply (sort_Slice_deterministic (lexLess k1 k2) (lexLess_asym k1 k2)); [|exact Hperm|].
  - intros a b c. rewrite !lexLess_not_after. apply lex_le_trans.
  - intros a b Ha Hb. rewrite !lexLess_not_after. intros H1 H2.
    destruct (lex_le_antisym _ _ _ _ H1 H2) as [E1 E2]. apply Hkeys; assumption.
Qed.

(** ** Aggregated lists are sorted *)

Section Aggregates.
Context {lib : GoLib} {env : Env}.

Lemma loginLess_sorted (raw : list LoginItem) :
  sort_Slice loginLess raw ≡ₚ raw /\ StronglySorted login_le (sort_Slice loginLess raw).
Proof.
  apply (sort_Slice_sorted loginLess).
  - intros a b. apply str_lt_asym.
  - intros a b c. apply str_le_trans.
Qed.

Lemma loginLess_deterministic (raw1 raw2 : list LoginItem) :
  raw1 ≡ₚ raw2 ->
  (forall a b, a ∈ raw1 -> b ∈ raw1 -> ToLower (li_Name a) = ToLower (li_Name b) -> a = b) ->
  sort_Slice loginLess raw1 = sort_Slice loginLess raw2.
Proof.
  intros Hperm Hkeys. apply (sort_Slice_deterministic loginLess); [| |exact Hperm|].
  - intros a b. apply str_lt_asym.
  - intros a b c. apply str_le_trans.
  - intros a b Ha Hb H1 H2. apply Hkeys; [exact Ha | exact Hb|].
    apply str_le_antisym; assumption.
Qed.

Lemma backgroundLess_lex : backgroundLess = lexLess bg_Scope bg_Label.
Proof. reflexivity. Qed.

Lemma extensionLess_lex : extensionLess = lexLess ext_Category ext_Name.
Proof. reflexivity. Qed.

Lemma listLoginItems_Ok (w w' : World) (items : list LoginItem) :
  listLoginItems w = (Ok items, w') ->
  exists raw, items = sort_Slice loginLess raw.
Proof.
  unfold listLoginItems, runOSA, run, mbind, M_bind, mret, M_ret. cbn.
  destruct (run_err _) as [e|]; [discriminate|].
  destruct (json_Unmarshal_LoginItems _) as [raw|e]; [|discriminate].
  intros [= <- _]. exists raw. reflexivity.
Qed.

Lemma listBackgroundItems_Ok (scope : string) (w w' : World)
    (items : list BackgroundItem) (ws : list string) :
  listBackgroundItems scope w = (Ok (items, ws), w') ->
  exists dirs loadedUser w1 disabledByScope ws1 w2 raw,
    backgroundDirs (ToLower scope) = Ok dirs /\
    fetchLoadedUser (ToLower scope) w = (loadedUser, w1) /\
    fetchDisabledByScope (ToLower scope) w1 = ((disabledByScope, ws1), w2) /\
    foldM (scanDir loadedUser disabledByScope) dirs ([], ws1) w2 = ((raw, ws), w') /\
    items = sort_Slice backgroundLess raw.
Proof.
  unfold listBackgroundItems.
  match goal with |- context [if ?b then _ else _] => destruct b end; [discriminate|].
  destruct (backgroundDirs (ToLower scope)) as [dirs|e]; [|discriminate].
  unfold mbind, M_bind, mret, M_ret.
  destruct (fetchLoadedUser (ToLower scope) w) as [loadedUser w1] eqn:H1.
  destruct (fetchDisabledByScope (ToLower scope) w1) as [[dbs ws1] w2] eqn:H2.
  destruct (foldM (scanDir loadedUser dbs) dirs ([], ws1) w2) as [[raw ws'] w3] eqn:H3.
  intros [= <- <- <-].
  exists dirs, loadedUser, w1, dbs, ws1, w2, raw. repeat split; assumption || reflexivity.
Qed.

Lemma listSystemExtensions_Ok (w w' : World) (items : list SystemExtensionItem) :
  listSystemExtensions w = (Ok items, w') ->
  exists raw, items = sort_Slice extensionLess raw.
Proof.
  unfold listSystemExtensions, run, mbind, M_bind, mret, M_ret. cbn.
  destruct (run_err _) as [e|]; [discriminate|].
  destruct (bufio_ScanLines _) as [lines serr].
  destruct (fold_left extensionLine lines ([], "")) as [raw cat].
  destruct serr as [e|]; [discriminate|].
  intros [= <- _]. exists raw. reflexivity.
Qed.

(** C5: whatever the order of the raw records, sorting them gives the
    same records with login items ascending by lower-cased name,
    background items by scope then label and system extensions by category
    then name; every list the three aggregators return is sorted so; and
    when no two records share their keys, two orders of the same raw
    records give the same list. *)
Theorem aggregated_lists_sorted :
  (forall raw, sort_Slice loginLess raw ≡ₚ raw /\
               StronglySorted login_le (sort_Slice loginLess raw))
  /\ (forall raw, sort_Slice backgroundLess raw ≡ₚ raw /\
                  StronglySorted (lex_le bg_Scope bg_Label) (sort_Slice backgroundLess raw))
  /\ (forall raw, sort_Slice extensionLess raw ≡ₚ raw /\
                  StronglySorted (lex_le ext_Category ext_Name) (sort_Slice extensionLess raw))
  /\ (forall w items w',
        listLoginItems w = (Ok items, w') -> StronglySorted login_le items)
  /\ (forall scope w items ws w',
        listBackgroundItems scope w = (Ok (items, ws), w') ->
        StronglySorted (lex_le bg_Scope bg_Label) items)
  /\ (forall w items w',
        listSystemExtensions w = (Ok items, w') ->
        StronglySorted (lex_le ext_Category ext_Name) items)
  /\ (forall raw1 raw2, raw1 ≡ₚ raw2 ->
        (forall a b, a ∈ raw1 -> b ∈ raw1 ->
           ToLower (li_Name a) = ToLower (li_Name b) -> a = b) ->
        sort_Slice loginLess raw1 = sort_Slice loginLess raw2)
  /\ (forall raw1 raw2, raw1 ≡ₚ raw2 ->
        (forall a b, a ∈ raw1 -> b ∈ raw1 ->
           bg_Scope a = bg_Scope b -> bg_Label a = bg_Label b -> a = b) ->
        sort_Slice backgroundLess raw1 = sort_Slice backgroundLess raw2)
  /\ (forall raw1 raw2, raw1 ≡ₚ raw2 ->
        (forall a b, a ∈ raw1 -> b ∈ raw1 ->
           ext_Category a = ext_Category b -> ext_Name a = ext_Name b -> a = b) ->
        sort_Slice extensionLess raw1 = sort_Slice extensionLess raw2).
Proof.
  split; [apply loginLess_sorted|].
  split; [intros raw; rewrite backgroundLess_lex; apply lexLess_sorted|].
  split; [intros raw; rewrite extensionLess_lex; apply lexLess_sorted|].
  split; [|split; [|split; [|split; [|split]]]].
  - intros w items w' H. apply listLoginItems_Ok in H as [raw ->]. apply loginLess_sorted.
  - intros scope w items ws w' H.
    apply listBackgroundItems_Ok in H as (? & ? & ? & ? & ? & ? & raw & _ & _ & _ & _ & ->).
    rewrite backgroundLess_lex. apply lexLess_sorted.
  - intros w items w' H. apply listSystemExtensions_Ok in H as [raw ->].
    rewrite extensionLess_lex. apply lexLess_sorted.
  - apply loginLess_deterministic.
  - rewrite backgroundLess_lex. apply lexLess_deterministic.
  - rewrite extensionLess_lex. apply lexLess_deterministic.
Qed.

End Aggregates.

(** osascript lists Raycast before alpha; the aggregate has alpha first. *)
Lemma aggregated_lists_sorted_witness :
  let res := listLoginItems (lib := exampleLib) (env := goneEnv) emptyWorld in
  fst res = Ok [mkLoginItem "alpha" "/Applications/alpha.app" true;
                mkLoginItem "Raycast" "/Applications/Raycast.app" false]
  /\ StronglySorted (login_le (lib := exampleLib))
       [mkLoginItem "alpha" "/Applications/alpha.app" true;
        mkLoginItem "Raycast" "/Applications/Raycast.app" false].
Proof.
  intros res.
  assert (Hres : res = (Ok [mkLoginItem "alpha" "/Applications/alpha.app" true;
                            mkLoginItem "Raycast" "/Applications/Raycast.app" false], snd res)).
  { apply injective_projections; [vm_compute; reflexivity | reflexivity]. }
  split; [rewrite Hres; reflexivity|].
  destruct (aggregated_lists_sorted (lib := exampleLib) (env := goneEnv))
    as (_ & _ & _ & Hlogin & _).
  exact (Hlogin emptyWorld _ (snd res) Hres).
Defined.

(** TestSplitTabColumns, and the row it comes from. *)
Example splitTabColumns_tailscale :
  let tabc := String "009" EmptyString in
  let line := "*" +:+ tabc +:+ "*" +:+ tabc +:+ "W5364U7YZB" +:+ tabc +:+
              "io.tailscale.ipn.macsys.network-extension (1.94.1/101.94.1)" +:+ tabc +:+
              "Tailscale Network Extension" +:+ tabc +:+ "[activated enabled]" in
  splitTabColumns (lib := exampleLib) line
  = ["*"; "*"; "W5364U7YZB"; "io.tailscale.ipn.macsys.network-extension (1.94.1/101.94.1)";
     "Tailscale Network Extension"; "[activated enabled]"]
  /\ extensionLine (lib := exampleLib) ([], "com.apple.system_extension.network_extension") line
     = ([mkSystemExtensionItem "com.apple.system_extension.network_extension" true true
           "W5364U7YZB" "io.tailscale.ipn.macsys.network-extension" "1.94.1/101.94.1"
           "Tailscale Network Extension" "activated enabled"],
        "com.apple.system_extension.network_extension").
Proof. vm_compute. split; reflexivity. Qed.

(** ** deleteBackgroundItem *)

Section Delete.
Context {lib : GoLib} {env : Env}.

Lemma isIgnorableBootoutError_phrases (err : error) :
  isIgnorableBootoutError err
  = existsb (strings.Contains (ToLower (Error err))) benignPhrases.
Proof.
  unfold isIgnorableBootoutError, benignPhrases. cbn [existsb].
  rewrite orb_false_r, !orb_assoc. reflexivity.
Qed.

Lemma runLaunchctl_world (args : list string) (w : World) :
  snd (runLaunchctl args w) = mkWorld (files w) (trace w ++ [EvRun (cmd_launchctl args)]).
Proof. reflexivity. Qed.

(** When the plist path or the domain cannot be resolved the call ends
    there: nothing is booted out and nothing is removed. *)
Lemma deleteBackgroundItem_unresolved (label plistPath scope : string) (w : World) :
  (forall e, filepath_Abs plistPath = Err e ->
     deleteBackgroundItem label plistPath scope w = (Some e, w))
  /\ (forall absPath e, filepath_Abs plistPath = Ok absPath -> launchDomain scope = Err e ->
        deleteBackgroundItem label plistPath scope w = (Some e, w)).
Proof.
  split.
  - intros e H. unfold deleteBackgroundItem. rewrite H. reflexivity.
  - intros absPath e H1 H2. unfold deleteBackgroundItem. rewrite H1, H2. reflexivity.
Qed.

(** C1: once the plist path and the launchd domain of the scope are
    resolved, deleteBackgroundItem first boots the label out of that
    domain.  A failure whose lower-cased message contains none of the
    benign phrases ends the call with an error: os.Remove is never reached
    and the files are as before.  After a success or an ignorable failure
    the plist is removed: an absent file is a success that changes
    nothing, a present one is deleted, and any other failure of the
    removal is returned as an error. *)
Theorem deleteBackgroundItem_two_phase
    (label plistPath scope absPath domain : string) (w w1 w' : World)
    (berr r : option error) :
  filepath_Abs plistPath = Ok absPath ->
  launchDomain scope = Ok domain ->
  runLaunchctl ["bootout"; domain +:+ "/" +:+ label] w = (berr, w1) ->
  deleteBackgroundItem label plistPath scope w = (r, w') ->
  let bootout := EvRun (cmd_launchctl ["bootout"; domain +:+ "/" +:+ label]) in
  (exists rest, trace w' = trace w ++ bootout :: rest)
  /\ (forall err, berr = Some err ->
        existsb (strings.Contains (ToLower (Error err))) benignPhrases = false ->
        r = Some (errors_New ("bootout failed for " +:+ label +:+ ": " +:+ Error err))
        /\ files w' = files w /\ trace w' = trace w ++ [bootout])
  /\ ((berr = None \/
       exists err, berr = Some err /\
                   existsb (strings.Contains (ToLower (Error err))) benignPhrases = true) ->
      (exists rest, trace w' = trace w ++ bootout :: EvRemove absPath :: rest)
      /\ (absPath ∉ files w -> r = None /\ files w' = files w)
      /\ (absPath ∈ files w -> remove_fault w1 absPath = None ->
            r = None /\ files w' = files w ∖ {[absPath]})
      /\ (absPath ∈ files w -> forall msg, remove_fault w1 absPath = Some msg ->
            r = Some (errors_New ("remove plist " +:+ absPath +:+ ": " +:+
                                  "remove " +:+ absPath +:+ ": " +:+ msg))
            /\ files w' = files w)).
Proof.
  intros Habs Hdom Hboot Hdel bootout.
  pose proof (runLaunchctl_world ["bootout"; domain +:+ "/" +:+ label] w) as Hw1.
  rewrite Hboot in Hw1. cbn [snd] in Hw1.
  unfold deleteBackgroundItem in Hdel. rewrite Habs, Hdom in Hdel.
  unfold mbind, M_bind in Hdel. rewrite Hboot in Hdel.
  match type of Hdel with
  | context [match ?f with Some _ => _ | None => _ end w1] =>
      destruct f as [fatal|] eqn:Hfatal
  end.
  - (* the bootout failure is fatal *)
    unfold mret, M_ret in Hdel. injection Hdel as <- <-.
    destruct berr as [err|]; [|discriminate].
    destruct (isIgnorableBootoutError err) eqn:Hign; [discriminate|].
    cbn [negb] in Hfatal. injection Hfatal as <-.
    rewrite Hw1. cbn [files trace].
    split; [exists []; reflexivity|]. split.
    + intros err' [= <-] _. repeat split; reflexivity.
    + intros [H | (err' & [= <-] & H)]; [discriminate|].
      rewrite <- isIgnorableBootoutError_phrases in H. congruence.
  - (* the removal runs *)
    assert (Hrem :
      (exists rest, trace w' = trace w ++ bootout :: EvRemove absPath :: rest)
      /\ (absPath ∉ files w -> r = None /\ files w' = files w)
      /\ (absPath ∈ files w -> remove_fault w1 absPath = None ->
            r = None /\ files w' = files w ∖ {[absPath]})
      /\ (absPath ∈ files w -> forall msg, remove_fault w1 absPath = Some msg ->
            r = Some (errors_New ("remove plist " +:+ absPath +:+ ": " +:+
                                  "remove " +:+ absPath +:+ ": " +:+ msg))
            /\ files w' = files w)).
    { revert Hdel. unfold os_Remove, record, mret, M_ret. rewrite Hw1. cbn [files trace].
      destruct (decide (absPath ∈ files w)) as [Hin | Hout].
      - destruct (remove_fault _ absPath) as [msg|] eqn:Hfault; cbn; intros [= <- <-]; cbn.
        + split; [exists []; rewrite <- app_assoc; reflexivity|].
          split; [intros H; destruct (H Hin)|]. split; [discriminate|].
          intros _ msg' [= <-]. split; reflexivity.
        + split; [eexists; rewrite <- !app_assoc; reflexivity|].
          split; [intros H; destruct (H Hin)|]. split; [intros _ _; split; reflexivity|].
          discriminate.
      - cbn. intros [= <- <-]. cbn.
        split; [exists []; rewrite <- app_assoc; reflexivity|].
        split; [intros _; split; reflexivity|].
        split; intros H; destruct (Hout H). }
    split; [|split].
    + destruct Hrem as ((rest & ->) & _). eexists. reflexivity.
    + intros err -> Hno. rewrite <- isIgnorableBootoutError_phrases in Hno.
      rewrite Hno in Hfatal. discriminate.
    + intros _. exact Hrem.
Qed.

End Delete.

(** The cases of TestIsIgnorableBootoutError. *)
Example isIgnorableBootoutError_cases :
  map (fun msg => isIgnorableBootoutError (lib := exampleLib) (errors_New msg))
      ["Boot-out failed: 125: Domain does not support specified action";
       "bootout: No such process"; "Service could not be found"; "permission denied"]
  = [true; true; true; false].
Proof. vm_compute. reflexivity. Qed.

(** The service is already gone (an ignorable failure) and the plist is
    there: the call succeeds and the file is deleted. *)
Lemma deleteBackgroundItem_two_phase_witness :
  let res := deleteBackgroundItem (lib := exampleLib) (env := goneEnv)
               "com.foo.agent" agentPlist "user" agentWorld in
  fst res = None /\ files (snd res) = files agentWorld ∖ {[agentPlist]}.
Proof.
  intros res.
  destruct (deleteBackgroundItem_two_phase (lib := exampleLib) (env := goneEnv)
              "com.foo.agent" agentPlist "user" agentPlist "gui/501" agentWorld _ (snd res)
              _ (fst res) eq_refl eq_refl eq_refl (surjective_pairing res))
    as (_ & _ & Hremove).
  destruct Hremove as (_ & _ & Hpresent & _).
  { right. eexists. split; [reflexivity | vm_compute; reflexivity]. }
  apply Hpresent; [|reflexivity].
  unfold agentWorld. cbn [files]. apply elem_of_singleton_2. reflexivity.
Defined.

(** Deleting twice: the second call finds the plist gone and succeeds. *)
Example delete_is_idempotent :
  let '(r1, w1) := deleteBackgroundItem (lib := exampleLib) (env := goneEnv)
                     "com.foo.agent" agentPlist "user" agentWorld in
  let '(r2, w2) := deleteBackgroundItem (lib := exampleLib) (env := goneEnv)
                     "com.foo.agent" agentPlist "user" w1 in
  r1 = None /\ r2 = None /\ files w1 = ∅ /\ files w2 = ∅.
Proof. vm_compute. repeat split; reflexivity. Qed.

(** ** The disabled state of background items *)

Section Disabled.
Context {lib : GoLib} {env : Env}.

Lemma foldM_invariant {A B : Type} (Q : B -> Prop) (f : B -> A -> M B) (l : list A) :
  (forall b a w b' w', Q b -> a ∈ l -> f b a w = (b', w') -> Q b') ->
  forall b w b' w', Q b -> foldM f l b w = (b', w') -> Q b'.
Proof.
  induction l as [|a l IH]; intros Hf b w b' w' Hb H; cbn in H.
  - unfold mret, M_ret in H. injection H as <- _. exact Hb.
  - unfold mbind, M_bind in H. destruct (f b a w) as [b1 w1] eqn:Hfa.
    eapply IH; [|eapply Hf; [exact Hb | left | exact Hfa] | exact H].
    intros b0 a0 w0 b0' w0' Hb0 Ha0. apply Hf; [exact Hb0 | right; exact Ha0].
Qed.

Lemma fetchDisabledByScope_maps (scope : string) (w1 w2 : World)
    (dbs : gmap string (gmap string bool)) (ws : list string) :
  fetchDisabledByScope scope w1 = ((dbs, ws), w2) ->
  dbs !! "user" = fst (userDisabled scope w1) /\
  dbs !! "system" = systemDisabled scope (snd (userDisabled scope w1)).
Proof.
  unfold fetchDisabledByScope, userDisabled, systemDisabled, includesUser, includesSystem.
  unfold mbind, M_bind, mret, M_ret.
  destruct (String.eqb scope "user" || String.eqb scope "all");
    [destruct (launchDomain "user") as [domain|e];
       [destruct (getDisabledLabels domain w1) as [[m [e|]] wu]|]|];
    cbn [fst snd fetchedMap];
    (destruct (String.eqb scope "system" || String.eqb scope "all");
       [match goal with
        | |- context [getDisabledLabels "system" ?w] =>
            destruct (getDisabledLabels "system" w) as [[ms [es|]] wsys]
        end|]);
    cbn [fst snd fetchedMap]; intros [= <- _ _]; split; reflexivity.
Qed.

Lemma scanEntry_disabled (lu : gmap string bool) (dbs : gmap string (gmap string bool))
    (d : plistDir) (items items' : list BackgroundItem) (e : DirEntry) (w w' : World) :
  d_scope d = "user" \/ d_scope d = "system" ->
  Forall (disabled_ok dbs) items ->
  scanEntry lu dbs d items e w = (items', w') ->
  Forall (disabled_ok dbs) items'.
Proof.
  intros Hd Hitems. unfold scanEntry.
  destruct (de_IsDir e || _); [intros [= <- _]; exact Hitems|].
  unfold mbind, M_bind, mret, M_ret.
  destruct (readPlistLabel _ w) as [[label|err] w1]; [|intros [= <- _]; exact Hitems].
  destruct (String.eqb label ""); [intros [= <- _]; exact Hitems|].
  intros [= <- _]. apply Forall_app. split; [exact Hitems|].
  apply Forall_singleton. unfold disabled_ok, disabledFrom.
  destruct (dbs !! d_scope d) as [m|] eqn:Hm; [destruct (m !! label) eqn:Hl|];
    cbn; rewrite ?Hm; cbn; rewrite ?Hl; split; (exact Hd || reflexivity).
Qed.

Lemma scanDir_disabled (lu : gmap string bool) (dbs : gmap string (gmap string bool))
    (st st' : list BackgroundItem * list string) (d : plistDir) (w w' : World) :
  d_scope d = "user" \/ d_scope d = "system" ->
  Forall (disabled_ok dbs) (fst st) ->
  scanDir lu dbs st d w = (st', w') ->
  Forall (disabled_ok dbs) (fst st').
Proof.
  intros Hd Hst. destruct st as [items ws]. unfold scanDir, readDir.
  unfold mbind, M_bind, mret, M_ret.
  destruct (os_ReadDir w (d_dir d)) as [entries|err].
  - destruct (foldM (scanEntry lu dbs d) entries items w) as [items' w1] eqn:Hfold.
    intros [= <- _]. cbn.
    eapply (foldM_invariant (Forall (disabled_ok dbs))); [|exact Hst|exact Hfold].
    intros b a w0 b' w0' Hb _ H. eapply scanEntry_disabled; eassumption.
  - destruct (IsNotExist err); intros [= <- _]; exact Hst.
Qed.

Lemma backgroundDirs_scopes (scope : string) (dirs : list plistDir) :
  backgroundDirs scope = Ok dirs ->
  Forall (fun d => d_scope d = "user" \/ d_scope d = "system") dirs.
Proof.
  unfold backgroundDirs.
  destruct (String.eqb scope "user" || String.eqb scope "all");
    [destruct os_UserHomeDir as [home|e]; [|discriminate]|];
    destruct (String.eqb scope "system" || String.eqb scope "all");
    intros [= <-]; cbn [app];
    repeat (apply Forall_cons_2; [cbn; auto|]); apply Forall_nil_2.
Qed.

(** C2: every item listBackgroundItems returns has scope user or system,
    and its Disabled field is the entry for its label in the disabled map
    fetched for that very scope; it is nil (unknown) when that fetch was
    skipped or failed, or the map has no entry for the label, whatever the
    fetch for the other scope gave. *)
Theorem disabled_from_own_scope (scope : string) (w w' : World)
    (items : list BackgroundItem) (ws : list string) :
  listBackgroundItems scope w = (Ok (items, ws), w') ->
  let s := ToLower scope in
  let w1 := snd (fetchLoadedUser s w) in
  let userMap := fst (userDisabled s w1) in
  let systemMap := systemDisabled s (snd (userDisabled s w1)) in
  forall it, it ∈ items ->
    (bg_Scope it = "user" /\ bg_Disabled it = disabledFrom userMap it) \/
    (bg_Scope it = "system" /\ bg_Disabled it = disabledFrom systemMap it).
Proof.
  intros H s w1 userMap systemMap it Hit.
  apply listBackgroundItems_Ok in H
    as (dirs & lu & w1' & dbs & ws1 & w2 & raw & Hdirs & Hlu & Hdbs & Hfold & ->).
  assert (w1' = w1) as -> by (subst w1 s; rewrite Hlu; reflexivity).
  apply fetchDisabledByScope_maps in Hdbs as [Huser Hsys].
  assert (Hraw : Forall (disabled_ok dbs) raw).
  { apply backgroundDirs_scopes in Hdirs.
    apply (foldM_invariant (fun st => Forall (disabled_ok dbs) (fst st))
             (scanDir lu dbs) dirs) with (b := ([], ws1)) (w := w2) (b' := (raw, ws)) (w' := w');
      [|constructor|exact Hfold].
    intros b a w0 b' w0' Hb Ha Hstep. eapply scanDir_disabled; [|exact Hb|exact Hstep].
    rewrite Forall_forall in Hdirs. apply Hdirs. exact Ha. }
  destruct (sort_Slice_sorted backgroundLess) with (l := raw) as [Hperm _].
  { rewrite backgroundLess_lex. apply lexLess_asym. }
  { rewrite backgroundLess_lex. intros a b c. rewrite !lexLess_not_after. apply lex_le_trans. }
  rewrite Hperm in Hit. rewrite Forall_forall in Hraw.
  destruct (Hraw it Hit) as [[Hs | Hs] Hd]; [left | right]; (split; [exact Hs|]);
    rewrite Hd, Hs; [rewrite Huser | rewrite Hsys]; reflexivity.
Qed.

End Disabled.

(** The user's disabled services are read and list com.a; the system's are
    not readable.  The system daemon com.a stays unknown, the user agent
    com.a is disabled, and the system item sorts first. *)
Lemma disabled_from_own_scope_witness :
  let res := listBackgroundItems (lib := exampleLib) (env := deniedEnv) "all" emptyWorld in
  let sysItem := mkBackgroundItem "com.a" "/Library/LaunchDaemons/com.a.plist"
                   "system" "daemon" false None in
  let userItem := mkBackgroundItem "com.a" "/Users/test/Library/LaunchAgents/com.a.plist"
                    "user" "agent" true (Some true) in
  fst res = Ok ([sysItem; userItem],
                ["could not read system disabled state (try sudo): exit status 1"])
  /\ ((bg_Scope sysItem = "user" /\ bg_Disabled sysItem = Some true) \/
      (bg_Scope sysItem = "system" /\ bg_Disabled sysItem = None)).
Proof.
  intros res sysItem userItem.
  assert (Hres : res = (Ok ([sysItem; userItem],
                            ["could not read system disabled state (try sudo): exit status 1"]),
                        snd res)).
  { apply injective_projections; [vm_compute; reflexivity | reflexivity]. }
  split; [rewrite Hres; reflexivity|].
  exact (disabled_from_own_scope (lib := exampleLib) (env := deniedEnv) "all" emptyWorld
           (snd res) _ _ Hres sysItem ltac:(left)).
Defined.
(** ** The result of a rebuild, field by field *)

Section RebuildForm.
Context {lib : GoLib}.

Lemma uiModel_ext (m1 m2 : uiModel) :
  width m1 = width m2 -> height m1 = height m2 -> tab m1 = tab m2 -> table m1 = table m2 ->
  loginItems m1 = loginItems m2 -> loginRows m1 = loginRows m2 ->
  bgItems m1 = bgItems m2 -> bgRows m1 = bgRows m2 ->
  extItems m1 = extItems m2 -> extRows m1 = extRows m2 ->
  warnings m1 = warnings m2 -> filter m1 = filter m2 ->
  filterActive m1 = filterActive m2 -> confirmMode m1 = confirmMode m2 ->
  confirmText m1 = confirmText m2 -> pendingBGDel m1 = pendingBGDel m2 ->
  status m1 = status m2 -> err m1 = err m2 -> m1 = m2.
Proof. destruct m1, m2; cbn; intros; subst; reflexivity. Qed.

Ltac rebuild_cases m :=
  unfold rebuildTable; cbn -[visible Z.eqb max int_sub int_div];
  destruct (tab m =? tabLogin); [|destruct (tab m =? tabBackground)];
  cbn -[visible Z.eqb max int_sub int_div]; rewrite visible_eq;
  cbn -[Z.eqb max int_sub int_div matching_from List.filter];
  match goal with |- context [if ?b then _ else _] => destruct b end;
  try reflexivity.

Lemma rebuildTable_size (c : Z) (m : uiModel) :
  width (rebuildTable c m) = width m /\ height (rebuildTable c m) = height m.
Proof. rebuild_cases m; split; reflexivity. Qed.

Lemma rebuildTable_width (c : Z) (m : uiModel) : width (rebuildTable c m) = width m.
Proof. apply rebuildTable_size. Qed.
Lemma rebuildTable_height (c : Z) (m : uiModel) : height (rebuildTable c m) = height m.
Proof. apply rebuildTable_size. Qed.
Lemma rebuildTable_tab (c : Z) (m : uiModel) : tab (rebuildTable c m) = tab m.
Proof. apply rebuildTable_frame. Qed.
Lemma rebuildTable_filter (c : Z) (m : uiModel) : filter (rebuildTable c m) = filter m.
Proof. apply rebuildTable_frame. Qed.
Lemma rebuildTable_loginItems (c : Z) (m : uiModel) :
  loginItems (rebuildTable c m) = loginItems m.
Proof. apply rebuildTable_frame. Qed.
Lemma rebuildTable_bgItems (c : Z) (m : uiModel) : bgItems (rebuildTable c m) = bgItems m.
Proof. apply rebuildTable_frame. Qed.
Lemma rebuildTable_extItems (c : Z) (m : uiModel) : extItems (rebuildTable c m) = extItems m.
Proof. apply rebuildTable_frame. Qed.
Lemma rebuildTable_confirmText (c : Z) (m : uiModel) :
  confirmText (rebuildTable c m) = confirmText m.
Proof. apply rebuildTable_frame. Qed.
Lemma rebuildTable_status (c : Z) (m : uiModel) : status (rebuildTable c m) = status m.
Proof. apply rebuildTable_frame. Qed.
Lemma rebuildTable_err (c : Z) (m : uiModel) : err (rebuildTable c m) = err m.
Proof. apply rebuildTable_frame. Qed.
Lemma rebuildTable_warnings (c : Z) (m : uiModel) : warnings (rebuildTable c m) = warnings m.
Proof. apply rebuildTable_frame. Qed.

(** Only the index slice of the active tab is rewritten. *)
Lemma rebuildTable_loginRows_eq (c : Z) (m : uiModel) :
  loginRows (rebuildTable c m)
  = if tab m =? tabLogin then matching_from (loginMatches m) 0 (loginItems m)
    else loginRows m.
Proof. rebuild_cases m. Qed.

Lemma rebuildTable_bgRows_eq (c : Z) (m : uiModel) :
  bgRows (rebuildTable c m)
  = if tab m =? tabLogin then bgRows m
    else if tab m =? tabBackground then matching_from (backgroundMatches m) 0 (bgItems m)
         else bgRows m.
Proof. rebuild_cases m. Qed.

Lemma rebuildTable_extRows_eq (c : Z) (m : uiModel) :
  extRows (rebuildTable c m)
  = if tab m =? tabLogin then extRows m
    else if tab m =? tabBackground then extRows m
         else matching_from (extensionsMatches m) 0 (extItems m).
Proof. rebuild_cases m. Qed.

(** The table a rebuild leaves depends on the size, the tab, the filter
    and the snapshots, and on nothing else: not on the table before, nor on
    any index slice. *)
Lemma rebuildTable_table_ext (c : Z) (m1 m2 : uiModel) :
  same_view m1 m2 -> table (rebuildTable c m1) = table (rebuildTable c m2).
Proof.
  intros (H1 & H2 & H3 & H4 & H5 & H6 & H7).
  destruct m1, m2; cbn in H1, H2, H3, H4, H5, H6, H7; subst.
  unfold rebuildTable; cbn -[visible Z.eqb max int_sub int_div].
  match goal with |- context [?t =? tabLogin] =>
    destruct (t =? tabLogin); [|destruct (t =? tabBackground)] end;
    cbn -[visible Z.eqb max int_sub int_div]; rewrite !visible_eq;
    cbn -[Z.eqb max int_sub int_div matching_from List.filter];
    match goal with |- context [if ?b then _ else _] => destruct b end;
    reflexivity.
Qed.

Lemma rebuildTable_fields (c : Z) (m : uiModel) : rebuild_of m (rebuildTable c m).
Proof.
  unfold rebuild_of.
  rewrite rebuildTable_width, rebuildTable_height, rebuildTable_loginRows_eq,
    rebuildTable_bgRows_eq, rebuildTable_extRows_eq.
  destruct (rebuildTable_frame c m) as (H1 & H2 & H3 & H4 & H5 & H6 & H7 & H8 & H9 & H10 & H11 & H12).
  repeat split; assumption.
Qed.

(** Two rebuilds give the same browser when they start from browsers
    that differ in the table and in the index slice of the active tab
    only. *)
Lemma rebuildTable_congr (c : Z) (m1 m2 : uiModel) :
  same_view m1 m2 ->
  warnings m1 = warnings m2 -> filterActive m1 = filterActive m2 ->
  confirmMode m1 = confirmMode m2 -> confirmText m1 = confirmText m2 ->
  pendingBGDel m1 = pendingBGDel m2 -> status m1 = status m2 -> err m1 = err m2 ->
  (tab m2 <> tabLogin -> loginRows m1 = loginRows m2) ->
  (tab m2 <> tabBackground -> bgRows m1 = bgRows m2) ->
  (tab m2 = tabLogin \/ tab m2 = tabBackground -> extRows m1 = extRows m2) ->
  rebuildTable c m1 = rebuildTable c m2.
Proof.
  intros Hv Hwa Hfa Hcm Hct Hp Hst Her Hlr Hbr Hxr.
  pose proof (rebuildTable_table_ext c m1 m2 Hv) as Htable.
  destruct Hv as (V1 & V2 & V3 & V4 & V5 & V6 & V7).
  destruct (rebuildTable_fields c m1)
    as (A1 & A2 & A3 & A4 & A5 & A6 & A7 & A8 & A9 & A10 & A11 & A12 & A13 & A14 & A15 & A16 & A17).
  destruct (rebuildTable_fields c m2)
    as (B1 & B2 & B3 & B4 & B5 & B6 & B7 & B8 & B9 & B10 & B11 & B12 & B13 & B14 & B15 & B16 & B17).
  apply uiModel_ext; try congruence.
  - rewrite A15, B15. unfold loginMatches. rewrite V3, V4, V5.
    destruct (tab m2 =? tabLogin) eqn:E; [reflexivity|]. apply Hlr. apply Z.eqb_neq. exact E.
  - rewrite A16, B16. unfold backgroundMatches. rewrite V3, V4, V6.
    destruct (tab m2 =? tabLogin) eqn:E1.
    + apply Hbr. apply Z.eqb_eq in E1. rewrite E1. discriminate.
    + destruct (tab m2 =? tabBackground) eqn:E2; [reflexivity|]. apply Hbr. apply Z.eqb_neq. exact E2.
  - rewrite A17, B17. unfold extensionsMatches. rewrite V3, V4, V7.
    destruct (tab m2 =? tabLogin) eqn:E1.
    + apply Hxr. left. apply Z.eqb_eq. exact E1.
    + destruct (tab m2 =? tabBackground) eqn:E2; [|reflexivity].
      apply Hxr. right. apply Z.eqb_eq. exact E2.
Qed.

End RebuildForm.

Section AfterMessages.
Context {lib : GoLib}.

Lemma after_window (m : uiModel) (w h : Z) :
  after m (WindowSizeMsg w h) = rebuildTable 0 (set_size w h m).
Proof. reflexivity. Qed.

Lemma after_login (m : uiModel) (l : list LoginItem) :
  after m (loginLoadedMsg l None)
  = rebuildTable 0 (set_err None (set_status ("Loaded " +:+ fmt_d (slen l) +:+ " login items")
                                    (set_loginItems l m))).
Proof. reflexivity. Qed.

Lemma after_login_failed (m : uiModel) (l : list LoginItem) (e : error) :
  after m (loginLoadedMsg l (Some e))
  = rebuildTable 0 (set_status "Failed to load login items" (set_err (Some e) m)).
Proof. reflexivity. Qed.

Lemma after_background (m : uiModel) (l : list BackgroundItem) (ws : list string) :
  after m (backgroundLoadedMsg l ws None)
  = rebuildTable 0 (set_err None
                      (set_status ("Loaded " +:+ fmt_d (slen l) +:+ " background items")
                         (set_warnings ws (set_bgItems l m)))).
Proof. reflexivity. Qed.

Lemma after_background_failed (m : uiModel) (l : list BackgroundItem) (ws : list string)
    (e : error) :
  after m (backgroundLoadedMsg l ws (Some e))
  = rebuildTable 0 (set_status "Failed to load background items" (set_err (Some e) m)).
Proof. reflexivity. Qed.

Lemma after_extensions (m : uiModel) (l : list SystemExtensionItem) :
  after m (extensionsLoadedMsg l None)
  = rebuildTable 0 (set_err None
                      (set_status ("Loaded " +:+ fmt_d (slen l) +:+ " system extensions")
                         (set_extItems l m))).
Proof. reflexivity. Qed.

Lemma after_extensions_failed (m : uiModel) (l : list SystemExtensionItem) (e : error) :
  after m (extensionsLoadedMsg l (Some e))
  = rebuildTable 0 (set_status "Failed to load system extensions" (set_err (Some e) m)).
Proof. reflexivity. Qed.

(** The status line is carried through a rebuild. *)
Lemma rebuildTable_set_status (c : Z) (s : string) (m : uiModel) :
  set_status s (rebuildTable c m) = rebuildTable c (set_status s m).
Proof.
  generalize (rebuildTable_table_ext c m (set_status s m)).
  generalize (rebuildTable_fields c m). generalize (rebuildTable_fields c (set_status s m)).
  generalize (rebuildTable c m). generalize (rebuildTable c (set_status s m)).
  intros R' R H' H Ht.
  unfold rebuild_of, loginMatches, backgroundMatches, extensionsMatches in H, H'.
  cbn [width height tab table loginItems loginRows bgItems bgRows extItems extRows
       warnings filter filterActive confirmMode confirmText pendingBGDel status err
       set_status] in H'.
  destruct H as (A1 & A2 & A3 & A4 & A5 & A6 & A7 & A8 & A9 & A10 & A11 & A12 & A13 & A14 & A15 & A16 & A17).
  destruct H'
    as (B1 & B2 & B3 & B4 & B5 & B6 & B7 & B8 & B9 & B10 & B11 & B12 & B13 & B14 & B15 & B16 & B17).
  apply uiModel_ext; cbn [width height tab table loginItems loginRows bgItems bgRows extItems
       extRows warnings filter filterActive confirmMode confirmText pendingBGDel status err
       set_status]; try congruence.
  apply Ht. unfold same_view. cbn. repeat split; reflexivity.
Qed.

End AfterMessages.

(** Reads the fields of a browser through its setters. *)
Ltac fields :=
  cbn [width height tab table loginItems loginRows bgItems bgRows extItems extRows
       warnings filter filterActive confirmMode confirmText pendingBGDel status err
       set_table set_size set_tab set_loginItems set_loginRows set_bgItems set_bgRows
       set_extItems set_extRows set_warnings set_filter set_filterActive set_confirm
       set_status set_err] in *.

(** Replaces a rebuild of the goal by a browser [R] of which only the
    fields are known: the innermost one, or the one made from [base]. *)
Ltac name_rebuild_as c X R :=
  let H := fresh "H" R in
  generalize (rebuildTable_fields c X); generalize (rebuildTable c X);
  intros R H; unfold rebuild_of in H;
  cbn [width height tab table loginItems loginRows bgItems bgRows extItems extRows
       warnings filter filterActive confirmMode confirmText pendingBGDel status err
       set_table set_size set_tab set_loginItems set_loginRows set_bgItems set_bgRows
       set_extItems set_extRows set_warnings set_filter set_filterActive set_confirm
       set_status set_err] in H;
  destruct H as (? & ? & ? & ? & ? & ? & ? & ? & ? & ? & ? & ? & ? & ? & ? & ? & ?).

Ltac name_rebuild R :=
  match goal with
  | |- context [rebuildTable ?c ?X] =>
      lazymatch X with
      | context [rebuildTable] => fail
      | _ => name_rebuild_as c X R
      end
  end.

Ltac name_rebuild_over base R :=
  match goal with
  | |- context [rebuildTable ?c ?X] =>
      lazymatch X with
      | context [rebuildTable] => fail
      | context [base] => name_rebuild_as c X R
      end
  end.

(** Rewrites with the known fields. *)
Ltac known_fields :=
  fields; unfold loginMatches, backgroundMatches, extensionsMatches in *; fields;
  repeat match goal with
  | H : ?f ?R = _ |- _ => is_var R; progress rewrite H
  end.


(** Decides the tests of the goal, keeping what each test says. *)
Ltac split_ifs :=
  repeat match goal with
  | |- context [if ?b then _ else _] => destruct b eqn:?
  end;
  repeat match goal with
  | E : (_ =? _) = true |- _ => apply Z.eqb_eq in E
  | E : (_ =? _) = false |- _ => apply Z.eqb_neq in E
  end.

(** ** What Update never does *)

Section UpdateSafety.
Context {lib : GoLib}.

Lemma selectedLoginItem_returns (m : uiModel) :
  exists it ok, selectedLoginItem m = Some (it, ok).
Proof.
  rewrite selectedLoginItem_eq.
  destruct (selection_cases (table.Cursor (table m)) (loginRows m) (loginItems m)) as [H | H].
  - apply (selected_in_range zeroLoginItem) in H as (i & it & _ & _ & ->). eauto.
  - rewrite (selected_out_of_range _ _ _ _ H). eauto.
Qed.

Lemma selectedBackgroundItem_returns (m : uiModel) :
  exists it ok, selectedBackgroundItem m = Some (it, ok).
Proof.
  rewrite selectedBackgroundItem_eq.
  destruct (selection_cases (table.Cursor (table m)) (bgRows m) (bgItems m)) as [H | H].
  - apply (selected_in_range zeroBackgroundItem) in H as (i & it & _ & _ & ->). eauto.
  - rewrite (selected_out_of_range _ _ _ _ H). eauto.
Qed.

(** X1: no message makes Update index a slice out of range: whatever
    the state and the message, Update returns. *)
Theorem Update_never_panics (m : uiModel) (msg : Msg) :
  exists m' c, Update m msg = Some (m', c).
Proof.
  destruct msg as [wd ht | items e | items ws e | items e | st e | k |];
    cbn -[rebuildTable Z.eqb]; eauto.
  - destruct e; [eauto|]. cbn -[Z.eqb].
    destruct (tab m =? tabLogin); [eauto|]. destruct (tab m =? tabExtensions); eauto.
  - unfold updateKey.
    destruct (selectedLoginItem_returns m) as (li & lok & ->).
    destruct (selectedBackgroundItem_returns m) as (bi & bok & ->).
    cbn -[rebuildTable Z.eqb String.eqb].
    repeat match goal with
    | |- context [if ?b then _ else _] => destruct b
    | |- context [match pendingBGDel m with _ => _ end] => destruct (pendingBGDel m)
    | |- context [match key_Type k with _ => _ end] => destruct (key_Type k)
    end; eauto.
Qed.

Lemma rebuildTable_pending (c : Z) (m : uiModel) :
  pendingBGDel (rebuildTable c m) = pendingBGDel m.
Proof. apply rebuildTable_frame. Qed.

Lemma rebuildTable_confirmMode (c : Z) (m : uiModel) :
  confirmMode (rebuildTable c m) = confirmMode m.
Proof. apply rebuildTable_frame. Qed.

Lemma rebuildTable_filterActive (c : Z) (m : uiModel) :
  filterActive (rebuildTable c m) = filterActive m.
Proof. apply rebuildTable_frame. Qed.

(** Splits the key handler into its branches. *)
Ltac split_key H k m :=
  cbv beta zeta iota in H;
  repeat match type of H with
  | context [match pendingBGDel m with _ => _ end] => destruct (pendingBGDel m) eqn:?
  | context [match key_Type k with _ => _ end] => destruct (key_Type k) eqn:?
  | context [selectedLoginItem m] =>
      let it := fresh "it" in let ok := fresh "ok" in let Hsel := fresh "Hsel" in
      destruct (selectedLoginItem_returns m) as (it & ok & Hsel);
      rewrite Hsel in H; cbn -[rebuildTable Z.eqb String.eqb] in H
  | context [selectedBackgroundItem m] =>
      let it := fresh "it" in let ok := fresh "ok" in let Hsel := fresh "Hsel" in
      destruct (selectedBackgroundItem_returns m) as (it & ok & Hsel);
      rewrite Hsel in H; cbn -[rebuildTable Z.eqb String.eqb] in H
  | context [if ?b then _ else _] => destruct b eqn:?
  end.

Ltac modes_goal :=
  unfold modes_ok;
  cbn [pendingBGDel confirmMode filterActive set_status set_confirm set_filterActive
       set_table set_filter set_tab];
  rewrite ?rebuildTable_pending, ?rebuildTable_confirmMode, ?rebuildTable_filterActive;
  cbn [pendingBGDel confirmMode filterActive set_status set_confirm set_filterActive
       set_table set_filter set_tab].

(** X2: confirm mode and the pending delete go together, and never with
    filter editing, whatever messages arrive. *)
Theorem Update_keeps_modes (m m' : uiModel) (msg : Msg) (c : option Cmd) :
  modes_ok m -> Update m msg = Some (m', c) -> modes_ok m'.
Proof.
  intros Hok H.
  assert (Hsame : forall m0, pendingBGDel m0 = pendingBGDel m ->
            confirmMode m0 = confirmMode m -> filterActive m0 = filterActive m -> modes_ok m0).
  { intros m0 Hp Hc Hf. unfold modes_ok in *. rewrite Hp, Hc, Hf. exact Hok. }
  destruct msg as [wd ht | items e | items ws e | items e | st e | k |];
    cbn -[rebuildTable Z.eqb] in H.
  - injection H as <- _. apply Hsame; modes_goal; reflexivity.
  - injection H as <- _. destruct e; apply Hsame; modes_goal; reflexivity.
  - injection H as <- _. destruct e; apply Hsame; modes_goal; reflexivity.
  - injection H as <- _. destruct e; apply Hsame; modes_goal; reflexivity.
  - destruct e; [injection H as <- _; apply Hsame; reflexivity|].
    cbn -[Z.eqb] in H.
    destruct (tab m =? tabLogin); [|destruct (tab m =? tabExtensions)];
      injection H as <- _; apply Hsame; reflexivity.
  - unfold updateKey in H.
    destruct (confirmMode m) eqn:Hc.
    + (* confirm-pending: the pending item is dropped, or nothing changes *)
      split_key H k m; injection H as <- _; try exact Hok; modes_goal; reflexivity.
    + assert (Hp : pendingBGDel m = None).
      { unfold modes_ok in Hok. destruct (pendingBGDel m); [|reflexivity].
        destruct Hok as [Hok _]. congruence. }
      destruct (filterActive m) eqn:Hf.
      * split_key H k m; injection H as <- _; try exact Hok;
          modes_goal; rewrite Hp; exact Hc.
      * split_key H k m; injection H as <- _; try exact Hok;
          modes_goal; rewrite ?Hp; first [exact Hc | split; [reflexivity | exact Hf]].
  - injection H as <- _. exact Hok.
Qed.

(** X3: every command Update issues has its trigger: a delete only from the
    confirm key with that item pending, a login removal or a toggle only
    from their key in normal mode on their tab with that row selected,
    quitting only from ctrl+c or q, a refresh only from r or a finished
    action. *)
Theorem Update_issues_on_trigger (m m' : uiModel) (msg : Msg) (c : Cmd) :
  Update m msg = Some (m', Some c) -> issued_by m msg c.
Proof.
  intros H.
  destruct msg as [wd ht | items e | items ws e | items e | st e | k |];
    cbn -[rebuildTable Z.eqb] in H; try discriminate.
  - destruct e; [discriminate|]. cbn -[Z.eqb] in H.
    destruct (tab m =? tabLogin) eqn:H1; [|destruct (tab m =? tabExtensions) eqn:H2];
      injection H as _ <-; cbn.
    + apply Z.eqb_eq in H1. split; [exact H1 | left; eauto].
    + apply Z.eqb_eq in H2. split; [exact H2 | left; eauto].
    + apply Z.eqb_neq in H1, H2. repeat split; try assumption. left. eauto.
  - unfold updateKey in H.
    assert (Hmode : confirmMode m = true \/ (confirmMode m = false /\ filterActive m = true)
                    \/ normalMode m).
    { unfold normalMode. destruct (confirmMode m), (filterActive m); auto. }
    destruct (confirmMode m) eqn:Hc; [|destruct (filterActive m) eqn:Hf];
      split_key H k m; try discriminate; injection H as _ <-; cbn;
      repeat match goal with
      | H0 : (_ || _) = true |- _ => apply orb_prop in H0
      | H0 : (_ || _) = false |- _ => apply orb_false_elim in H0 as [? ?]
      | H0 : String.eqb _ _ = true |- _ => apply String.eqb_eq in H0
      | H0 : (_ =? _) = true |- _ => apply Z.eqb_eq in H0
      | H0 : (_ =? _) = false |- _ => apply Z.eqb_neq in H0
      | H0 : negb ?b = false |- _ => destruct b eqn:?; [clear H0 | discriminate H0]
      | H0 : String.eqb _ _ = true \/ String.eqb _ _ = true |- _ =>
          destruct H0 as [H0 | H0]
      end;
      destruct Hmode as [Hm | [Hm | Hm]]; try (destruct Hm; congruence); try congruence.
    all: try (exists k; split; [reflexivity|]; first [left; assumption | right; split; assumption]).
    all: try (exists k; repeat split; assumption).
    all: try (split; [assumption|]; right; exists k; repeat split; solve [assumption | apply Hm]).
    all: try (split; [assumption|]; split; [assumption|];
              right; exists k; repeat split; solve [assumption | apply Hm]).
    all: try (eexists k, _; repeat split; try eassumption; try apply Hm;
              match goal with H0 : key_String _ = _ |- _ => rewrite H0; reflexivity end).
Qed.

(** X4: ctrl+c quits from every state, modal or not, and changes nothing. *)
Theorem ctrl_c_always_quits (m : uiModel) (k : KeyMsg) :
  key_String k = "ctrl+c" -> Update m (teaKeyMsg k) = Some (m, Some tea_Quit).
Proof.
  intros Hk. unfold Update, updateKey. rewrite Hk.
  destruct (confirmMode m); [reflexivity|]. destruct (filterActive m); reflexivity.
Qed.

End UpdateSafety.
(** ** Snapshots arriving *)

Section Loads.
Context {lib : GoLib}.

(** X5: a later successful load of a domain replaces an earlier load of the
    same domain, failed or not, without a trace. *)
Theorem last_load_wins (m : uiModel) :
  (forall l1 e1 l2,
     after (after m (loginLoadedMsg l1 e1)) (loginLoadedMsg l2 None)
     = after m (loginLoadedMsg l2 None))
  /\ (forall l1 ws1 e1 l2 ws2,
        after (after m (backgroundLoadedMsg l1 ws1 e1)) (backgroundLoadedMsg l2 ws2 None)
        = after m (backgroundLoadedMsg l2 ws2 None))
  /\ (forall l1 e1 l2,
        after (after m (extensionsLoadedMsg l1 e1)) (extensionsLoadedMsg l2 None)
        = after m (extensionsLoadedMsg l2 None)).
Proof.
  split; [|split]; intros; destruct e1;
    rewrite ?after_login, ?after_login_failed, ?after_background, ?after_background_failed,
      ?after_extensions, ?after_extensions_failed;
    name_rebuild R; apply rebuildTable_congr; unfold same_view; intros; known_fields;
    repeat split; try reflexivity; split_ifs; try reflexivity; try congruence;
    match goal with H : _ \/ _ |- _ => destruct H; congruence end.
Qed.

(** X6: successful loads of different domains may complete in either order:
    the browser ends in the same state but for the status line, which
    names the load that came last. *)
Theorem loads_commute (m : uiModel) (s : string)
    (l : list LoginItem) (b : list BackgroundItem) (ws : list string)
    (x : list SystemExtensionItem) :
  let L := loginLoadedMsg l None in
  let B := backgroundLoadedMsg b ws None in
  let X := extensionsLoadedMsg x None in
  set_status s (after (after m L) B) = set_status s (after (after m B) L)
  /\ set_status s (after (after m L) X) = set_status s (after (after m X) L)
  /\ set_status s (after (after m B) X) = set_status s (after (after m X) B).
Proof.
  cbv zeta. rewrite !after_login, !after_background, !after_extensions.
  rewrite !rebuildTable_set_status.
  split; [|split];
    name_rebuild_over m R1; name_rebuild_over m R2;
    apply rebuildTable_congr; unfold same_view; intros; known_fields;
    repeat split; try reflexivity; split_ifs; try reflexivity; try congruence;
    match goal with H : _ \/ _ |- _ => destruct H; congruence end.
Qed.

(** X7: a load that failed leaves all three snapshots, the filter and the
    rows as they were and records the error; a load that succeeded
    replaces the snapshot of its own domain only and clears the error. *)
Theorem load_touches_own_domain (m : uiModel) :
  (forall msg e,
     (exists l, msg = loginLoadedMsg l (Some e)) \/
     (exists l ws, msg = backgroundLoadedMsg l ws (Some e)) \/
     (exists l, msg = extensionsLoadedMsg l (Some e)) ->
     let m' := after m msg in
     loginItems m' = loginItems m /\ bgItems m' = bgItems m /\ extItems m' = extItems m
     /\ warnings m' = warnings m /\ filter m' = filter m /\ tab m' = tab m
     /\ table.Rows (table m') = visibleRows m /\ err m' = Some e)
  /\ (forall l,
        let m' := after m (loginLoadedMsg l None) in
        loginItems m' = l /\ bgItems m' = bgItems m /\ extItems m' = extItems m
        /\ warnings m' = warnings m /\ err m' = None
        /\ table.Rows (table m') = visibleRows (set_loginItems l m))
  /\ (forall l ws,
        let m' := after m (backgroundLoadedMsg l ws None) in
        loginItems m' = loginItems m /\ bgItems m' = l /\ extItems m' = extItems m
        /\ warnings m' = ws /\ err m' = None
        /\ table.Rows (table m') = visibleRows (set_bgItems l m))
  /\ (forall l,
        let m' := after m (extensionsLoadedMsg l None) in
        loginItems m' = loginItems m /\ bgItems m' = bgItems m /\ extItems m' = l
        /\ warnings m' = warnings m /\ err m' = None
        /\ table.Rows (table m') = visibleRows (set_extItems l m)).
Proof.
  split; [|split; [|split]].
  - intros msg e [(l & ->) | [(l & ws & ->) | (l & ->)]] m'; subst m';
      rewrite ?after_login_failed, ?after_background_failed, ?after_extensions_failed;
      rewrite rebuildTable_rows; name_rebuild R; known_fields; repeat split; reflexivity.
  - intros l m'. subst m'. rewrite after_login, rebuildTable_rows.
    name_rebuild R. known_fields. repeat split; reflexivity.
  - intros l ws m'. subst m'. rewrite after_background, rebuildTable_rows.
    name_rebuild R. known_fields. repeat split; reflexivity.
  - intros l m'. subst m'. rewrite after_extensions, rebuildTable_rows.
    name_rebuild R. known_fields. repeat split; reflexivity.
Qed.

End Loads.

(** ** Keys composed *)

Section Composed.
Context {lib : GoLib}.

Lemma max_ge_l (a b : Z) : a <= max a b.
Proof. unfold max. destruct (a >? b) eqn:H; lia. Qed.

(** X8: after every rebuild, for every terminal size, each row has one cell
    per column, no column is narrower than six cells and the table is at
    least four lines high. *)
Theorem rebuildTable_schema (c : Z) (m : uiModel) :
  let t := table (rebuildTable c m) in
  Forall (fun row => length row = length (table.cols t)) (table.Rows t)
  /\ Forall (fun col => 6 <= table.Width col) (table.cols t)
  /\ 4 <= table.height t.
Proof.
  unfold rebuildTable. cbn -[visible Z.eqb max int_sub int_div].
  destruct (tab m =? tabLogin); [|destruct (tab m =? tabBackground)];
    cbn -[visible Z.eqb max int_sub int_div]; rewrite visible_eq;
    cbn -[Z.eqb max int_sub int_div List.filter matching_from];
    (match goal with |- context [if ?b then _ else _] => destruct b end);
    cbn -[Z.eqb max int_sub int_div List.filter matching_from];
    (split; [apply Forall_forall; intros row Hrow; apply list_elem_of_fmap in Hrow as (it & -> & _);
             reflexivity|]);
    (split; [|apply max_ge_l]);
    repeat (apply Forall_cons_2; [cbn; first [lia | etrans; [|apply max_ge_l]; lia]|]);
    apply Forall_nil_2.
Qed.

Lemma str_forall_app (p : ascii -> bool) (a b : string) :
  str_forall p (a +:+ b) = str_forall p a && str_forall p b.
Proof.
  induction a as [|x a IH]; [reflexivity|].
  rewrite str_app_cons. cbn. rewrite IH, andb_assoc. reflexivity.
Qed.

Lemma trimLastRune_typed (f : string) (c : ascii) :
  str_forall strings.isASCIIbyte f = true -> strings.isASCIIbyte c = true ->
  trimLastRune (f +:+ String c "") = f.
Proof.
  intros Hf Hc. unfold trimLastRune.
  rewrite str_forall_app, Hf. cbn [str_forall andb]. rewrite Hc. cbn [andb].
  unfold len, slice_to. rewrite str_length_app. cbn [String.length].
  replace (Z.of_nat (String.length f + 1) =? 0) with false by (symmetry; apply Z.eqb_neq; lia).
  replace (Z.to_nat (Z.of_nat (String.length f + 1) - 1)) with (String.length f) by lia.
  apply str_take_app.
Qed.

Lemma set_filter_same (m : uiModel) : set_filter (filter m) m = m.
Proof. destruct m. reflexivity. Qed.

Lemma rebuildTable_absorbs (c c' : Z) (f : string) (m : uiModel) :
  rebuildTable c (set_filter (filter m) (rebuildTable c' (set_filter f m))) = rebuildTable c m.
Proof.
  name_rebuild R; apply rebuildTable_congr; unfold same_view; intros; known_fields;
    repeat split; try reflexivity; split_ifs; try reflexivity; try congruence;
    match goal with H : _ \/ _ |- _ => destruct H; congruence end.
Qed.

(** X9: while the filter is edited, typing one ASCII character and pressing
    backspace gives the filter back, and the table is the one rebuilt for
    that filter. *)
Theorem backspace_undoes_typing (m : uiModel) (k bs : KeyMsg) (c : ascii) :
  confirmMode m = false -> filterActive m = true ->
  key_Type k = KeyRunes -> key_String k = String c "" ->
  strings.isASCIIbyte c = true -> str_forall strings.isASCIIbyte (filter m) = true ->
  key_String bs = "backspace" ->
  after (after m (teaKeyMsg k)) (teaKeyMsg bs) = rebuildTable 0 m.
Proof.
  intros Hc Hf Hty Hk Hascii Hfil Hbs.
  assert (H1 : after m (teaKeyMsg k) = rebuildTable 0 (set_filter (filter m +:+ String c "") m)).
  { unfold after, Update, updateKey. rewrite Hc, Hf, Hk, Hty.
    cbn -[rebuildTable String.append].
    destruct (Ascii.eqb c "c"); destruct (Ascii.eqb c "e"); destruct (Ascii.eqb c "b");
      reflexivity. }
  rewrite H1. unfold after, Update, updateKey.
  rewrite rebuildTable_confirmMode, rebuildTable_filterActive. cbn [confirmMode filterActive set_filter].
  rewrite Hc, Hf, Hbs. cbn -[rebuildTable String.append trimLastRune].
  destruct (rebuildTable_frame 0 (set_filter (filter m +:+ String c "") m)) as (_ & Hfl & _).
  rewrite Hfl. cbn [filter set_filter].
  replace (String.eqb (filter m +:+ String c "") "") with false.
  2:{ symmetry. apply String.eqb_neq. intros E.
      apply (f_equal String.length) in E. rewrite str_length_app in E. cbn in E. lia. }
  cbn [negb]. rewrite trimLastRune_typed by assumption.
  apply rebuildTable_absorbs.
Qed.

Lemma tab_key_step (m : uiModel) (k : KeyMsg) :
  normalMode m ->
  (key_String k = "tab" ->
   after m (teaKeyMsg k) = rebuildTable 0 (set_tab (nextTab (tab m)) m))
  /\ (key_String k = "shift+tab" ->
      after m (teaKeyMsg k) = rebuildTable 0 (set_tab (prevTab (tab m)) m)).
Proof.
  intros [H1 H2]. split; intros Hk; unfold after, Update, updateKey;
    rewrite H1, H2, Hk; reflexivity.
Qed.

Lemma rebuildTable_normalMode (c : Z) (t : uiTab) (m : uiModel) :
  normalMode m -> normalMode (rebuildTable c (set_tab t m)).
Proof.
  intros [H1 H2]. unfold normalMode.
  rewrite rebuildTable_confirmMode, rebuildTable_filterActive. split; assumption.
Qed.

(** A rebuild on the tab of [m], from a browser that differs from [m] in
    its tables and index slices only, shows what a rebuild of [m] shows. *)
Lemma rebuild_same_screen (m R : uiModel) :
  width R = width m -> height R = height m -> filter R = filter m ->
  loginItems R = loginItems m -> bgItems R = bgItems m -> extItems R = extItems m ->
  same_screen (rebuildTable 0 m) (rebuildTable 0 (set_tab (tab m) R)).
Proof.
  intros H1 H2 H3 H4 H5 H6.
  assert (Hv : same_view (set_tab (tab m) R) m).
  { unfold same_view. cbn. repeat split; assumption. }
  pose proof (rebuildTable_table_ext 0 _ _ Hv) as Htable.
  destruct (rebuildTable_fields 0 m)
    as (A1 & A2 & A3 & A4 & A5 & A6 & A7 & _ & _ & _ & _ & _ & _ & _ & A15 & A16 & A17).
  destruct (rebuildTable_fields 0 (set_tab (tab m) R))
    as (B1 & B2 & B3 & B4 & B5 & B6 & B7 & _ & _ & _ & _ & _ & _ & _ & B15 & B16 & B17).
  revert Htable A1 A2 A3 A4 A5 A6 A7 A15 A16 A17 B1 B2 B3 B4 B5 B6 B7 B15 B16 B17.
  generalize (rebuildTable 0 m). generalize (rebuildTable 0 (set_tab (tab m) R)).
  intros R2 R1 Htable A1 A2 A3 A4 A5 A6 A7 A15 A16 A17 B1 B2 B3 B4 B5 B6 B7 B15 B16 B17.
  unfold loginMatches, backgroundMatches, extensionsMatches in *. fields.
  unfold same_screen. rewrite A3.
  repeat split; try congruence; intros Ht; rewrite Ht in *;
    cbn [Z.eqb tabLogin tabBackground tabExtensions] in *;
    rewrite ?A15, ?A16, ?A17, ?B15, ?B16, ?B17, ?H3, ?H4, ?H5, ?H6; reflexivity.
Qed.

(** X10: forward then backward, backward then forward, and three times
    forward: the browser shows what it showed before, rebuilt. *)
Theorem tab_round_trip (m : uiModel) (fwd bwd : KeyMsg) :
  normalMode m ->
  tab m = tabLogin \/ tab m = tabBackground \/ tab m = tabExtensions ->
  key_String fwd = "tab" -> key_String bwd = "shift+tab" ->
  same_screen (rebuildTable 0 m) (after (after m (teaKeyMsg fwd)) (teaKeyMsg bwd))
  /\ same_screen (rebuildTable 0 m) (after (after m (teaKeyMsg bwd)) (teaKeyMsg fwd))
  /\ same_screen (rebuildTable 0 m)
       (after (after (after m (teaKeyMsg fwd)) (teaKeyMsg fwd)) (teaKeyMsg fwd)).
Proof.
  intros Hn Ht Hfwd Hbwd.
  pose proof (proj1 (tab_key_step m fwd Hn) Hfwd) as F1.
  pose proof (proj2 (tab_key_step m bwd Hn) Hbwd) as P1.
  pose proof (rebuildTable_normalMode 0 (nextTab (tab m)) m Hn) as Hn1.
  pose proof (rebuildTable_normalMode 0 (prevTab (tab m)) m Hn) as Hp1.
  rewrite F1, P1.
  destruct (rebuildTable_fields 0 (set_tab (nextTab (tab m)) m))
    as (A1 & A2 & A3 & A4 & A5 & A6 & A7 & _).
  destruct (rebuildTable_fields 0 (set_tab (prevTab (tab m)) m))
    as (B1 & B2 & B3 & B4 & B5 & B6 & B7 & _).
  revert Hn1 Hp1 A1 A2 A3 A4 A5 A6 A7 B1 B2 B3 B4 B5 B6 B7.
  generalize (rebuildTable 0 (set_tab (nextTab (tab m)) m)).
  generalize (rebuildTable 0 (set_tab (prevTab (tab m)) m)).
  intros Rp Rn Hn1 Hp1 A1 A2 A3 A4 A5 A6 A7 B1 B2 B3 B4 B5 B6 B7. fields.
  rewrite (proj2 (tab_key_step Rn bwd Hn1) Hbwd).
  rewrite (proj1 (tab_key_step Rp fwd Hp1) Hfwd).
  pose proof (proj1 (tab_key_step Rn fwd Hn1) Hfwd) as F2. rewrite F2.
  pose proof (rebuildTable_normalMode 0 (nextTab (tab Rn)) Rn Hn1) as Hn2.
  destruct (rebuildTable_fields 0 (set_tab (nextTab (tab Rn)) Rn))
    as (C1 & C2 & C3 & C4 & C5 & C6 & C7 & _).
  revert Hn2 C1 C2 C3 C4 C5 C6 C7.
  generalize (rebuildTable 0 (set_tab (nextTab (tab Rn)) Rn)).
  intros Rnn Hn2 C1 C2 C3 C4 C5 C6 C7. fields.
  rewrite (proj1 (tab_key_step Rnn fwd Hn2) Hfwd).
  assert (E1 : prevTab (tab Rn) = tab m).
  { rewrite A3. destruct Ht as [-> | [-> | ->]]; reflexivity. }
  assert (E2 : nextTab (tab Rp) = tab m).
  { rewrite B3. destruct Ht as [-> | [-> | ->]]; reflexivity. }
  assert (E3 : nextTab (tab Rnn) = tab m).
  { rewrite C3, A3. destruct Ht as [-> | [-> | ->]]; reflexivity. }
  rewrite E1, E2, E3.
  split; [|split]; apply rebuild_same_screen; congruence.
Qed.

(** X11: in a state whose index slice is in step, a cursor on a row always
    selects: the selector returns the item shown in that row, which is the
    cursor-th item the filter accepts. *)
Theorem in_step_cursor_selects (m : uiModel) :
  rows_in_step m ->
  0 <= table.Cursor (table m) < slen (table.Rows (table m)) ->
  let k := Z.to_nat (table.Cursor (table m)) in
  (tab m = tabLogin ->
     exists it, selectedLoginItem m = Some (it, true) /\
                List.filter (loginMatches m) (loginItems m) !! k = Some it /\
                table.Rows (table m) !! k = Some (loginRow it))
  /\ (tab m = tabBackground ->
     exists it, selectedBackgroundItem m = Some (it, true) /\
                List.filter (backgroundMatches m) (bgItems m) !! k = Some it /\
                table.Rows (table m) !! k = Some (backgroundRow it)).
Proof.
  intros (_ & Hrows & HL & HB & _) Hcur k.
  split; intros Ht.
  - specialize (HL Ht). unfold visibleRows in Hrows. rewrite Ht in Hrows. cbn in Hrows.
    destruct (matching_row_mapping (loginMatches m) loginRow (loginItems m))
      as (_ & _ & _ & Hlen & Hk).
    rewrite Hrows in Hcur. unfold slen in Hcur. rewrite Hlen in Hcur.
    destruct (lookup_lt_is_Some_2 (matching_from (loginMatches m) 0 (loginItems m)) k)
      as [i Hi]; [subst k; lia|].
    destruct (Hk k i Hi) as (it & Hit & Hrow & Hflt).
    exists it. split; [|split; [exact Hflt | rewrite Hrows; exact Hrow]].
    rewrite selectedLoginItem_eq, HL.
    assert (Hin : selection_in_range (table.Cursor (table m))
                    (matching_from (loginMatches m) 0 (loginItems m)) (loginItems m)).
    { exists i. split; [apply index_Some; split; [lia | exact Hi]|].
      apply index_lt in Hit. exact Hit. }
    apply (selected_in_range zeroLoginItem) in Hin as (i' & it' & Hi' & Hit' & ->).
    apply index_Some in Hi' as [_ Hi']. fold k in Hi'. congruence.
  - specialize (HB Ht). unfold visibleRows in Hrows. rewrite Ht in Hrows. cbn in Hrows.
    destruct (matching_row_mapping (backgroundMatches m) backgroundRow (bgItems m))
      as (_ & _ & _ & Hlen & Hk).
    rewrite Hrows in Hcur. unfold slen in Hcur. rewrite Hlen in Hcur.
    destruct (lookup_lt_is_Some_2 (matching_from (backgroundMatches m) 0 (bgItems m)) k)
      as [i Hi]; [subst k; lia|].
    destruct (Hk k i Hi) as (it & Hit & Hrow & Hflt).
    exists it. split; [|split; [exact Hflt | rewrite Hrows; exact Hrow]].
    rewrite selectedBackgroundItem_eq, HB.
    assert (Hin : selection_in_range (table.Cursor (table m))
                    (matching_from (backgroundMatches m) 0 (bgItems m)) (bgItems m)).
    { exists i. split; [apply index_Some; split; [lia | exact Hi]|].
      apply index_lt in Hit. exact Hit. }
    apply (selected_in_range zeroBackgroundItem) in Hin as (i' & it' & Hi' & Hit' & ->).
    apply index_Some in Hi' as [_ Hi']. fold k in Hi'. congruence.
Qed.

End Composed.
(** ** ASCII text: lower-casing, trimming and containment *)

Lemma str_rev_onto_app (s acc : string) : str_rev_onto s acc = str_rev s +:+ acc.
Proof.
  unfold str_rev. revert acc. induction s as [|c s IH]; intros acc; [reflexivity|].
  cbn [str_rev_onto]. rewrite (IH (String c acc)), (IH (String c "")).
  rewrite str_app_assoc. reflexivity.
Qed.

Lemma str_rev_cons (c : ascii) (s : string) : str_rev (String c s) = str_rev s +:+ String c "".
Proof. unfold str_rev at 1. cbn [str_rev_onto]. apply str_rev_onto_app. Qed.

Lemma str_rev_app (a b : string) : str_rev (a +:+ b) = str_rev b +:+ str_rev a.
Proof.
  induction a as [|c a IH].
  - change ("" +:+ b) with b. change (str_rev "") with "". rewrite str_app_nil_r. reflexivity.
  - rewrite str_app_cons, !str_rev_cons, IH, str_app_assoc. reflexivity.
Qed.

Lemma str_rev_involutive (s : string) : str_rev (str_rev s) = s.
Proof.
  induction s as [|c s IH]; [reflexivity|].
  rewrite str_rev_cons, str_rev_app, IH. reflexivity.
Qed.

Lemma str_forall_rev (p : ascii -> bool) (s : string) :
  str_forall p (str_rev s) = str_forall p s.
Proof.
  induction s as [|c s IH]; [reflexivity|].
  rewrite str_rev_cons, str_forall_app, IH. cbn. rewrite andb_true_r. apply andb_comm.
Qed.

Lemma str_map_app (f : ascii -> ascii) (a b : string) :
  str_map f (a +:+ b) = str_map f a +:+ str_map f b.
Proof.
  induction a as [|c a IH]; [reflexivity|].
  rewrite str_app_cons. cbn [str_map]. rewrite IH. reflexivity.
Qed.

Lemma str_forall_map (p : ascii -> bool) (f : ascii -> ascii) (s : string) :
  (forall c, p (f c) = p c) -> str_forall p (str_map f s) = str_forall p s.
Proof. intros H. induction s as [|c s IH]; [reflexivity|]. cbn. rewrite H, IH. reflexivity. Qed.

Ltac each_byte c :=
  destruct c as [[] [] [] [] [] [] [] []]; vm_compute; try reflexivity; try discriminate.

Lemma lowerByte_isASCII (c : ascii) :
  strings.isASCIIbyte (strings.lowerByte c) = strings.isASCIIbyte c.
Proof. each_byte c. Qed.

Lemma lowerByte_idem (c : ascii) :
  strings.lowerByte (strings.lowerByte c) = strings.lowerByte c.
Proof. each_byte c. Qed.

Lemma lowerByte_space (c : ascii) :
  strings.asciiSpace (strings.lowerByte c) = strings.asciiSpace c.
Proof. each_byte c. Qed.

Lemma asciiSpace_isASCII (c : ascii) :
  strings.asciiSpace c = true -> strings.isASCIIbyte c = true.
Proof. each_byte c. Qed.

Lemma asciiSpace_lower (c : ascii) :
  strings.asciiSpace c = true -> strings.lowerByte c = c.
Proof. each_byte c. Qed.

Lemma blank_ascii_only (s : string) : blank s -> ascii_only s.
Proof.
  unfold blank, ascii_only. induction s as [|c s IH]; [reflexivity|]. cbn.
  intros H. apply andb_prop in H as [H1 H2]. rewrite (asciiSpace_isASCII c H1), (IH H2).
  reflexivity.
Qed.

Lemma ascii_only_app (a b : string) : ascii_only (a +:+ b) <-> ascii_only a /\ ascii_only b.
Proof. unfold ascii_only. rewrite str_forall_app. apply andb_true_iff. Qed.

Lemma blank_app (a b : string) : blank (a +:+ b) <-> blank a /\ blank b.
Proof. unfold blank. rewrite str_forall_app. apply andb_true_iff. Qed.

Section TextWithLib.
Context {lib : GoLib}.

Lemma ToLower_ascii (s : string) : ascii_only s -> ToLower s = str_map strings.lowerByte s.
Proof. unfold ascii_only, ToLower. intros ->. reflexivity. Qed.

Lemma ToLower_ascii_only (s : string) : ascii_only s -> ascii_only (ToLower s).
Proof.
  intros H. rewrite (ToLower_ascii s H). unfold ascii_only.
  rewrite str_forall_map; [exact H | apply lowerByte_isASCII].
Qed.

Lemma ToLower_app (a b : string) :
  ascii_only a -> ascii_only b -> ToLower (a +:+ b) = ToLower a +:+ ToLower b.
Proof.
  intros Ha Hb. rewrite !ToLower_ascii; try assumption; [|apply ascii_only_app; auto].
  apply str_map_app.
Qed.

(** Lower-casing ASCII text twice is lower-casing it once. *)
Lemma ToLower_idem (s : string) : ascii_only s -> ToLower (ToLower s) = ToLower s.
Proof.
  intros H. rewrite (ToLower_ascii (ToLower s)) by (apply ToLower_ascii_only; exact H).
  rewrite (ToLower_ascii s H). clear H.
  induction s as [|c s IH]; [reflexivity|]. cbn. rewrite lowerByte_idem, IH. reflexivity.
Qed.

Lemma ToLower_blank (s : string) : blank s -> ToLower s = s.
Proof.
  intros H. rewrite ToLower_ascii by (apply blank_ascii_only; exact H).
  unfold blank in H. induction s as [|c s IH]; [reflexivity|]. cbn in *.
  apply andb_prop in H as [H1 H2]. rewrite (asciiSpace_lower c H1), (IH H2). reflexivity.
Qed.

Lemma ToLower_keeps_blank (s : string) : ascii_only s -> blank (ToLower s) <-> blank s.
Proof.
  intros H. rewrite (ToLower_ascii s H). unfold blank.
  rewrite str_forall_map; [reflexivity | apply lowerByte_space].
Qed.

End TextWithLib.

(** *** Containment *)

Lemma Contains_prefix (s p : string) :
  strings.HasPrefix s p = true -> strings.Contains s p = true.
Proof. intros H. destruct s; cbn [strings.Contains]; rewrite H; reflexivity. Qed.

Lemma Contains_cons (c : ascii) (s p : string) :
  strings.Contains s p = true -> strings.Contains (String c s) p = true.
Proof. intros H. cbn [strings.Contains]. rewrite H. apply orb_true_r. Qed.

Lemma Contains_iff (s p : string) :
  strings.Contains s p = true <-> exists u v, s = u +:+ p +:+ v.
Proof.
  split.
  - induction s as [|c s IH]; cbn [strings.Contains]; intros H;
      apply orb_prop in H as [H | H].
    + apply HasPrefix_true in H as [t Ht]. exists "", t. exact Ht.
    + discriminate.
    + apply HasPrefix_true in H as [t Ht]. exists "", t. exact Ht.
    + destruct (IH H) as (u & v & ->). exists (String c u), v. reflexivity.
  - intros (u & v & ->). induction u as [|c u IH].
    + change ("" +:+ p +:+ v) with (p +:+ v). apply Contains_prefix. apply HasPrefix_app.
    + rewrite str_app_cons. apply Contains_cons. exact IH.
Qed.

Lemma Contains_nil (s : string) : strings.Contains s "" = true.
Proof. apply Contains_prefix. reflexivity. Qed.

Lemma Contains_trans (x s p : string) :
  strings.Contains x s = true -> strings.Contains s p = true -> strings.Contains x p = true.
Proof.
  rewrite !Contains_iff. intros (u & v & ->) (u' & v' & ->).
  exists (u +:+ u'), (v' +:+ v). rewrite !str_app_assoc. reflexivity.
Qed.

Lemma Contains_app (a s b p : string) :
  strings.Contains s p = true -> strings.Contains (a +:+ s +:+ b) p = true.
Proof.
  intros H. apply (Contains_trans _ s); [|exact H]. apply Contains_iff. eauto.
Qed.

Lemma Contains_app_l (a t p : string) :
  strings.Contains t p = true -> strings.Contains (a +:+ t) p = true.
Proof.
  rewrite !Contains_iff. intros (u & v & ->). exists (a +:+ u), v.
  rewrite str_app_assoc. reflexivity.
Qed.

Lemma Contains_rev (s p : string) :
  strings.Contains (str_rev s) (str_rev p) = strings.Contains s p.
Proof.
  assert (H : forall s p, strings.Contains s p = true ->
                          strings.Contains (str_rev s) (str_rev p) = true).
  { intros s0 p0. rewrite !Contains_iff. intros (u & v & ->).
    exists (str_rev v), (str_rev u). rewrite !str_rev_app, str_app_assoc. reflexivity. }
  destruct (strings.Contains s p) eqn:E.
  - apply H. exact E.
  - destruct (strings.Contains (str_rev s) (str_rev p)) eqn:E'; [|reflexivity].
    apply H in E'. rewrite !str_rev_involutive in E'. congruence.
Qed.

(** Leading blanks hold no match of a text that starts with a non-blank. *)
Lemma Contains_strip_left (a t p : string) :
  blank a -> starts_solid p = true ->
  strings.Contains (a +:+ t) p = true -> strings.Contains t p = true.
Proof.
  unfold blank. intros Ha Hp. destruct p as [|c p]; [discriminate|]. cbn in Hp.
  induction a as [|x a IH]; intros H; [exact H|].
  cbn in Ha. apply andb_prop in Ha as [Hx Ha].
  rewrite str_app_cons in H. cbn [strings.Contains strings.HasPrefix] in H.
  apply orb_prop in H as [H | H]; [|exact (IH Ha H)].
  apply andb_prop in H as [H _]. apply Ascii.eqb_eq in H. subst x.
  rewrite Hx in Hp. discriminate.
Qed.

Lemma Contains_strip_right (t b p : string) :
  blank b -> starts_solid (str_rev p) = true ->
  strings.Contains (t +:+ b) p = true -> strings.Contains t p = true.
Proof.
  intros Hb Hp H. rewrite <- Contains_rev in H |- *. rewrite str_rev_app in H.
  apply (Contains_strip_left (str_rev b)); [|exact Hp|exact H].
  unfold blank. rewrite str_forall_rev. exact Hb.
Qed.

(** *** TrimSpace on ASCII text *)

Section TrimWithLib.
Context {lib : GoLib}.

Lemma trimSpaceBack_split (r : string) :
  ascii_only r ->
  exists b r', r = b +:+ r' /\ blank b /\ trimSpaceBack r = str_rev r' /\
               (r' = "" \/ starts_solid r' = true).
Proof.
  unfold ascii_only, blank. induction r as [|c r IH]; intros H.
  - exists "", "". repeat split; auto.
  - cbn in H. apply andb_prop in H as [Hc Hr]. cbn [trimSpaceBack]. rewrite Hc. cbn [negb].
    destruct (strings.asciiSpace c) eqn:Hs.
    + destruct (IH Hr) as (b & r' & -> & Hb & Ht & Hr').
      exists (String c b), r'. rewrite str_app_cons. cbn. rewrite Hs, Hb. auto.
    + exists "", (String c r). repeat split; auto. right. cbn. rewrite Hs. reflexivity.
Qed.

(** TrimSpace takes blanks, and only blanks, off both ends. *)
Lemma TrimSpace_split (s : string) :
  ascii_only s ->
  exists a b, s = a +:+ TrimSpace s +:+ b /\ blank a /\ blank b /\
              (TrimSpace s = "" \/
               (starts_solid (TrimSpace s) = true /\
                starts_solid (str_rev (TrimSpace s)) = true)).
Proof.
  unfold ascii_only, blank. induction s as [|c s IH]; intros H.
  - exists "", "". repeat split; auto.
  - pose proof H as Hall. cbn in H. apply andb_prop in H as [Hc Hs].
    cbn [TrimSpace]. rewrite Hc. cbn [negb].
    destruct (strings.asciiSpace c) eqn:Hsp.
    + destruct (IH Hs) as (a & b & Heq & Ha & Hb & Hcore).
      exists (String c a), b. rewrite str_app_cons, <- Heq. cbn. rewrite Hsp, Ha. auto.
    + destruct (trimSpaceBack_split (str_rev (String c s))) as (b & r' & Heq & Hb & Ht & Hr').
      { unfold ascii_only. rewrite str_forall_rev. exact Hall. }
      rewrite Ht.
      assert (Hs' : String c s = str_rev r' +:+ str_rev b).
      { rewrite <- str_rev_app, <- Heq, str_rev_involutive. reflexivity. }
      exists "", (str_rev b). change ("" +:+ ?x) with x.
      split; [exact Hs'|]. split; [reflexivity|].
      split; [rewrite str_forall_rev; exact Hb|].
      destruct Hr' as [-> | Hr'].
      * left. reflexivity.
      * right. split; [|rewrite str_rev_involutive; exact Hr'].
        destruct (str_rev r') as [|x y] eqn:E.
        -- destruct (str_rev b) as [|x' y'] eqn:E'; [discriminate|].
           change ("" +:+ String x' y') with (String x' y') in Hs'.
           injection Hs' as <- _.
           assert (Hx : str_forall strings.asciiSpace (str_rev b) = true)
             by (rewrite str_forall_rev; exact Hb).
           rewrite E' in Hx. cbn in Hx. rewrite Hsp in Hx. discriminate.
        -- rewrite str_app_cons in Hs'. injection Hs' as <- _. cbn. rewrite Hsp. reflexivity.
Qed.

Lemma TrimSpace_ascii_only (s : string) : ascii_only s -> ascii_only (TrimSpace s).
Proof.
  intros H. destruct (TrimSpace_split s H) as (a & b & Heq & _).
  rewrite Heq in H. apply ascii_only_app in H as [_ H]. apply ascii_only_app in H as [H _].
  exact H.
Qed.

Lemma TrimSpace_blank (s : string) : blank s -> TrimSpace s = "".
Proof.
  unfold blank. induction s as [|c s IH]; [reflexivity|]. cbn. intros H.
  apply andb_prop in H as [Hc Hs]. rewrite (asciiSpace_isASCII c Hc), Hc. cbn. exact (IH Hs).
Qed.

(** A match that starts and ends with a non-blank survives the trim. *)
Lemma Contains_TrimSpace (s p : string) :
  ascii_only s -> solid p = true ->
  strings.Contains s p = true -> strings.Contains (TrimSpace s) p = true.
Proof.
  intros Hs Hp H. unfold solid in Hp. apply andb_prop in Hp as [Hp1 Hp2].
  destruct (TrimSpace_split s Hs) as (a & b & Heq & Ha & Hb & _).
  rewrite Heq in H. apply Contains_strip_left in H; [|exact Ha|exact Hp1].
  apply Contains_strip_right in H; [exact H|exact Hb|exact Hp2].
Qed.

End TrimWithLib.
(** ** parseBundleVersion loses nothing *)

Lemma str_take_all (n : nat) (s : string) :
  (String.length s <= n)%nat -> str_take n s = s.
Proof.
  revert s. induction n as [|n IH]; intros [|c s] H; cbn in *; try reflexivity; try lia.
  rewrite IH; [reflexivity | lia].
Qed.

(** A split [s = s[:n] ++ x] with [x] not empty has [n] inside [s]. *)
Lemma str_take_split_length (n : nat) (s x : string) :
  s = str_take n s +:+ x -> x <> "" -> String.length (str_take n s) = n.
Proof.
  intros Hs Hx. destruct (Nat.le_gt_cases n (String.length s)) as [H | H].
  - apply str_take_length. exact H.
  - exfalso. rewrite str_take_all in Hs by lia.
    apply (f_equal String.length) in Hs. rewrite str_length_app in Hs.
    destruct x; [congruence | cbn in Hs; lia].
Qed.

Lemma parseBundleVersion_parts (value : string) :
  parseBundleVersion value = (value, "") \/
  value = fst (parseBundleVersion value) +:+ " (" +:+ snd (parseBundleVersion value) +:+ ")".
Proof.
  unfold parseBundleVersion.
  destruct (LastIndex_split value " (") as [-> | [H0 [rest Hsplit]]]; [left; reflexivity|].
  destruct (strings.HasSuffix value ")") eqn:Hsuf; [|left; rewrite orb_true_r; reflexivity].
  right.
  replace (strings.LastIndex value " (" =? -1) with false
    by (symmetry; apply Z.eqb_neq; lia).
  cbn [orb negb fst snd]. unfold slice_to, slice_from in *.
  set (n := Z.to_nat (strings.LastIndex value " (")) in *.
  replace (Z.to_nat (strings.LastIndex value " (" + 1)) with (S n) by lia.
  assert (Hlen : String.length (str_take n value) = n).
  { apply (str_take_split_length n value (" (" +:+ rest)); [exact Hsplit | discriminate]. }
  apply HasSuffix_true in Hsuf as [t Ht].
  set (pre := str_take n value) in *. clearbody pre. clear H0.
  assert (Hrest : exists v, rest = v +:+ ")").
  { assert (Hr : (pre +:+ " (") +:+ rest = t +:+ ")").
    { rewrite str_app_assoc, <- Hsplit. exact Ht. }
    apply str_app_last in Hr as [-> | [v ->]]; [|eauto].
    exfalso. rewrite str_app_nil_r in Hsplit. rewrite Hsplit in Ht.
    change (pre +:+ " (") with (pre +:+ (" " +:+ "(")) in Ht.
    rewrite <- str_app_assoc in Ht.
    apply str_app_last in Ht as [Ht | [v Ht]]; [discriminate|].
    destruct v as [|? [|? ?]]; discriminate. }
  destruct Hrest as [v ->].
  assert (Hdrop : str_drop (S n) value = "(" +:+ v +:+ ")").
  { rewrite Hsplit.
    change (pre +:+ " (" +:+ v +:+ ")") with (pre +:+ (" " +:+ ("(" +:+ v +:+ ")"))).
    rewrite <- str_app_assoc.
    replace (S n) with (String.length (pre +:+ " "))
      by (rewrite str_length_app, Hlen; cbn; lia).
    apply str_drop_app. }
  rewrite Hdrop.
  change (strings.TrimPrefix ("(" +:+ v +:+ ")") "(") with (v +:+ ")").
  rewrite TrimSuffix_app. exact Hsplit.
Qed.

(** X17: whatever the value, nothing of it is lost: it comes back whole
    with an empty version, or it is the bundle ID, [" ("], the version and
    [")"], so that putting the two results together again gives the value. *)
Theorem parseBundleVersion_rebuilds (value : string) :
  forall bundleID version, parseBundleVersion value = (bundleID, version) ->
    (bundleID = value /\ version = "")
    \/ value = bundleID +:+ " (" +:+ version +:+ ")".
Proof.
  intros bundleID version H.
  destruct (parseBundleVersion_parts value) as [Hw | Hr].
  - left. rewrite Hw in H. injection H as <- <-. split; reflexivity.
  - right. rewrite H in Hr. exact Hr.
Qed.
(** ** Scopes *)

Section Scopes.
Context {lib : GoLib} {env : Env}.

Lemma launchDomain_invalid (scope : string) :
  ToLower scope <> "user" -> ToLower scope <> "system" ->
  launchDomain scope = Err invalidScope.
Proof.
  intros Hu Hs. unfold launchDomain.
  apply String.eqb_neq in Hu, Hs. rewrite Hu, Hs. reflexivity.
Qed.

(** X18: a scope that is neither user nor system, in any case, is refused
    before anything is done: deleting returns an error and toggling
    reports one, no command is run and no file is removed. *)
Theorem invalid_scope_changes_nothing (label plistPath scope : string) (w : World) :
  ToLower scope <> "user" -> ToLower scope <> "system" ->
  (exists e, deleteBackgroundItem label plistPath scope w = (Some e, w))
  /\ (forall absPath, filepath_Abs plistPath = Ok absPath ->
        deleteBackgroundItem label plistPath scope w = (Some invalidScope, w))
  /\ (forall enable,
        runCmd (toggleBackgroundCmd label scope enable) w
        = (Some (actionDoneMsg "" (Some invalidScope)), w)).
Proof.
  intros Hu Hs. pose proof (launchDomain_invalid scope Hu Hs) as Hd.
  split; [|split].
  - unfold deleteBackgroundItem. rewrite Hd.
    destruct (filepath_Abs plistPath) as [a|e]; eexists; reflexivity.
  - intros a Ha. unfold deleteBackgroundItem. rewrite Ha, Hd. reflexivity.
  - intros en. cbn [runCmd]. rewrite Hd. reflexivity.
Qed.

(** X19: the scope argument is read in lower case only: for ASCII scopes
    upper and lower case name the same domain, the same listing and the
    same deletion. *)
Theorem scope_case_insensitive (scope : string) :
  ascii_only scope ->
  launchDomain (ToLower scope) = launchDomain scope
  /\ (forall w, listBackgroundItems (ToLower scope) w = listBackgroundItems scope w)
  /\ (forall label plistPath w,
        deleteBackgroundItem label plistPath (ToLower scope) w
        = deleteBackgroundItem label plistPath scope w).
Proof.
  intros H. pose proof (ToLower_idem scope H) as Hi.
  assert (Hd : launchDomain (ToLower scope) = launchDomain scope).
  { unfold launchDomain. rewrite Hi. reflexivity. }
  split; [exact Hd|]. split.
  - intros w. unfold listBackgroundItems. rewrite Hi. reflexivity.
  - intros label p w. unfold deleteBackgroundItem. rewrite Hd. reflexivity.
Qed.

End Scopes.
(** ** What the operations leave in the world *)

Lemma extends_refl (P : Event -> Prop) (w : World) : extends P w w.
Proof. split; [reflexivity|]. exists []. rewrite app_nil_r. split; [reflexivity | constructor]. Qed.

Lemma extends_trans (P : Event -> Prop) (w1 w2 w3 : World) :
  extends P w1 w2 -> extends P w2 w3 -> extends P w1 w3.
Proof.
  intros (Hf1 & e1 & Ht1 & HP1) (Hf2 & e2 & Ht2 & HP2). split; [congruence|].
  exists (e1 ++ e2). rewrite Ht2, Ht1, <- app_assoc. split; [reflexivity|].
  apply Forall_app. split; assumption.
Qed.

Lemma extends_mono (P Q : Event -> Prop) (w w' : World) :
  (forall e, P e -> Q e) -> extends P w w' -> extends Q w w'.
Proof.
  intros H (Hf & evs & Ht & HP). split; [exact Hf|]. exists evs. split; [exact Ht|].
  eapply Forall_impl; eassumption.
Qed.

Lemma extends_one (P : Event -> Prop) (w : World) (e : Event) :
  P e -> extends P w (mkWorld (files w) (trace w ++ [e])).
Proof. intros H. split; [reflexivity|]. exists [e]. split; [reflexivity|]. repeat constructor. exact H. Qed.

Lemma extends_files (P : Event -> Prop) (w w' : World) : extends P w w' -> files w' = files w.
Proof. intros [H _]. exact H. Qed.

Lemma foldM_extends {A B : Type} (P : Event -> Prop) (f : B -> A -> M B) (l : list A) :
  (forall b a w, extends P w (snd (f b a w))) ->
  forall b w, extends P w (snd (foldM f l b w)).
Proof.
  intros Hf. induction l as [|a l IH]; intros b w; cbn [foldM].
  - apply extends_refl.
  - unfold mbind, M_bind. pose proof (Hf b a w) as H1.
    destruct (f b a w) as [b1 w1]. cbn [snd] in H1.
    eapply extends_trans; [exact H1 | apply IH].
Qed.

Section WorldFacts.
Context {lib : GoLib} {env : Env}.

Ltac monadic := unfold mbind, M_bind, mret, M_ret, run, readDir, record.

Lemma getLoadedUserLabels_world (w : World) :
  snd (getLoadedUserLabels w) = mkWorld (files w) (trace w ++ [EvRun (cmd_launchctl ["list"])]).
Proof.
  unfold getLoadedUserLabels. monadic. destruct (run_err _); [reflexivity|].
  destruct (bufio_ScanLines _). reflexivity.
Qed.

Lemma getDisabledLabels_world (domain : string) (w : World) :
  snd (getDisabledLabels domain w)
  = mkWorld (files w) (trace w ++ [EvRun (cmd_launchctl ["print-disabled"; domain])]).
Proof.
  unfold getDisabledLabels. monadic. destruct (run_err _); [reflexivity|].
  destruct (bufio_ScanLines _). reflexivity.
Qed.

Lemma readPlistLabel_world (path : string) (w : World) :
  snd (readPlistLabel path w)
  = mkWorld (files w) (trace w ++ [EvRun (cmd_PlistBuddy ["-c"; "Print :Label"; path])]).
Proof. unfold readPlistLabel. monadic. destruct (run_err _); reflexivity. Qed.

Lemma query_list : is_query (EvRun (cmd_launchctl ["list"])).
Proof. left. reflexivity. Qed.

Lemma query_disabled (d : string) : is_query (EvRun (cmd_launchctl ["print-disabled"; d])).
Proof. right. left. eauto. Qed.

Lemma query_label (p : string) : is_query (EvRun (cmd_PlistBuddy ["-c"; "Print :Label"; p])).
Proof. right. right. left. eauto. Qed.

Lemma fetchLoadedUser_extends (scope : string) (w : World) :
  extends is_query w (snd (fetchLoadedUser scope w)).
Proof.
  unfold fetchLoadedUser. destruct (_ || _); [|apply extends_refl].
  unfold mbind, M_bind, mret, M_ret. pose proof (getLoadedUserLabels_world w) as H.
  destruct (getLoadedUserLabels w) as [[labels e] w1]. cbn [snd] in *. subst w1.
  apply extends_one, query_list.
Qed.

Lemma fetchDisabledByScope_extends (scope : string) (w : World) :
  extends is_query w (snd (fetchDisabledByScope scope w)).
Proof.
  unfold fetchDisabledByScope. unfold mbind at 1. unfold M_bind at 1.
  match goal with |- context [let '(_, _) := ?first w in _] =>
    assert (H1 : extends is_query w (snd (first w))); [|destruct (first w) as [[dbs ws] w1]]
  end.
  { destruct (_ || _); [|apply extends_refl].
    destruct (launchDomain "user") as [domain|e]; [|apply extends_refl].
    unfold mbind, M_bind, mret, M_ret. pose proof (getDisabledLabels_world domain w) as H.
    destruct (getDisabledLabels domain w) as [[m e] w1]. cbn [snd] in *. subst w1.
    destruct e; apply extends_one, query_disabled. }
  cbn [snd] in H1. eapply extends_trans; [exact H1|].
  destruct (_ || _); [|apply extends_refl].
  unfold mbind, M_bind, mret, M_ret. pose proof (getDisabledLabels_world "system" w1) as H.
  destruct (getDisabledLabels "system" w1) as [[m e] w2]. cbn [snd] in *. subst w2.
  destruct e; apply extends_one, query_disabled.
Qed.

Lemma scanEntry_extends (lu : gmap string bool) (dbs : gmap string (gmap string bool))
    (d : plistDir) (items : list BackgroundItem) (e : DirEntry) (w : World) :
  extends is_query w (snd (scanEntry lu dbs d items e w)).
Proof.
  unfold scanEntry. destruct (_ || _); [apply extends_refl|].
  unfold mbind, M_bind, mret, M_ret.
  pose proof (readPlistLabel_world (filepath_Join (d_dir d) (de_Name e)) w) as H.
  destruct (readPlistLabel _ w) as [[label|err] w1]; cbn [snd] in *; subst w1;
    [destruct (String.eqb label "")|]; apply extends_one, query_label.
Qed.

Lemma scanDir_extends (lu : gmap string bool) (dbs : gmap string (gmap string bool))
    (st : list BackgroundItem * list string) (d : plistDir) (w : World) :
  extends is_query w (snd (scanDir lu dbs st d w)).
Proof.
  destruct st as [items ws]. unfold scanDir, readDir. unfold mbind, M_bind, mret, M_ret.
  destruct (os_ReadDir w (d_dir d)) as [entries|err].
  - pose proof (foldM_extends is_query (scanEntry lu dbs d) entries
                  (scanEntry_extends lu dbs d) items w) as H.
    destruct (foldM _ entries items w) as [items' w1]. exact H.
  - destruct (IsNotExist err); apply extends_refl.
Qed.

Lemma listBackgroundItems_extends (scope : string) (w : World) :
  extends is_query w (snd (listBackgroundItems scope w)).
Proof.
  unfold listBackgroundItems.
  match goal with |- context [if ?b then _ else _] => destruct b end; [apply extends_refl|].
  destruct (backgroundDirs (ToLower scope)) as [dirs|e]; [|apply extends_refl].
  unfold mbind, M_bind, mret, M_ret.
  pose proof (fetchLoadedUser_extends (ToLower scope) w) as H1.
  destruct (fetchLoadedUser (ToLower scope) w) as [lu w1]. cbn [snd] in H1.
  pose proof (fetchDisabledByScope_extends (ToLower scope) w1) as H2.
  destruct (fetchDisabledByScope (ToLower scope) w1) as [[dbs ws1] w2]. cbn [snd] in H2.
  pose proof (foldM_extends is_query (scanDir lu dbs) dirs
                (fun st d w0 => scanDir_extends lu dbs st d w0) ([], ws1) w2) as H3.
  destruct (foldM (scanDir lu dbs) dirs ([], ws1) w2) as [[raw ws] w3]. cbn [snd] in *.
  eapply extends_trans; [exact H1|]. eapply extends_trans; [exact H2 | exact H3].
Qed.

Lemma listLoginItems_extends (w : World) : extends is_query w (snd (listLoginItems w)).
Proof.
  unfold listLoginItems, runOSA. monadic. cbn.
  assert (Hq : is_query (EvRun (cmd_osascript loginListScript ∅))).
  { right. right. right. left. eauto. }
  destruct (run_err _); [apply extends_one, Hq|].
  destruct (json_Unmarshal_LoginItems _); apply extends_one, Hq.
Qed.

Lemma listSystemExtensions_extends (w : World) :
  extends is_query w (snd (listSystemExtensions w)).
Proof.
  unfold listSystemExtensions. monadic.
  assert (Hq : is_query (EvRun (cmd_systemextensionsctl ["list"]))).
  { right. right. right. right. reflexivity. }
  destruct (run_err _); [apply extends_one, Hq|].
  destruct (bufio_ScanLines _) as [lines serr].
  destruct (fold_left extensionLine lines ([], "")) as [items cat].
  destruct serr; apply extends_one, Hq.
Qed.

Lemma refresh_extends (c : Cmd) (w : World) :
  c = refreshLoginCmd \/ c = refreshBackgroundCmd \/ c = refreshExtensionsCmd ->
  extends is_query w (snd (runCmd c w)).
Proof.
  intros [-> | [-> | ->]]; cbn [runCmd]; unfold mbind, M_bind, mret, M_ret.
  - pose proof (listLoginItems_extends w) as H.
    destruct (listLoginItems w) as [r w1]. exact H.
  - pose proof (listBackgroundItems_extends "all" w) as H.
    destruct (listBackgroundItems "all" w) as [r w1]. exact H.
  - pose proof (listSystemExtensions_extends w) as H.
    destruct (listSystemExtensions w) as [r w1]. exact H.
Qed.

(** X20: listing only reads: the three aggregators, and the three refresh
    commands of the browser that call them, leave every file in place and
    run nothing but launchctl list, launchctl print-disabled, PlistBuddy
    Print :Label, the osascript that lists login items and
    systemextensionsctl list. *)
Theorem listings_only_read (w : World) :
  extends is_query w (snd (listLoginItems w))
  /\ (forall scope, extends is_query w (snd (listBackgroundItems scope w)))
  /\ extends is_query w (snd (listSystemExtensions w))
  /\ (forall c, c = refreshLoginCmd \/ c = refreshBackgroundCmd \/ c = refreshExtensionsCmd ->
        extends is_query w (snd (runCmd c w))).
Proof.
  split; [apply listLoginItems_extends|].
  split; [intros scope; apply listBackgroundItems_extends|].
  split; [apply listSystemExtensions_extends|].
  intros c Hc. apply refresh_extends. exact Hc.
Qed.

Lemma removeLoginItem_files (name path : string) (w : World) :
  files (snd (removeLoginItem name path w)) = files w.
Proof.
  unfold removeLoginItem.
  match goal with |- context [match ?x with Ok _ => _ | Err _ => _ end w] => destruct x end;
    [|reflexivity].
  unfold runOSA. monadic. cbn. destruct (run_err _); reflexivity.
Qed.

Lemma deleteBackgroundItem_files (label plistPath scope : string) (w : World) :
  files (snd (deleteBackgroundItem label plistPath scope w)) = files w
  \/ exists absPath, filepath_Abs plistPath = Ok absPath /\
       files (snd (deleteBackgroundItem label plistPath scope w)) = files w ∖ {[absPath]}.
Proof.
  unfold deleteBackgroundItem.
  destruct (filepath_Abs plistPath) as [absPath|e]; [|left; reflexivity].
  destruct (launchDomain scope) as [domain|e]; [|left; reflexivity].
  unfold mbind, M_bind.
  pose proof (runLaunchctl_world ["bootout"; domain +:+ "/" +:+ label] w) as Hw1.
  destruct (runLaunchctl _ w) as [berr w1]. cbn [snd] in Hw1.
  match goal with
  | |- context [match ?f with Some _ => _ | None => _ end w1] => destruct f as [fatal|]
  end.
  - left. unfold mret, M_ret. cbn [snd]. rewrite Hw1. reflexivity.
  - unfold os_Remove, record, mret, M_ret. rewrite Hw1. cbn [files trace].
    destruct (decide (absPath ∈ files w)).
    + destruct (remove_fault _ absPath); cbn; [left; reflexivity|].
      right. exists absPath. split; reflexivity.
    + cbn. left. reflexivity.
Qed.

(** X21: nothing the browser runs creates a file, and the only file any of its
    commands removes is the plist of the background item being deleted. *)
Theorem commands_remove_only_the_plist (c : Cmd) (w : World) :
  files (snd (runCmd c w)) ⊆ files w
  /\ forall p, p ∈ files w -> p ∉ files (snd (runCmd c w)) ->
       exists item, c = deleteBackgroundCmd item /\ filepath_Abs (bg_Path item) = Ok p.
Proof.
  assert (Hsame : files (snd (runCmd c w)) = files w ->
            files (snd (runCmd c w)) ⊆ files w
            /\ forall p, p ∈ files w -> p ∉ files (snd (runCmd c w)) ->
                 exists item, c = deleteBackgroundCmd item /\ filepath_Abs (bg_Path item) = Ok p).
  { intros ->. split; [reflexivity|]. intros p Hin Hout. destruct (Hout Hin). }
  destruct c as [| | | |path|label scope enable|item].
  - apply Hsame. reflexivity.
  - apply Hsame. apply (extends_files is_query). apply refresh_extends. auto.
  - apply Hsame. apply (extends_files is_query). apply refresh_extends. auto.
  - apply Hsame. apply (extends_files is_query). apply refresh_extends. auto.
  - apply Hsame. cbn [runCmd]. unfold mbind, M_bind, mret, M_ret.
    pose proof (removeLoginItem_files "" path w) as H.
    destruct (removeLoginItem "" path w) as [e w1]. exact H.
  - apply Hsame. cbn [runCmd]. destruct (launchDomain scope) as [domain|e]; [|reflexivity].
    unfold mbind, M_bind, mret, M_ret.
    pose proof (runLaunchctl_world [if enable then "enable" else "disable";
                                    domain +:+ "/" +:+ label] w) as H.
    destruct (runLaunchctl _ w) as [e w1]. cbn [snd] in H. subst w1.
    destruct e; reflexivity.
  - cbn [runCmd]. unfold mbind, M_bind, mret, M_ret.
    pose proof (deleteBackgroundItem_files (bg_Label item) (bg_Path item) (bg_Scope item) w) as H.
    destruct (deleteBackgroundItem _ _ _ w) as [e w1]. cbn [snd] in *.
    destruct H as [H | (absPath & Habs & H)]; rewrite H.
    + split; [reflexivity|]. intros p Hin Hout. destruct (Hout Hin).
    + split; [intros x Hx; apply elem_of_difference in Hx as [Hx _]; exact Hx|].
      intros p Hin Hout. exists item. split; [reflexivity|].
      rewrite Habs. f_equal.
      destruct (decide (p = absPath)) as [->|Hne]; [reflexivity|].
      exfalso. apply Hout. apply elem_of_difference. split; [exact Hin|].
      intros Hs. apply elem_of_singleton in Hs. congruence.
Qed.

(** X22: listBackgroundItems fails in two cases only, both before anything is
    run: a scope other than user, system or all, and a home directory that
    cannot be found when the user's agents are wanted.  Failures of
    launchctl, of PlistBuddy and of reading a directory never fail the
    listing. *)
Theorem listBackgroundItems_failures (scope : string) (w : World) :
  let s := ToLower scope in
  (forall e w', listBackgroundItems scope w = (Err e, w') ->
     w' = w /\
     ((s <> "user" /\ s <> "system" /\ s <> "all" /\
       e = errors_New "scope must be user, system, or all")
      \/ ((s = "user" \/ s = "all") /\ os_UserHomeDir = Err e)))
  /\ ((s = "system" \/ ((s = "user" \/ s = "all") /\ exists home, os_UserHomeDir = Ok home)) ->
      exists items ws w', listBackgroundItems scope w = (Ok (items, ws), w')).
Proof.
  intros s. subst s. unfold listBackgroundItems, backgroundDirs.
  destruct (String.eqb (ToLower scope) "user") eqn:Eu;
    destruct (String.eqb (ToLower scope) "system") eqn:Es;
    destruct (String.eqb (ToLower scope) "all") eqn:Ea;
    cbn [negb andb orb];
    repeat match goal with
    | E : String.eqb _ _ = true |- _ => apply String.eqb_eq in E
    | E : String.eqb _ _ = false |- _ => apply String.eqb_neq in E
    end;
    try congruence.
  all: split.
  all: try (intros [H | [[H | H] _]]; congruence).
  all: try (destruct os_UserHomeDir as [home|e0] eqn:Hhome).
  all: unfold mbind, M_bind, mret, M_ret.
  all: repeat match goal with
       | |- context [fetchLoadedUser ?s ?w0] =>
           destruct (fetchLoadedUser s w0) as [? ?]
       | |- context [fetchDisabledByScope ?s ?w0] =>
           destruct (fetchDisabledByScope s w0) as [[? ?] ?]
       | |- context [foldM ?f ?l ?b ?w0] =>
           destruct (foldM f l b w0) as [[? ?] ?]
       end.
  all: try (intros e w' [= <- <-]; split; [reflexivity|]; auto; fail).
  all: try (intros e w' [=]; fail).
  all: try (intros _; eauto; fail).
  all: try (intros [H | [_ [home' H]]]; congruence).
Qed.

End WorldFacts.
(** ** Listed background items are well formed *)

Lemma fold_left_invariant {A B : Type} (Q : B -> Prop) (f : B -> A -> B) (l : list A) (b : B) :
  Q b -> (forall b a, Q b -> Q (f b a)) -> Q (fold_left f l b).
Proof.
  intros Hb Hf. revert b Hb. induction l as [|a l IH]; intros b Hb; cbn; [exact Hb|].
  apply IH, Hf, Hb.
Qed.

Section Items.
Context {lib : GoLib} {env : Env}.

(** launchctl list only ever says that a label is loaded. *)
Lemma getLoadedUserLabels_true (w : World) (label : string) (b : bool) :
  fst (fst (getLoadedUserLabels w)) !! label = Some b -> b = true.
Proof.
  unfold getLoadedUserLabels, run. unfold mbind, M_bind, mret, M_ret.
  destruct (run_err _); [cbn; rewrite lookup_empty; discriminate|].
  destruct (bufio_ScanLines _) as [lines serr]. cbn [fst]. revert label b.
  apply (fold_left_invariant
           (fun m : gmap string bool => forall label b, m !! label = Some b -> b = true)).
  - intros label b. rewrite lookup_empty. discriminate.
  - intros m raw Hm label b.
    destruct (_ || _); [apply Hm|].
    destruct (Fields _) as [|? [|? [|p2 ?]]]; try apply Hm.
    destruct (decide (p2 = label)) as [->|Hne].
    + rewrite lookup_insert_eq. intros [= <-]. reflexivity.
    + rewrite lookup_insert_ne by exact Hne. apply Hm.
Qed.

Lemma fetchLoadedUser_true (scope : string) (w : World) (label : string) (b : bool) :
  fst (fetchLoadedUser scope w) !! label = Some b -> b = true.
Proof.
  unfold fetchLoadedUser. destruct (_ || _); [|cbn; rewrite lookup_empty; discriminate].
  unfold mbind, M_bind, mret, M_ret.
  pose proof (getLoadedUserLabels_true w label b) as H.
  destruct (getLoadedUserLabels w) as [[labels e] w1]. cbn [fst] in *.
  destruct e; [rewrite lookup_empty; discriminate | exact H].
Qed.

Lemma backgroundDirs_launchd (s : string) (dirs : list plistDir) :
  backgroundDirs s = Ok dirs -> Forall (launchd_dir s) dirs.
Proof.
  unfold backgroundDirs, launchd_dir, includesUser, includesSystem.
  destruct (String.eqb s "user" || String.eqb s "all");
    [destruct os_UserHomeDir as [home|e]; [|discriminate]|];
    destruct (String.eqb s "system" || String.eqb s "all");
    intros [= <-]; cbn [app];
    repeat (apply Forall_cons_2; [first [left; split; [reflexivity|]; eauto; fail
                                        | right; split; [reflexivity|]; auto]|]);
    apply Forall_nil_2.
Qed.

Lemma scanEntry_listed (s : string) (lu : gmap string bool)
    (dbs : gmap string (gmap string bool)) (d : plistDir)
    (items items' : list BackgroundItem) (e : DirEntry) (w w' : World) :
  (forall label b, lu !! label = Some b -> b = true) ->
  launchd_dir s d ->
  Forall (listed_ok s lu) items ->
  scanEntry lu dbs d items e w = (items', w') ->
  Forall (listed_ok s lu) items'.
Proof.
  intros Hlu Hd Hitems. unfold scanEntry.
  destruct (de_IsDir e) eqn:Hdir; [intros [= <- _]; exact Hitems|].
  destruct (strings.HasSuffix (ToLower (de_Name e)) ".plist") eqn:Hsuf;
    [|intros [= <- _]; exact Hitems].
  cbn [orb negb]. unfold mbind, M_bind, mret, M_ret.
  destruct (readPlistLabel _ w) as [[label|err] w1]; [|intros [= <- _]; exact Hitems].
  destruct (String.eqb label "") eqn:Hlabel; [intros [= <- _]; exact Hitems|].
  apply String.eqb_neq in Hlabel.
  intros [= <- _]. apply Forall_app. split; [exact Hitems|]. apply Forall_singleton.
  assert (Hok : listed_ok s lu
                  (mkBackgroundItem label (filepath_Join (d_dir d) (de_Name e)) (d_scope d)
                     (d_kind d)
                     (String.eqb (d_scope d) "user" && default false (lu !! label)) None)).
  { split; [exact Hlabel|]. split.
    - exists d. split; [exact Hd|]. repeat split. exists (de_Name e). split; [exact Hsuf | reflexivity].
    - cbn [bg_Loaded bg_Scope bg_Label]. rewrite andb_true_iff, String.eqb_eq.
      split; intros [H1 H2]; (split; [exact H1|]).
      + destruct (lu !! label); [eauto | discriminate].
      + destruct H2 as [b Hb]. rewrite Hb. cbn. apply (Hlu label b Hb). }
  destruct (dbs !! d_scope d) as [m|]; [destruct (m !! label)|]; exact Hok.
Qed.

Lemma scanDir_listed (s : string) (lu : gmap string bool)
    (dbs : gmap string (gmap string bool))
    (st st' : list BackgroundItem * list string) (d : plistDir) (w w' : World) :
  (forall label b, lu !! label = Some b -> b = true) ->
  launchd_dir s d ->
  Forall (listed_ok s lu) (fst st) ->
  scanDir lu dbs st d w = (st', w') ->
  Forall (listed_ok s lu) (fst st').
Proof.
  intros Hlu Hd Hst. destruct st as [items ws]. unfold scanDir, readDir.
  unfold mbind, M_bind, mret, M_ret.
  destruct (os_ReadDir w (d_dir d)) as [entries|err].
  - destruct (foldM (scanEntry lu dbs d) entries items w) as [items' w1] eqn:Hfold.
    intros [= <- _]. cbn.
    eapply (foldM_invariant (Forall (listed_ok s lu))); [|exact Hst|exact Hfold].
    intros b a w0 b' w0' Hb _ H. eapply scanEntry_listed; eassumption.
  - destruct (IsNotExist err); intros [= <- _]; exact Hst.
Qed.

(** X23: every item listBackgroundItems returns has a label, was made from a
    file with a .plist name lying directly in one of the launchd
    directories scanned for the scope asked for, carries the scope and kind
    of that directory, and is marked loaded exactly when it is a user agent
    whose label launchctl list printed. *)
Theorem listed_items_well_formed (scope : string) (w w' : World)
    (items : list BackgroundItem) (ws : list string) :
  listBackgroundItems scope w = (Ok (items, ws), w') ->
  Forall (listed_ok (ToLower scope) (fst (fetchLoadedUser (ToLower scope) w))) items.
Proof.
  intros H.
  apply listBackgroundItems_Ok in H
    as (dirs & lu & w1 & dbs & ws1 & w2 & raw & Hdirs & Hlu & Hdbs & Hfold & ->).
  rewrite Hlu. cbn [fst].
  assert (Htrue : forall label b, lu !! label = Some b -> b = true).
  { intros label b. pose proof (fetchLoadedUser_true (ToLower scope) w label b) as Ht.
    rewrite Hlu in Ht. exact Ht. }
  assert (Hraw : Forall (listed_ok (ToLower scope) lu) raw).
  { apply backgroundDirs_launchd in Hdirs.
    apply (foldM_invariant (fun st => Forall (listed_ok (ToLower scope) lu) (fst st))
             (scanDir lu dbs) dirs) with (b := ([], ws1)) (w := w2) (b' := (raw, ws)) (w' := w');
      [|constructor|exact Hfold].
    intros b a w0 b' w0' Hb Ha Hstep. eapply scanDir_listed; [exact Htrue| |exact Hb|exact Hstep].
    rewrite Forall_forall in Hdirs. apply Hdirs. exact Ha. }
  destruct (sort_Slice_sorted backgroundLess) with (l := raw) as [Hperm _].
  { rewrite backgroundLess_lex. apply lexLess_asym. }
  { rewrite backgroundLess_lex. intros a b c. rewrite !lexLess_not_after. apply lex_le_trans. }
  rewrite Hperm. exact Hraw.
Qed.

End Items.
(** ** A service that is already gone *)

Section Bootout.
Context {lib : GoLib} {env : Env}.

Lemma benignPhrases_solid (phrase : string) : phrase ∈ benignPhrases -> solid phrase = true.
Proof.
  unfold benignPhrases. intros H.
  repeat (apply elem_of_cons in H as [-> | H]; [reflexivity|]).
  apply elem_of_nil in H. destruct H.
Qed.

(** launchctl failed and wrote a benign phrase, in any case and with
    anything around it, to its standard error: the error runLaunchctl
    makes of it is one isIgnorableBootoutError ignores. *)
Lemma runLaunchctl_ignorable (args : list string) (w : World) (err : error) (phrase : string) :
  let out := run_command w (cmd_launchctl args) in
  run_err out = Some err ->
  ascii_only (Error err) -> ascii_only (stderr out) ->
  phrase ∈ benignPhrases -> strings.Contains (ToLower (stderr out)) phrase = true ->
  exists e, fst (runLaunchctl args w) = Some e /\ isIgnorableBootoutError e = true.
Proof.
  intros out Herr Ha1 Ha2 Hin Hc.
  pose proof (benignPhrases_solid phrase Hin) as Hsolid.
  assert (Hmsg : strings.Contains (ToLower (TrimSpace (stderr out))) phrase = true).
  { destruct (TrimSpace_split (stderr out) Ha2) as (a & b & Heq & Hba & Hbb & _).
    pose proof (TrimSpace_ascii_only (stderr out) Ha2) as Ht.
    assert (Haa : ascii_only a) by (apply blank_ascii_only; exact Hba).
    assert (Hab : ascii_only b) by (apply blank_ascii_only; exact Hbb).
    assert (Htb : ascii_only (TrimSpace (stderr out) +:+ b))
      by (apply ascii_only_app; split; assumption).
    rewrite Heq in Hc at 1.
    rewrite (ToLower_app a _ Haa Htb), (ToLower_app _ b Ht Hab) in Hc.
    rewrite (ToLower_blank a Hba), (ToLower_blank b Hbb) in Hc.
    unfold solid in Hsolid. apply andb_prop in Hsolid as [Hs1 Hs2].
    apply Contains_strip_left in Hc; [|exact Hba|exact Hs1].
    apply Contains_strip_right in Hc; [exact Hc|exact Hbb|exact Hs2]. }
  assert (Hne : String.eqb (TrimSpace (stderr out)) "" = false).
  { apply String.eqb_neq. intros E. rewrite E in Hmsg.
    unfold solid in Hsolid. apply andb_prop in Hsolid as [Hs1 _].
    destruct phrase; [discriminate Hs1 | discriminate Hmsg]. }
  unfold runLaunchctl, run, mbind, M_bind, mret, M_ret. cbn [fst stderr run_err].
  fold out. rewrite Herr, Hne. cbn [negb].
  eexists. split; [reflexivity|].
  rewrite isIgnorableBootoutError_phrases. apply existsb_exists.
  exists phrase. split; [apply list_elem_of_In; exact Hin|].
  cbn [Error errors_New].
  rewrite ToLower_app; [|exact Ha1|].
  2:{ apply ascii_only_app. split; [reflexivity|].
      apply TrimSpace_ascii_only. exact Ha2. }
  rewrite (ToLower_app ": ") by (try reflexivity; apply TrimSpace_ascii_only; exact Ha2).
  apply Contains_app_l, Contains_app_l. exact Hmsg.
Qed.

(** X24: deleting an item whose service is not running goes through: when the
    bootout fails and launchctl's error text (ASCII) names one of the benign
    conditions, in any case and among any other text, the plist is removed
    all the same.  A plist that is absent is a success; one that is present
    is deleted unless the removal itself fails. *)
Theorem gone_service_is_deleted
    (label plistPath scope absPath domain phrase : string) (w : World) (err : error) :
  let bootout := cmd_launchctl ["bootout"; domain +:+ "/" +:+ label] in
  let out := run_command w bootout in
  let w1 := mkWorld (files w) (trace w ++ [EvRun bootout]) in
  let res := deleteBackgroundItem label plistPath scope w in
  filepath_Abs plistPath = Ok absPath ->
  launchDomain scope = Ok domain ->
  run_err out = Some err ->
  ascii_only (Error err) -> ascii_only (stderr out) ->
  phrase ∈ benignPhrases -> strings.Contains (ToLower (stderr out)) phrase = true ->
  (exists rest, trace (snd res) = trace w ++ EvRun bootout :: EvRemove absPath :: rest)
  /\ (absPath ∉ files w -> fst res = None /\ files (snd res) = files w)
  /\ (absPath ∈ files w -> remove_fault w1 absPath = None ->
        fst res = None /\ files (snd res) = files w ∖ {[absPath]}).
Proof.
  intros bootout out w1 res Habs Hdom Herr Ha1 Ha2 Hin Hc.
  destruct (runLaunchctl_ignorable ["bootout"; domain +:+ "/" +:+ label] w err phrase
              Herr Ha1 Ha2 Hin Hc) as (e & He & Hign).
  pose proof (runLaunchctl_world ["bootout"; domain +:+ "/" +:+ label] w) as Hw1.
  subst res. unfold deleteBackgroundItem. rewrite Habs, Hdom.
  unfold mbind, M_bind.
  destruct (runLaunchctl ["bootout"; domain +:+ "/" +:+ label] w) as [berr w1'].
  cbn [fst snd] in He, Hw1. subst berr. fold bootout in Hw1. fold w1 in Hw1. subst w1'.
  rewrite Hign. cbn [negb].
  unfold os_Remove, record, mret, M_ret. cbn [files trace w1].
  destruct (decide (absPath ∈ files w)) as [Hin' | Hout].
  - destruct (remove_fault _ absPath) as [msg|] eqn:Hfault; cbn.
    + split; [exists []; rewrite <- app_assoc; reflexivity|].
      split; [intros H; destruct (H Hin')|]. intros _ H. fold w1 in Hfault. congruence.
    + split; [eexists; rewrite <- !app_assoc; reflexivity|].
      split; [intros H; destruct (H Hin')|]. intros _ _. split; reflexivity.
  - cbn. split; [exists []; rewrite <- app_assoc; reflexivity|].
    split; [intros _; split; reflexivity|]. intros H. destruct (Hout H).
Qed.

End Bootout.
(** ** The filter *)

Lemma Contains_empty (p : string) : strings.Contains "" p = true -> p = "".
Proof. destruct p; [reflexivity | discriminate]. Qed.

Lemma filter_sublist {A : Type} (p q : A -> bool) (l : list A) :
  (forall x, p x = true -> q x = true) -> sublist (List.filter p l) (List.filter q l).
Proof.
  intros H. induction l as [|x l IH]; cbn; [constructor|].
  destruct (p x) eqn:Hp.
  - rewrite (H x Hp). constructor. exact IH.
  - destruct (q x); [constructor|]; exact IH.
Qed.

Lemma map_sublist {A B : Type} (f : A -> B) (l1 l2 : list A) :
  sublist l1 l2 -> sublist (map f l1) (map f l2).
Proof. induction 1; cbn; constructor; assumption. Qed.

Section Filter.
Context {lib : GoLib}.

Lemma trimSpaceBack_blank_app (x r : string) :
  blank x -> trimSpaceBack (x +:+ r) = trimSpaceBack r.
Proof.
  unfold blank. induction x as [|c x IH]; intros H; [reflexivity|].
  cbn in H. apply andb_prop in H as [Hc Hx]. rewrite str_app_cons. cbn [trimSpaceBack].
  rewrite (asciiSpace_isASCII c Hc), Hc. cbn [negb]. exact (IH Hx).
Qed.

(** Blanks around ASCII text do not change what TrimSpace returns. *)
Lemma TrimSpace_blank_app (a s b : string) :
  blank a -> blank b -> ascii_only s -> TrimSpace (a +:+ s +:+ b) = TrimSpace s.
Proof.
  intros Ha Hb Hs.
  assert (Hl : forall x y, blank x -> TrimSpace (x +:+ y) = TrimSpace y).
  { unfold blank. induction x as [|c x IH]; intros y H; [reflexivity|].
    cbn in H. apply andb_prop in H as [Hc Hx]. rewrite str_app_cons. cbn [TrimSpace].
    rewrite (asciiSpace_isASCII c Hc), Hc. cbn [negb]. exact (IH y Hx). }
  rewrite (Hl a _ Ha). clear Hl Ha a.
  unfold ascii_only in Hs. induction s as [|c s IH].
  - change ("" +:+ b) with b. apply TrimSpace_blank. exact Hb.
  - cbn in Hs. apply andb_prop in Hs as [Hc Hs]. rewrite str_app_cons. cbn [TrimSpace].
    rewrite Hc. cbn [negb]. destruct (strings.asciiSpace c); [exact (IH Hs)|].
    rewrite <- str_app_cons, str_rev_app. apply trimSpaceBack_blank_app.
    unfold blank. rewrite str_forall_rev. exact Hb.
Qed.

(** What the filter looks for: the query in lower case, trimmed. *)
Lemma needle_grows (q t : string) :
  ascii_only q -> ascii_only t ->
  TrimSpace (ToLower q) = "" \/
  strings.Contains (TrimSpace (ToLower (q +:+ t))) (TrimSpace (ToLower q)) = true.
Proof.
  intros Hq Ht. rewrite (ToLower_app q t Hq Ht).
  pose proof (ToLower_ascii_only q Hq) as HL. pose proof (ToLower_ascii_only t Ht) as HT.
  set (L := ToLower q) in *. set (T := ToLower t) in *.
  destruct (TrimSpace_split L HL) as (a & b & Heq & Ha & Hb & [Hcore | [Hs1 Hs2]]);
    [left; exact Hcore|].
  right.
  assert (HLT : ascii_only (L +:+ T)) by (apply ascii_only_app; split; assumption).
  destruct (TrimSpace_split (L +:+ T) HLT) as (a' & b' & Heq' & Ha' & Hb' & _).
  assert (Hc : strings.Contains (a' +:+ TrimSpace (L +:+ T) +:+ b') (TrimSpace L) = true).
  { rewrite <- Heq'. apply Contains_iff. exists a, (b +:+ T).
    rewrite Heq at 1. rewrite !str_app_assoc. reflexivity. }
  apply Contains_strip_left in Hc; [|exact Ha'|exact Hs1].
  apply Contains_strip_right in Hc; [exact Hc|exact Hb'|exact Hs2].
Qed.

Lemma narrows_by_needle (q t : string) (hay : list string) :
  ascii_only q -> ascii_only t ->
  (TrimSpace (ToLower (q +:+ t)) = "" \/
   existsb (fun h => strings.Contains h (TrimSpace (ToLower (q +:+ t)))) hay = true) ->
  TrimSpace (ToLower q) = "" \/
  existsb (fun h => strings.Contains h (TrimSpace (ToLower q))) hay = true.
Proof.
  intros Hq Ht H. destruct (needle_grows q t Hq Ht) as [Hn | Hn]; [left; exact Hn|].
  destruct H as [H | H].
  - left. rewrite H in Hn. apply Contains_empty. exact Hn.
  - right. apply existsb_exists in H as (h & Hin & Hh). apply existsb_exists.
    exists h. split; [exact Hin|]. eapply Contains_trans; eassumption.
Qed.

Lemma matchesLoginFilter_needle (it : LoginItem) (q : string) :
  matchesLoginFilter it q = true <->
  TrimSpace (ToLower q) = "" \/
  existsb (fun h => strings.Contains h (TrimSpace (ToLower q)))
    [ToLower (li_Name it); ToLower (li_Path it)] = true.
Proof.
  unfold matchesLoginFilter. cbn [existsb]. rewrite orb_false_r.
  destruct (String.eqb_spec (TrimSpace (ToLower q)) ""); split; auto.
  intros [H | H]; [contradiction | exact H].
Qed.

Lemma matchesBackgroundFilter_needle (it : BackgroundItem) (q : string) :
  matchesBackgroundFilter it q = true <->
  TrimSpace (ToLower q) = "" \/
  existsb (fun h => strings.Contains h (TrimSpace (ToLower q)))
    [ToLower (bg_Label it); ToLower (bg_Path it); ToLower (bg_Scope it);
     ToLower (bg_Kind it)] = true.
Proof.
  unfold matchesBackgroundFilter. cbn [existsb]. rewrite orb_false_r, !orb_assoc.
  destruct (String.eqb_spec (TrimSpace (ToLower q)) ""); split; auto.
  intros [H | H]; [contradiction | exact H].
Qed.

Lemma matchesExtensionsFilter_needle (it : SystemExtensionItem) (q : string) :
  matchesExtensionsFilter it q = true <->
  TrimSpace (ToLower q) = "" \/
  existsb (fun h => strings.Contains h (TrimSpace (ToLower q)))
    [ToLower (ext_Category it); ToLower (ext_TeamID it); ToLower (ext_BundleID it);
     ToLower (ext_Name it); ToLower (ext_State it)] = true.
Proof.
  unfold matchesExtensionsFilter. cbn [existsb]. rewrite orb_false_r, !orb_assoc.
  destruct (String.eqb_spec (TrimSpace (ToLower q)) ""); split; auto.
  intros [H | H]; [contradiction | exact H].
Qed.

Lemma matches_narrow (q t : string) :
  ascii_only q -> ascii_only t ->
  (forall it, matchesLoginFilter it (q +:+ t) = true -> matchesLoginFilter it q = true)
  /\ (forall it, matchesBackgroundFilter it (q +:+ t) = true ->
                 matchesBackgroundFilter it q = true)
  /\ (forall it, matchesExtensionsFilter it (q +:+ t) = true ->
                 matchesExtensionsFilter it q = true).
Proof.
  intros Hq Ht. split; [|split]; intros it H.
  - apply matchesLoginFilter_needle. apply matchesLoginFilter_needle in H.
    eapply narrows_by_needle; eassumption.
  - apply matchesBackgroundFilter_needle. apply matchesBackgroundFilter_needle in H.
    eapply narrows_by_needle; eassumption.
  - apply matchesExtensionsFilter_needle. apply matchesExtensionsFilter_needle in H.
    eapply narrows_by_needle; eassumption.
Qed.

(** X14: a longer query narrows: for ASCII text, the items of a list
    that match a query with more text after it are, in the same order,
    among the items that match the query itself, in each of the three
    tabs. *)
Theorem filter_narrows (q t : string) :
  ascii_only q -> ascii_only t ->
  (forall items,
     sublist (List.filter (fun it => matchesLoginFilter it (q +:+ t)) items)
       (List.filter (fun it => matchesLoginFilter it q) items))
  /\ (forall items,
        sublist (List.filter (fun it => matchesBackgroundFilter it (q +:+ t)) items)
          (List.filter (fun it => matchesBackgroundFilter it q) items))
  /\ (forall items,
        sublist (List.filter (fun it => matchesExtensionsFilter it (q +:+ t)) items)
          (List.filter (fun it => matchesExtensionsFilter it q) items)).
Proof.
  intros Hq Ht. destruct (matches_narrow q t Hq Ht) as (N1 & N2 & N3).
  split; [|split]; intros items; apply filter_sublist; assumption.
Qed.

(** X15: the filter reads the query in lower case and trimmed: for an ASCII
    query, its case and any blanks before and after it make no
    difference, and a query of blanks only matches every item. *)
Theorem filter_ignores_case_and_blanks (q a b : string) :
  ascii_only q -> blank a -> blank b ->
  let q' := a +:+ ToLower q +:+ b in
  (forall it, matchesLoginFilter it q' = matchesLoginFilter it q)
  /\ (forall it, matchesBackgroundFilter it q' = matchesBackgroundFilter it q)
  /\ (forall it, matchesExtensionsFilter it q' = matchesExtensionsFilter it q)
  /\ (forall it, matchesLoginFilter it (a +:+ b) = true)
  /\ (forall it, matchesBackgroundFilter it (a +:+ b) = true)
  /\ (forall it, matchesExtensionsFilter it (a +:+ b) = true).
Proof.
  intros Hq Ha Hb q'.
  pose proof (ToLower_ascii_only q Hq) as HL.
  assert (Hn : TrimSpace (ToLower q') = TrimSpace (ToLower q)).
  { subst q'. rewrite ToLower_app.
    - rewrite ToLower_app by (try assumption; apply blank_ascii_only; assumption).
      rewrite (ToLower_blank a Ha), (ToLower_blank b Hb), (ToLower_idem q Hq).
      apply TrimSpace_blank_app; assumption.
    - apply blank_ascii_only. exact Ha.
    - apply ascii_only_app. split; [exact HL | apply blank_ascii_only; exact Hb]. }
  assert (Hab : TrimSpace (ToLower (a +:+ b)) = "").
  { assert (Hbl : blank (a +:+ b)) by (apply blank_app; split; assumption).
    rewrite (ToLower_blank _ Hbl). apply TrimSpace_blank. exact Hbl. }
  unfold matchesLoginFilter, matchesBackgroundFilter, matchesExtensionsFilter.
  rewrite Hn, Hab. repeat split; reflexivity.
Qed.

(** X13: in the browser, a key pressed while the filter is edited, other than
    backspace, never brings a row back.  The rows shown after the key are
    a sublist of the rows shown before it. *)
Theorem typing_narrows (m : uiModel) (k : KeyMsg) :
  confirmMode m = false -> filterActive m = true ->
  table.Rows (table m) = visibleRows m ->
  ascii_only (filter m) -> ascii_only (key_String k) ->
  key_String k <> "backspace" ->
  sublist (table.Rows (table (after m (teaKeyMsg k)))) (table.Rows (table m)).
Proof.
  intros Hc Hf Hrows Hq Hk Hbs.
  assert (Hsub : sublist (visibleRows (set_filter (filter m +:+ key_String k) m))
                   (visibleRows m)).
  { unfold visibleRows. cbn [tab loginItems bgItems extItems set_filter].
    destruct (matches_narrow (filter m) (key_String k) Hq Hk) as (N1 & N2 & N3).
    destruct (tab m =? tabLogin); [|destruct (tab m =? tabBackground)];
      apply map_sublist, filter_sublist; intros x;
      unfold loginMatches, backgroundMatches, extensionsMatches;
      cbn [filter set_filter]; auto. }
  apply String.eqb_neq in Hbs.
  unfold after, Update, updateKey. rewrite Hc, Hf, Hbs.
  destruct (String.eqb (key_String k) "ctrl+c"); [reflexivity|].
  destruct (_ || _); [reflexivity|].
  destruct (key_Type k); [|reflexivity].
  rewrite rebuildTable_rows, Hrows. exact Hsub.
Qed.

End Filter.
(** ** Columns and rows of systemextensionsctl *)




Section Extensions.
Context {lib : GoLib} {env : Env}.









End Extensions.
(** ** Every state the browser reaches *)

Section ReachableStates.
Context {lib : GoLib}.

(** X12: whatever messages arrive, in whatever order, the rows on screen and
    the index slice of the active tab are those of the tab's snapshot under
    the current filter, as long as the table widget leaves its rows alone
    when it handles a key. *)
Theorem reachable_rows_in_step (msgs : list Msg) :
  (forall k t, table.Rows (table_Update k t) = table.Rows t) ->
  rows_in_step (run_messages newUIModel msgs).
Proof.
  intros Hrows. unfold run_messages.
  apply (fold_left_invariant rows_in_step); [apply newUIModel_in_step|].
  intros m msg Hm. unfold after.
  destruct (Update m msg) as [[m' c]|] eqn:E; [|exact Hm].
  eapply Update_keeps_rows_in_step; eassumption.
Qed.

End ReachableStates.
(** ** The printed tables *)

Section PrintFacts.
Variable utf8 : string -> Z.

Lemma spaces_length (n : nat) : String.length (spaces n) = n.
Proof. induction n as [|n IH]; [reflexivity|]. cbn. rewrite IH. reflexivity. Qed.

Lemma fmt_s_left_length (width : Z) (s : string) :
  fits width s -> String.length (fmt_s_left utf8 width s) = Z.to_nat width.
Proof.
  intros [Ha Hl]. unfold fmt_s_left, runeCount. unfold ascii_only in Ha. rewrite Ha.
  rewrite str_length_app, spaces_length. unfold len in *. lia.
Qed.

Lemma fmt_t_fits (width : Z) (b : bool) : 5 <= width -> fits width (fmt_t b).
Proof. intros H. destruct b; (split; [reflexivity | unfold len; cbn; lia]). Qed.

Lemma fmt_s_left_short (width : Z) (s : string) :
  fits width s -> exists pad, fmt_s_left utf8 width s = s +:+ pad /\ blank pad.
Proof.
  intros _. unfold fmt_s_left. eexists. split; [reflexivity|].
  unfold blank. induction (Z.to_nat _) as [|n IH]; [reflexivity | exact IH].
Qed.

(** What follows a padded column starts at the column's width plus one. *)
Lemma after_column (width : Z) (s rest : string) :
  fits width s -> 0 <= width ->
  str_drop (Z.to_nat (width + 1)) (fmt_s_left utf8 width s +:+ " " +:+ rest) = rest.
Proof.
  intros Hs Hw.
  change (fmt_s_left utf8 width s +:+ " " +:+ rest)
    with (fmt_s_left utf8 width s +:+ (" " +:+ rest)).
  rewrite <- str_app_assoc.
  replace (Z.to_nat (width + 1)) with (String.length (fmt_s_left utf8 width s +:+ " ")).
  - apply str_drop_app.
  - rewrite str_length_app, (fmt_s_left_length width s Hs). cbn. lia.
Qed.

Lemma str_drop_add (a b : nat) (s : string) : str_drop (a + b) s = str_drop b (str_drop a s).
Proof.
  revert s. induction a as [|a IH]; intros s; [reflexivity|].
  destruct s as [|c s]; cbn [Nat.add str_drop]; [destruct b; reflexivity | apply IH].
Qed.

(** X27: the last column of every printed row starts where the last column
    title of its table starts, as long as the columns before it hold ASCII
    text that fits their width: PATH at byte 40 of the login table, LABEL at
    byte 34 of the background table, NAME at byte 109 of the extension
    table. *)
Theorem printed_columns_align :
  (str_drop 40 (loginHeader utf8) = "PATH"
   /\ forall it, fits 32 (li_Name it) -> str_drop 40 (loginLine utf8 it) = li_Path it)
  /\ (str_drop 34 (backgroundHeader utf8) = "LABEL"
      /\ forall it, fits 8 (bg_Scope it) -> fits 7 (bg_Kind it) ->
           str_drop 34 (backgroundLine utf8 it) = bg_Label it)
  /\ (str_drop 109 (extensionsHeader utf8) = "NAME"
      /\ forall it, fits 43 (ext_Category it) -> fits 10 (ext_TeamID it) ->
           fits 38 (ext_BundleID it) ->
           str_drop 109 (extensionPrintLine utf8 it) = ext_Name it).
Proof.
  split; [|split]; (split; [vm_compute; reflexivity|]).
  - intros it H1. unfold loginLine, fmt_t_left.
    change 40%nat with (Z.to_nat (32 + 1) + Z.to_nat (6 + 1))%nat.
    rewrite str_drop_add, after_column by (assumption || lia).
    apply after_column; [apply fmt_t_fits|]; lia.
  - intros it H1 H2. unfold backgroundLine, fmt_t_left. cbv zeta.
    change 34%nat
      with (Z.to_nat (8 + 1) + (Z.to_nat (7 + 1) + (Z.to_nat (7 + 1) + Z.to_nat (8 + 1))))%nat.
    rewrite !str_drop_add.
    rewrite after_column by (assumption || lia).
    rewrite after_column by (assumption || lia).
    rewrite after_column by (try apply fmt_t_fits; lia).
    apply after_column; [|lia].
    destruct (bg_Disabled it) as [d|]; [apply fmt_t_fits; lia|].
    split; [reflexivity | unfold len; cbn; lia].
  - intros it H1 H2 H3. unfold extensionPrintLine, fmt_t_left.
    change 109%nat
      with (Z.to_nat (43 + 1) + (Z.to_nat (7 + 1) + (Z.to_nat (6 + 1)
            + (Z.to_nat (10 + 1) + Z.to_nat (38 + 1)))))%nat.
    rewrite !str_drop_add.
    rewrite after_column by (assumption || lia).
    rewrite after_column by (try apply fmt_t_fits; lia).
    rewrite after_column by (try apply fmt_t_fits; lia).
    rewrite after_column by (assumption || lia).
    apply after_column; [assumption | lia].
Qed.

Lemma println_world (line : string) (w : World) :
  println line w = (tt, mkWorld (files w) (trace w ++ [EvPrint line])).
Proof. reflexivity. Qed.

Lemma print_lines {A : Type} (line : A -> string) (items : list A) (w : World) :
  foldM (fun _ it => println (line it)) items tt w
  = (tt, mkWorld (files w) (trace w ++ map (fun it => EvPrint (line it)) items)).
Proof.
  revert w. induction items as [|it items IH]; intros w; cbn [foldM map].
  - rewrite app_nil_r. destruct w. reflexivity.
  - unfold mbind, M_bind. rewrite println_world, IH. cbn [files trace].
    rewrite <- app_assoc. reflexivity.
Qed.

Lemma print_line_pairs {A : Type} (l1 l2 : A -> string) (items : list A) (w : World) :
  foldM (fun _ it => _ ← println (l1 it); println (l2 it)) items tt w
  = (tt, mkWorld (files w)
           (trace w ++ concat (map (fun it => [EvPrint (l1 it); EvPrint (l2 it)]) items))).
Proof.
  revert w. induction items as [|it items IH]; intros w; cbn [foldM map concat].
  - rewrite app_nil_r. destruct w. reflexivity.
  - unfold mbind at 1. unfold M_bind at 1. unfold mbind at 1. unfold M_bind at 1.
    rewrite !println_world, IH. cbn [files trace].
    rewrite <- !app_assoc. reflexivity.
Qed.

(** X28: the printers print and do nothing else.  An empty list gives the one
    line that says so; any other list gives the column titles and then the
    items in the order of the list, one line each, and for a background
    item a second line with its path. *)
Theorem printers_print_every_item (w : World) :
  (forall items,
     snd (printLoginItems utf8 items w)
     = mkWorld (files w)
         (trace w ++ (if decide (items = []) then [EvPrint "No login items found"]
                      else EvPrint (loginHeader utf8)
                           :: map (fun it => EvPrint (loginLine utf8 it)) items)))
  /\ (forall items,
        snd (printBackgroundItems utf8 items w)
        = mkWorld (files w)
            (trace w ++ (if decide (items = []) then [EvPrint "No background items found"]
                         else EvPrint (backgroundHeader utf8)
                              :: concat (map (fun it => [EvPrint (backgroundLine utf8 it);
                                                         EvPrint (backgroundPathLine it)])
                                           items))))
  /\ (forall items,
        snd (printSystemExtensions utf8 items w)
        = mkWorld (files w)
            (trace w ++ (if decide (items = []) then [EvPrint "No system extensions found"]
                         else EvPrint (extensionsHeader utf8)
                              :: map (fun it => EvPrint (extensionPrintLine utf8 it)) items))).
Proof.
  split; [|split]; intros [|it items]; try reflexivity.
  - unfold printLoginItems. cbn [length]. 
    replace (Z.of_nat (S (length items)) =? 0) with false by (symmetry; apply Z.eqb_neq; lia).
    unfold mbind, M_bind. rewrite println_world, print_lines. cbn [snd files trace].
    rewrite <- app_assoc. reflexivity.
  - unfold printBackgroundItems. cbn [length].
    replace (Z.of_nat (S (length items)) =? 0) with false by (symmetry; apply Z.eqb_neq; lia).
    unfold mbind at 1. unfold M_bind at 1. rewrite println_world, print_line_pairs.
    cbn [snd files trace]. rewrite <- app_assoc. reflexivity.
  - unfold printSystemExtensions. cbn [length].
    replace (Z.of_nat (S (length items)) =? 0) with false by (symmetry; apply Z.eqb_neq; lia).
    unfold mbind, M_bind. rewrite println_world, print_lines. cbn [snd files trace].
    rewrite <- app_assoc. reflexivity.
Qed.

End PrintFacts.
(** ** The properties on concrete machines and browsers *)

(** The delete key on the selected agent puts the browser in confirm mode
    with that agent pending. *)
Lemma Update_keeps_modes_witness :
  modes_ok agentModel
  /\ Update (lib := exampleLib) agentModel (keyRune "x") = Some (confirmModel, None)
  /\ modes_ok confirmModel.
Proof.
  assert (H1 : modes_ok agentModel) by (vm_compute; reflexivity).
  assert (H2 : Update (lib := exampleLib) agentModel (keyRune "x") = Some (confirmModel, None))
    by (vm_compute; reflexivity).
  split; [exact H1|]. split; [exact H2|].
  exact (Update_keeps_modes (lib := exampleLib) agentModel confirmModel (keyRune "x") None H1 H2).
Defined.

(** The confirm key issues the delete of the pending agent. *)
Lemma Update_issues_on_trigger_witness :
  Update (lib := exampleLib) confirmModel (keyRune "y")
  = Some (set_status "Deleting background item..." (set_confirm None false "" confirmModel),
          Some (deleteBackgroundCmd fooAgent))
  /\ issued_by (lib := exampleLib) confirmModel (keyRune "y") (deleteBackgroundCmd fooAgent).
Proof.
  assert (H : Update (lib := exampleLib) confirmModel (keyRune "y")
              = Some (set_status "Deleting background item..."
                        (set_confirm None false "" confirmModel),
                      Some (deleteBackgroundCmd fooAgent)))
    by (vm_compute; reflexivity).
  split; [exact H|].
  exact (Update_issues_on_trigger (lib := exampleLib) confirmModel _ (keyRune "y") _ H).
Defined.

(** ctrl+c quits while a delete is pending. *)
Lemma ctrl_c_always_quits_witness :
  Update (lib := exampleLib) confirmModel (keyNamed "ctrl+c")
  = Some (confirmModel, Some tea_Quit).
Proof.
  exact (ctrl_c_always_quits (lib := exampleLib) confirmModel (mkKey KeyNotRunes "ctrl+c")
           eq_refl).
Defined.

(** A failed refresh of the login items keeps the two items loaded. *)
Lemma load_touches_own_domain_witness :
  let m' := after (lib := exampleLib) loadedModel
              (loginLoadedMsg [] (Some (errors_New "osascript login list failed"))) in
  loginItems m' = twoLoginItems
  /\ err m' = Some (errors_New "osascript login list failed").
Proof.
  intros m'.
  destruct (load_touches_own_domain (lib := exampleLib) loadedModel) as [Hfailed _].
  destruct (Hfailed (loginLoadedMsg [] (Some (errors_New "osascript login list failed")))
              (errors_New "osascript login list failed")
              (or_introl (ex_intro _ [] eq_refl)))
    as (H1 & _ & _ & _ & _ & _ & _ & H8).
  split; [exact H1 | exact H8].
Defined.

(** With "ab" in the filter, typing c and pressing backspace. *)
Lemma backspace_undoes_typing_witness :
  after (lib := exampleLib) (after (lib := exampleLib) editingModel (keyRune "c"))
    (keyNamed "backspace")
  = rebuildTable (lib := exampleLib) 0 editingModel.
Proof.
  exact (backspace_undoes_typing (lib := exampleLib) editingModel (mkKey KeyRunes "c")
           (mkKey KeyNotRunes "backspace") "c"%char
           eq_refl eq_refl eq_refl eq_refl eq_refl eq_refl eq_refl).
Defined.

(** From the login tab: to the background tab and back, and once around. *)
Lemma tab_round_trip_witness :
  same_screen (rebuildTable (lib := exampleLib) 0 loadedModel)
    (after (lib := exampleLib) (after (lib := exampleLib) loadedModel (keyNamed "tab"))
       (keyNamed "shift+tab"))
  /\ same_screen (rebuildTable (lib := exampleLib) 0 loadedModel)
       (after (lib := exampleLib)
          (after (lib := exampleLib)
             (after (lib := exampleLib) loadedModel (keyNamed "tab")) (keyNamed "tab"))
          (keyNamed "tab")).
Proof.
  destruct (tab_round_trip (lib := exampleLib) loadedModel (mkKey KeyNotRunes "tab")
              (mkKey KeyNotRunes "shift+tab") (conj eq_refl eq_refl) (or_introl eq_refl)
              eq_refl eq_refl) as (H1 & _ & H3).
  split; [exact H1 | exact H3].
Defined.

(** The cursor on the second login row selects Raycast. *)
Lemma in_step_cursor_selects_witness :
  selectedLoginItem secondRowModel
  = Some (mkLoginItem "Raycast" "/Applications/Raycast.app" false, true).
Proof.
  assert (Hstep : rows_in_step (lib := exampleLib) secondRowModel).
  { split; [left; reflexivity|]. split; [vm_compute; reflexivity|].
    split; [intros _; vm_compute; reflexivity|]. split; intros H; discriminate H. }
  assert (Hcur : 0 <= table.Cursor (table secondRowModel)
                 < slen (table.Rows (table secondRowModel))).
  { split; [apply Z.leb_le | apply Z.ltb_lt]; reflexivity. }
  destruct (in_step_cursor_selects (lib := exampleLib) secondRowModel Hstep Hcur) as [H _].
  destruct (H eq_refl) as (it & Hsel & Hflt & _).
  rewrite Hsel. f_equal. f_equal. vm_compute in Hflt. injection Hflt as <-. reflexivity.
Defined.

(** Resizing, a loaded list and two keys of filter editing. *)
Lemma reachable_rows_in_step_witness :
  rows_in_step (lib := exampleLib)
    (run_messages (lib := exampleLib) newUIModel
       [WindowSizeMsg 120 30; loginLoadedMsg twoLoginItems None; keyRune "/"; keyRune "r"]).
Proof.
  apply (reachable_rows_in_step (lib := exampleLib)).
  intros k t. cbn [table_Update exampleLib].
  destruct (String.eqb (key_String k) "down"); [reflexivity|].
  destruct (String.eqb (key_String k) "up"); reflexivity.
Defined.

(** Typing c after "ab": no row comes back. *)
Lemma typing_narrows_witness :
  sublist (table.Rows (table (after (lib := exampleLib) editingModel (keyRune "c"))))
    (table.Rows (table editingModel)).
Proof.
  apply (typing_narrows (lib := exampleLib) editingModel (mkKey KeyRunes "c"));
    [reflexivity | reflexivity | vm_compute; reflexivity | reflexivity | reflexivity
    | discriminate].
Defined.

(** What "ray" shows of the two login items is among what "ra" shows. *)
Lemma filter_narrows_witness :
  sublist
    (List.filter (fun it => matchesLoginFilter (lib := exampleLib) it ("ra" +:+ "y"))
       twoLoginItems)
    (List.filter (fun it => matchesLoginFilter (lib := exampleLib) it "ra") twoLoginItems).
Proof.
  destruct (filter_narrows (lib := exampleLib) "ra" "y" eq_refl eq_refl) as (H & _).
  exact (H twoLoginItems).
Defined.

(** " ray " filters as "Ray" does, and "  " hides nothing. *)
Lemma filter_ignores_case_and_blanks_witness :
  (forall it, matchesLoginFilter (lib := exampleLib) it
                (" " +:+ ToLower (lib := exampleLib) "Ray" +:+ " ")
              = matchesLoginFilter (lib := exampleLib) it "Ray")
  /\ (forall it, matchesLoginFilter (lib := exampleLib) it (" " +:+ " ") = true).
Proof.
  destruct (filter_ignores_case_and_blanks (lib := exampleLib) "Ray" " " " "
              eq_refl eq_refl eq_refl) as (H1 & _ & _ & H4 & _).
  split; [exact H1 | exact H4].
Defined.

(** A bundle column put together and taken apart again. *)
Lemma parseBundleVersion_splits_witness :
  parseBundleVersion ("com.example.filter" +:+ " (" +:+ "2.1" +:+ ")")
  = ("com.example.filter", "2.1").
Proof. exact (parseBundleVersion_splits "com.example.filter" "2.1" eq_refl). Defined.

(** The scope "global" is refused and the agent's plist stays. *)
Lemma invalid_scope_changes_nothing_witness :
  deleteBackgroundItem (lib := exampleLib) (env := goneEnv)
    "com.foo.agent" agentPlist "global" agentWorld
  = (Some invalidScope, agentWorld)
  /\ runCmd (lib := exampleLib) (env := goneEnv)
       (toggleBackgroundCmd "com.foo.agent" "global" false) agentWorld
     = (Some (actionDoneMsg "" (Some invalidScope)), agentWorld).
Proof.
  destruct (invalid_scope_changes_nothing (lib := exampleLib) (env := goneEnv)
              "com.foo.agent" agentPlist "global" agentWorld)
    as (_ & Hdelete & Htoggle).
  - intros H. vm_compute in H. discriminate H.
  - intros H. vm_compute in H. discriminate H.
  - split; [exact (Hdelete agentPlist eq_refl) | exact (Htoggle false)].
Defined.

(** USER names the domain that user names. *)
Lemma scope_case_insensitive_witness :
  launchDomain (lib := exampleLib) (env := goneEnv) (ToLower (lib := exampleLib) "USER")
  = launchDomain (lib := exampleLib) (env := goneEnv) "USER"
  /\ launchDomain (lib := exampleLib) (env := goneEnv) "USER" = Ok "gui/501".
Proof.
  destruct (scope_case_insensitive (lib := exampleLib) (env := goneEnv) "USER" eq_refl)
    as (H & _).
  split; [exact H | reflexivity].
Defined.

(** Refreshing the background items on the machine that denies changes. *)
Lemma listings_only_read_witness :
  extends is_query emptyWorld
    (snd (runCmd (lib := exampleLib) (env := deniedEnv) refreshBackgroundCmd emptyWorld)).
Proof.
  destruct (listings_only_read (lib := exampleLib) (env := deniedEnv) emptyWorld)
    as (_ & _ & _ & H).
  exact (H refreshBackgroundCmd (or_intror (or_introl eq_refl))).
Defined.

(** Deleting the agent removes its plist, and the command names it. *)
Lemma commands_remove_only_the_plist_witness :
  exists item, deleteBackgroundCmd fooAgent = deleteBackgroundCmd item
               /\ filepath_Abs (Env := goneEnv) (bg_Path item) = Ok agentPlist.
Proof.
  destruct (commands_remove_only_the_plist (lib := exampleLib) (env := goneEnv)
              (deleteBackgroundCmd fooAgent) agentWorld) as (_ & H).
  apply (H agentPlist).
  - unfold agentWorld. cbn [files]. apply elem_of_singleton_2. reflexivity.
  - intros Hin. vm_compute in Hin. discriminate Hin.
Defined.

(** With the home directory known, listing all scopes succeeds although
    launchctl refuses to print the system's disabled services. *)
Lemma listBackgroundItems_failures_witness :
  exists items ws w',
    listBackgroundItems (lib := exampleLib) (env := deniedEnv) "all" emptyWorld
    = (Ok (items, ws), w').
Proof.
  destruct (listBackgroundItems_failures (lib := exampleLib) (env := deniedEnv) "all" emptyWorld)
    as (_ & H).
  apply H. right. split; [right; reflexivity|]. exists "/Users/test". reflexivity.
Defined.

(** The two items found on the machine that denies changes. *)
Lemma listed_items_well_formed_witness :
  let res := listBackgroundItems (lib := exampleLib) (env := deniedEnv) "all" emptyWorld in
  let sysItem := mkBackgroundItem "com.a" "/Library/LaunchDaemons/com.a.plist"
                   "system" "daemon" false None in
  let userItem := mkBackgroundItem "com.a" "/Users/test/Library/LaunchAgents/com.a.plist"
                    "user" "agent" true (Some true) in
  Forall (listed_ok (lib := exampleLib) (env := deniedEnv) "all"
            (fst (fetchLoadedUser (lib := exampleLib) (env := deniedEnv) "all" emptyWorld)))
    [sysItem; userItem].
Proof.
  intros res sysItem userItem.
  assert (Hres : res = (Ok ([sysItem; userItem],
                            ["could not read system disabled state (try sudo): exit status 1"]),
                        snd res)).
  { apply injective_projections; [vm_compute; reflexivity | reflexivity]. }
  exact (listed_items_well_formed (lib := exampleLib) (env := deniedEnv) "all" emptyWorld
           (snd res) _ _ Hres).
Defined.

(** The service is gone, launchctl says so with capitals and a prefix,
    and the plist is deleted. *)
Lemma gone_service_is_deleted_witness :
  let res := deleteBackgroundItem (lib := exampleLib) (env := goneEnv)
               "com.foo.agent" agentPlist "user" agentWorld in
  fst res = None /\ files (snd res) = files agentWorld ∖ {[agentPlist]}.
Proof.
  intros res.
  destruct (gone_service_is_deleted (lib := exampleLib) (env := goneEnv)
              "com.foo.agent" agentPlist "user" agentPlist "gui/501" "no such process"
              agentWorld (errors_New "exit status 3")
              eq_refl eq_refl eq_refl eq_refl eq_refl (list_elem_of_here _ _) eq_refl)
    as (_ & _ & H).
  apply H; [|reflexivity].
  unfold agentWorld. cbn [files]. apply elem_of_singleton_2. reflexivity.
Defined.



(** A column put back from the two parts of the Tailscale row. *)
Lemma parseBundleVersion_rebuilds_witness :
  "io.tailscale.ipn.macsys.network-extension (1.94.1/101.94.1)"
  = "io.tailscale.ipn.macsys.network-extension" +:+ " (" +:+ "1.94.1/101.94.1" +:+ ")".
Proof.
  destruct (parseBundleVersion_rebuilds
              "io.tailscale.ipn.macsys.network-extension (1.94.1/101.94.1)"
              "io.tailscale.ipn.macsys.network-extension" "1.94.1/101.94.1" eq_refl)
    as [[H _] | H]; [discriminate H | exact H].
Defined.

(** The row of Alpha: its path starts at byte 40, under PATH. *)
Lemma printed_columns_align_witness :
  str_drop 40 (loginLine (fun _ => 0)
                 (mkLoginItem "Alpha" "/Applications/Alpha.app" false))
  = "/Applications/Alpha.app".
Proof.
  destruct (printed_columns_align (fun _ => 0)) as ((_ & H) & _).
  apply (H (mkLoginItem "Alpha" "/Applications/Alpha.app" false)).
  split; [reflexivity | apply Z.leb_le; reflexivity].
Defined.
